(** * Timestable tutor backend: session orchestration and adaptive progress

    A shallow embedding of the Python backend
    ([models/student.py], [services/memory_service.py],
    [agents/math_tutor_agent.py], [agents/facts_agent.py],
    [agents/coordinator_agent.py]) together with the properties of its
    progress store, session repository, activity selection and
    pause/resume life cycle.

    Conventions of the embedding:
    - Python [int] is [Z]; a [dict] is an association list in insertion
      order (Python dicts iterate in insertion order); the service's
      session table and the directory of session files are [gmap]s keyed
      by session id.
    - [str] is [string]; the [str] methods are rendered on 8-bit
      characters, with the white space and the letters of the ASCII range.
    - Operations that mutate the service or the coordinator are state
      transformers whose outcome is a returned value or a raised
      exception, each with the state reached at that point.
    - The content generator and the random source are inputs of each
      operation: the generated text is an argument, and a draw of
      [random.random()] is the integer [k] of its value [k / 2^53]. *)

From Stdlib Require Import ZArith QArith String Ascii List Sorted Lia.
From stdpp Require Import gmap strings list fin_maps.

Local Open Scope string_scope.
Local Open Scope Z_scope.

(** ** Python built-ins used by the backend *)

Module Py.

(** Exceptions the modelled code can raise. *)
Inductive exn : Type :=
| ValueError (msg : string)
| TypeError
| AttributeError
| KeyError
| IndexError
| ValidationError.

(** *** [dict]: association list in insertion order *)
Section Dict.
Context {K V : Type} `{EqDecision K}.

Fixpoint dict_get (k : K) (d : list (K * V)) : option V :=
  match d with
  | [] => None
  | (k', v) :: d' => if decide (k = k') then Some v else dict_get k d'
  end.

(** [k in d] *)
Definition dict_mem (k : K) (d : list (K * V)) : bool :=
  bool_decide (is_Some (dict_get k d)).

(** [d[k] = v]: an existing key keeps its position, a new key goes last. *)
Fixpoint dict_set (k : K) (v : V) (d : list (K * V)) : list (K * V) :=
  match d with
  | [] => [(k, v)]
  | (k', v') :: d' =>
      if decide (k = k') then (k', v) :: d' else (k', v') :: dict_set k v d'
  end.

(** Truth value of a dict: non-empty. *)
Definition dict_truthy (d : list (K * V)) : bool :=
  match d with [] => false | _ => true end.
End Dict.

(** *** [sorted(items, key=..., reverse=True)]

    [sorted] is stable, and stays so under [reverse=True]: items with
    equal keys keep their input order.  Stable insertion sort, greatest
    key first. *)
Section Sorted.
Context {A : Type} (key : A → Z).

Fixpoint insert_desc (x : A) (l : list A) : list A :=
  match l with
  | [] => [x]
  | y :: l' => if key x <? key y then y :: insert_desc x l' else x :: l
  end.

Definition sorted_desc (l : list A) : list A := foldr insert_desc [] l.
End Sorted.

(** *** [l[:stop]]: a negative [stop] counts from the end. *)
Definition slice_to {A : Type} (l : list A) (stop : Z) : list A :=
  if 0 <=? stop then take (Z.to_nat stop) l
  else take (length l - Z.to_nat (- stop))%nat l.

(** *** JSON-shaped values ([Dict[str, Any]] payloads) *)
#[local] Unset Elimination Schemes.
Inductive pyval : Type :=
| PNone
| PBool (b : bool)
| PInt (n : Z)
| PStr (s : string)
| PList (l : list pyval)
| PDict (d : list (string * pyval)).
#[local] Set Elimination Schemes.

(** [x + 1] on a value: defined on [int] and [bool], a [TypeError] on
    [None], [str], [list] and [dict]. *)
Definition py_add1 (v : pyval) : exn + Z :=
  match v with
  | PInt n => inr (n + 1)
  | PBool b => inr ((if b then 1 else 0) + 1)
  | _ => inl TypeError
  end.

(** [v.get(k, dflt)]: only a [dict] has the method. *)
Definition py_get_method (v : pyval) (k : string) (dflt : pyval) : exn + pyval :=
  match v with
  | PDict d => inr (default dflt (dict_get k d))
  | _ => inl AttributeError
  end.

(** *** [str] methods *)

(** [str.isspace] on one character: TAB..CR, FS..US and the space. *)
Definition is_space (c : ascii) : bool :=
  let n := nat_of_ascii c in
  ((9 <=? n) && (n <=? 13) || (28 <=? n) && (n <=? 32))%nat.

Fixpoint lstrip (s : string) : string :=
  match s with
  | EmptyString => EmptyString
  | String c s' => if is_space c then lstrip s' else s
  end.

Fixpoint rstrip (s : string) : string :=
  match s with
  | EmptyString => EmptyString
  | String c s' =>
      match rstrip s' with
      | EmptyString => if is_space c then EmptyString else String c EmptyString
      | r => String c r
      end
  end.

Definition strip (s : string) : string := lstrip (rstrip s).

(** A string made of white space only, the empty string included. *)
Fixpoint only_whitespace (s : string) : bool :=
  match s with
  | EmptyString => true
  | String c s' => is_space c && only_whitespace s'
  end.

Definition startswith (s pre : string) : bool := String.prefix pre s.

(** [s.replace(old, "")]: every occurrence of [old], scanning from the
    left, is deleted; [skip] counts the characters of the occurrence
    still to drop. *)
Fixpoint delete_occurrences (old : string) (skip : nat) (s : string) : string :=
  match s with
  | EmptyString => EmptyString
  | String c s' =>
      match skip with
      | S k => delete_occurrences old k s'
      | O =>
          if String.prefix old s
          then delete_occurrences old (String.length old - 1) s'
          else String c (delete_occurrences old 0 s')
      end
  end.

Definition replace_with_empty (s old : string) : string :=
  match old with
  | EmptyString => s
  | _ => delete_occurrences old 0 s
  end.

(** [s.split(sep)] for a one-character separator. *)
Fixpoint split_on (sep : ascii) (s : string) : list string :=
  match s with
  | EmptyString => [EmptyString]
  | String c s' =>
      if Ascii.eqb c sep then EmptyString :: split_on sep s'
      else match split_on sep s' with
           | w :: ws => String c w :: ws
           | [] => [String c EmptyString]
           end
  end.

Definition newline : ascii := ascii_of_nat 10.

Definition upper_char (c : ascii) : ascii :=
  let n := nat_of_ascii c in
  if ((97 <=? n) && (n <=? 122))%nat then ascii_of_nat (n - 32) else c.

Fixpoint upper (s : string) : string :=
  match s with
  | EmptyString => EmptyString
  | String c s' => String (upper_char c) (upper s')
  end.

(** *** [int(s)]

    White space around the numeral is ignored; the numeral is an
    optional sign followed by decimal digits, single underscores being
    allowed between digits.  [None] stands for [ValueError]. *)
Definition digit_of (c : ascii) : option Z :=
  let n := nat_of_ascii c in
  if ((48 <=? n) && (n <=? 57))%nat then Some (Z.of_nat (n - 48)) else None.

Fixpoint digits_value (acc : Z) (after_underscore : bool) (s : string) : option Z :=
  match s with
  | EmptyString => if after_underscore then None else Some acc
  | String c s' =>
      match digit_of c with
      | Some d => digits_value (10 * acc + d) false s'
      | None =>
          if Ascii.eqb c "_" then
            if after_underscore then None else digits_value acc true s'
          else None
      end
  end.

Definition numeral_value (s : string) : option Z :=
  match s with
  | EmptyString => None
  | String c s' =>
      match digit_of c with
      | Some d => digits_value d false s'
      | None => None
      end
  end.

Definition py_int (s : string) : option Z :=
  match strip s with
  | String "+" r => numeral_value r
  | String "-" r => Z.opp <$> numeral_value r
  | t => numeral_value t
  end.

(** *** [random]

    A draw of [random.random()] is [k / 2^53] for an integer
    [0 <= k < 2^53]; the comparisons with the literals [0.7], [0.5] and
    [0.3] are comparisons of [k] with the numerators of those doubles
    over [2^53]. *)
Definition draw_lt_0_7 (k : Z) : bool := k <? 6305039478318694.
Definition draw_lt_0_5 (k : Z) : bool := k <? 4503599627370496.
Definition draw_lt_0_3 (k : Z) : bool := 2 * k <? 5404319552844595.

(** [random.choice(l)]: the entropy [i] picks a position; an empty
    sequence raises [IndexError]. *)
Definition random_choice {A : Type} (i : nat) (l : list A) : exn + A :=
  match l !! (i mod length l)%nat with
  | Some x => inr x
  | None => inl IndexError
  end.

(** [random.randint(a, b)]: the entropy [r] picks a value of [a..b]; an
    empty range raises [ValueError]. *)
Definition random_randint (r : Z) (a b : Z) : exn + Z :=
  if b <? a then inl (ValueError "empty range for randrange()")
  else inr (a + r mod (b - a + 1)).

(** *** State and exceptions

    A computation over a state [S] returns a value or raises; either way
    it leaves a state behind, since a mutation made before the exception
    stays made. *)
Inductive outcome (S A : Type) : Type :=
| Returned (a : A) (s : S)
| Raised (e : exn) (s : S).
Arguments Returned {S A} a s.
Arguments Raised {S A} e s.

(** The state an outcome leaves behind. *)
Definition state_of {S A : Type} (o : outcome S A) : S :=
  match o with Returned _ s | Raised _ s => s end.

Definition M (S A : Type) : Type := S → outcome S A.

Definition ret {S A : Type} (a : A) : M S A := λ s, Returned a s.
Definition raise {S A : Type} (e : exn) : M S A := λ s, Raised e s.
Definition bind {S A B : Type} (m : M S A) (k : A → M S B) : M S B :=
  λ s, match m s with
       | Returned a s' => k a s'
       | Raised e s' => Raised e s'
       end.
Definition get_state {S : Type} : M S S := λ s, Returned s s.
Definition modify {S : Type} (f : S → S) : M S unit := λ s, Returned () (f s).
Definition of_sum {S A : Type} (r : exn + A) : M S A :=
  match r with inl e => raise e | inr a => ret a end.

End Py.

Notation "x <~ c ;; k" := (Py.bind c (λ x, k))
  (at level 100, c at next level, right associativity, only parsing).
Notation "c ;;; k" := (Py.bind c (λ _, k))
  (at level 100, right associativity, only parsing).

(** ** models/student.py *)

Module Student.
Import Py.

Record QuestionResult : Type := {
  qr_timestable : Z;
  qr_question : string;
  qr_answer : string;
  qr_correct : bool;
  qr_timestamp : Z
}.

Record StudentProgress : Type := {
  student_name : string;
  max_timestable : Z;
  total_questions : Z;
  correct_answers : Z;
  weak_areas : list (Z * Z);      (* timestable -> number of mistakes *)
  question_history : list QuestionResult
}.

(** [StudentProgress(student_name=..., max_timestable=...)]: the other
    fields take their defaults. *)
Definition new_progress (name : string) (max_ts : Z) : StudentProgress :=
  {| student_name := name; max_timestable := max_ts;
     total_questions := 0; correct_answers := 0;
     weak_areas := []; question_history := [] |}.

(** [update_progress]: the counter read by [+= 1] is present, the key
    having been set to [0] just before when it was missing. *)
Definition update_progress (p : StudentProgress) (timestable : Z) (correct : bool)
  : StudentProgress :=
  let total := total_questions p + 1 in
  if correct then
    {| student_name := student_name p; max_timestable := max_timestable p;
       total_questions := total;
       correct_answers := correct_answers p + 1;
       weak_areas := weak_areas p;
       question_history := question_history p |}
  else
    let wa :=
      if negb (dict_mem timestable (weak_areas p))
      then dict_set timestable 0 (weak_areas p)
      else weak_areas p in
    let wa' := dict_set timestable (default 0 (dict_get timestable wa) + 1) wa in
    {| student_name := student_name p; max_timestable := max_timestable p;
       total_questions := total;
       correct_answers := correct_answers p;
       weak_areas := wa';
       question_history := question_history p |}.

(** [get_accuracy]: the quotient is taken in exact rationals; the
    rounding of the floating-point result is not represented. *)
Definition get_accuracy (p : StudentProgress) : Q :=
  if total_questions p =? 0 then 0%Q
  else (inject_Z (correct_answers p) / inject_Z (total_questions p) * 100)%Q.

Definition get_weakest_timestables (p : StudentProgress) (limit : Z) : list Z :=
  if negb (dict_truthy (weak_areas p)) then []
  else
    let sorted_weak := sorted_desc snd (weak_areas p) in
    (slice_to sorted_weak limit).*1.

(** The default [limit] of [get_weakest_timestables]. *)
Definition default_limit : Z := 3.

Record StudentSession : Type := {
  session_id : string;
  s_student_name : string;
  s_max_timestable : Z;
  start_time : Z;
  progress : StudentProgress;
  is_paused : bool;
  current_state : option (list (string * pyval))
}.

(** A run of [update_progress] calls, oldest first. *)
Definition run_updates (p : StudentProgress) (calls : list (Z * bool))
  : StudentProgress :=
  foldl (λ q c, update_progress q c.1 c.2) p calls.

End Student.

(** ** services/memory_service.py

    The service keeps the sessions of the running process in a table and
    one file per session on disk.  Its lock makes each mutating operation
    atomic; operations are applied here one at a time.  A session object
    returned by [get_session] is the one held in the table, so that the
    in-place updates of the callers followed by [update_session] amount to
    storing the updated record, as long as every record is filed under
    its own id ([wf_service] below). *)

Module Memory.
Import Py Student.

(** What a session file holds: a document that loads back into the
    session that was dumped, or one that the constructor of
    [StudentSession] rejects. *)
Inductive file : Type :=
| FileSession (s : StudentSession)
| FileCorrupt.

Record MemoryService : Type := {
  sessions : gmap string StudentSession;
  disk : gmap string file
}.

Definition empty_service : MemoryService := {| sessions := ∅; disk := ∅ |}.

(** [self.sessions[key] = session] *)
Definition store (key : string) (session : StudentSession) : M MemoryService unit :=
  modify (λ ms, {| sessions := <[key := session]> (sessions ms); disk := disk ms |}).

Definition _save_session (session : StudentSession) : M MemoryService unit :=
  modify (λ ms, {| sessions := sessions ms;
                   disk := <[session_id session := FileSession session]> (disk ms) |}).

Definition _load_session (sid : string) : M MemoryService (option StudentSession) :=
  ms <~ get_state ;;
  match disk ms !! sid with
  | None => ret None
  | Some (FileSession s) => ret (Some s)
  | Some FileCorrupt => raise ValidationError
  end.

Definition create_session (sid name : string) (max_ts now : Z)
  : M MemoryService StudentSession :=
  let progress := new_progress name max_ts in
  let session :=
    {| session_id := sid; s_student_name := name; s_max_timestable := max_ts;
       start_time := now; progress := progress;
       is_paused := false; current_state := None |} in
  store sid session ;;;
  _save_session session ;;;
  ret session.

Definition get_session (sid : string) : M MemoryService (option StudentSession) :=
  ms <~ get_state ;;
  match sessions ms !! sid with
  | Some s => ret (Some s)
  | None =>
      session <~ _load_session sid ;;
      match session with
      | Some s => store sid s ;;; ret (Some s)
      | None => ret None
      end
  end.

Definition update_session (session : StudentSession) : M MemoryService unit :=
  store (session_id session) session ;;;
  _save_session session.

Definition set_pause (s : StudentSession) (paused : bool)
    (state : option (list (string * pyval))) : StudentSession :=
  {| session_id := session_id s; s_student_name := s_student_name s;
     s_max_timestable := s_max_timestable s; start_time := start_time s;
     progress := progress s; is_paused := paused; current_state := state |}.

Definition pause_session (sid : string) (state : list (string * pyval))
  : M MemoryService unit :=
  session <~ get_session sid ;;
  match session with
  | Some s => update_session (set_pause s true (Some state))
  | None => ret ()
  end.

Definition resume_session (sid : string)
  : M MemoryService (option (list (string * pyval))) :=
  session <~ get_session sid ;;
  match session with
  | Some s =>
      if is_paused s then
        let state := current_state s in
        update_session (set_pause s false None) ;;;
        ret state
      else ret None
  | None => ret None
  end.

(** Every record is filed under its own id, in the table and on disk. *)
Definition wf_service (ms : MemoryService) : Prop :=
  (∀ sid s, sessions ms !! sid = Some s → session_id s = sid) ∧
  (∀ sid s, disk ms !! sid = Some (FileSession s) → session_id s = sid).

(** The record the repository resolves an id to, if any. *)
Definition resolve (ms : MemoryService) (sid : string) : option StudentSession :=
  match sessions ms !! sid with
  | Some s => Some s
  | None => match disk ms !! sid with
            | Some (FileSession s) => Some s
            | _ => None
            end
  end.

End Memory.

(** ** The state shared by the agents

    [memory_service] is a module-level instance; the coordinator owns the
    per-session counters [question_count]. *)

Module World.
Import Py Student Memory.

Record World : Type := {
  memory_service : MemoryService;
  question_count : gmap string pyval
}.

Definition empty_world : World :=
  {| memory_service := empty_service; question_count := ∅ |}.

(** Run an operation of the service inside the whole state. *)
Definition on_service {A : Type} (m : M MemoryService A) : M World A :=
  λ w, match m (memory_service w) with
       | Returned a ms =>
           Returned a {| memory_service := ms; question_count := question_count w |}
       | Raised e ms =>
           Raised e {| memory_service := ms; question_count := question_count w |}
       end.

Definition set_count (sid : string) (v : pyval) : M World unit :=
  modify (λ w, {| memory_service := memory_service w;
                  question_count := <[sid := v]> (question_count w) |}).

(** The inputs of one request that the code does not control: the draws
    of the random source, the texts returned by the content generator
    (the second one for a request that asks twice) and the clock. *)
Record Env : Type := {
  coin : Z;              (* random.random() *)
  pick : nat;            (* random.choice *)
  topic_draw : Z;        (* random.randint(1, max_timestable) *)
  multiplier_draw : Z;   (* random.randint(1, 12) *)
  text : string;         (* response.text *)
  text2 : string;
  now : Z                (* datetime.now() *)
}.

End World.

(** ** agents/math_tutor_agent.py *)

Module MathTutor.
Import Py Student Memory World.

Definition agent_name : string := "MathTutor".

Record Question : Type := {
  q_question : string;
  q_timestable : Z;
  q_multiplier : Z;
  q_expected_answer : Z;
  q_session_id : string
}.

Record Evaluation : Type := {
  ev_correct : bool;
  ev_expected_answer : Z;
  ev_feedback : string;
  ev_accuracy : Q;
  ev_total_questions : Z;
  ev_bonus_fact : option string
}.

Definition session_not_found (sid : string) : exn :=
  ValueError ("Session " ++ sid ++ " not found").

Definition _select_timestable (session : StudentSession) (env : Env) : exn + Z :=
  let progress := progress session in
  if dict_truthy (weak_areas progress) && draw_lt_0_7 (coin env) then
    let weak_timestables := get_weakest_timestables progress default_limit in
    random_choice (pick env) weak_timestables
  else
    random_randint (topic_draw env) 1 (s_max_timestable session).

Definition generate_question (sid : string) (env : Env) : M World Question :=
  session <~ on_service (get_session sid) ;;
  match session with
  | None => raise (session_not_found sid)
  | Some session =>
      timestable <~ of_sum (_select_timestable session env) ;;
      multiplier <~ of_sum (random_randint (multiplier_draw env) 1 12) ;;
      let question_text := strip (text env) in
      ret {| q_question := question_text;
             q_timestable := timestable;
             q_multiplier := multiplier;
             q_expected_answer := timestable * multiplier;
             q_session_id := sid |}
  end.

Definition set_progress (s : StudentSession) (p : StudentProgress) : StudentSession :=
  {| session_id := session_id s; s_student_name := s_student_name s;
     s_max_timestable := s_max_timestable s; start_time := start_time s;
     progress := p; is_paused := is_paused s; current_state := current_state s |}.

Definition append_history (p : StudentProgress) (r : QuestionResult) : StudentProgress :=
  {| student_name := student_name p; max_timestable := max_timestable p;
     total_questions := total_questions p; correct_answers := correct_answers p;
     weak_areas := weak_areas p;
     question_history := question_history p ++ [r] |}.

(** [question_data] is the question as [generate_question] shaped it. *)
Definition evaluate_answer (sid : string) (question_data : Question)
    (user_answer : string) (env : Env) : M World Evaluation :=
  session <~ on_service (get_session sid) ;;
  match session with
  | None => raise (session_not_found sid)
  | Some session =>
      let is_correct :=
        match py_int user_answer with
        | Some user_answer_num => user_answer_num =? q_expected_answer question_data
        | None => false
        end in
      let updated :=
        update_progress (progress session) (q_timestable question_data) is_correct in
      let result :=
        {| qr_timestable := q_timestable question_data;
           qr_question := q_question question_data;
           qr_answer := user_answer;
           qr_correct := is_correct;
           qr_timestamp := now env |} in
      let session := set_progress session (append_history updated result) in
      on_service (update_session session) ;;;
      let feedback := strip (text env) in
      ret {| ev_correct := is_correct;
             ev_expected_answer := q_expected_answer question_data;
             ev_feedback := feedback;
             ev_accuracy := get_accuracy (progress session);
             ev_total_questions := total_questions (progress session);
             ev_bonus_fact := None |}
  end.

Section PauseState.
(** [progress.model_dump(mode='json')], the serializer of the model
    library. *)
Variable model_dump : StudentProgress → pyval.

Definition pause_state (sid : string) : M World (list (string * pyval)) :=
  session <~ on_service (get_session sid) ;;
  match session with
  | None => ret []
  | Some session =>
      ret [("agent", PStr agent_name);
           ("progress", model_dump (progress session))]
  end.
End PauseState.

Definition resume_from_state (sid : string) (state : pyval) : M World bool :=
  ret true.

Record ProgressSummary : Type := {
  ps_student_name : string;
  ps_total_questions : Z;
  ps_correct_answers : Z;
  ps_accuracy : Q;
  ps_weak_areas : list Z;
  ps_summary : string
}.

Definition get_progress_summary (sid : string) (env : Env) : M World ProgressSummary :=
  session <~ on_service (get_session sid) ;;
  match session with
  | None => raise (session_not_found sid)
  | Some session =>
      let weakest := get_weakest_timestables (progress session) default_limit in
      let summary := strip (text env) in
      ret {| ps_student_name := s_student_name session;
             ps_total_questions := total_questions (progress session);
             ps_correct_answers := correct_answers (progress session);
             ps_accuracy := get_accuracy (progress session);
             ps_weak_areas := weakest;
             ps_summary := summary |}
  end.

End MathTutor.

(** ** agents/facts_agent.py

    The agent keeps no state between calls: its operations are functions
    of their arguments and of the request's inputs. *)

Module Facts.
Import Py World.

Definition agent_name : string := "FactsExpert".

Definition fact_categories : list string :=
  ["animals"; "space"; "dinosaurs"; "oceans"; "nature"; "inventions";
   "sports"; "food"; "countries"].

Record Fact : Type := { fact_category : string; fact_content : string }.

Record NumberFact : Type := { nf_number : Z; nf_content : string }.

Record Quiz : Type := {
  quiz_category : string;
  quiz_question : string;
  quiz_options : list (string * string);
  quiz_correct_answer : string;
  quiz_explanation : string
}.

Definition get_fun_fact (env : Env) : exn + Fact :=
  match random_choice (pick env) fact_categories with
  | inl e => inl e
  | inr category =>
      let fact := strip (text env) in
      inr {| fact_category := category; fact_content := fact |}
  end.

Definition get_number_fact (number : Z) (generated : string) : NumberFact :=
  {| nf_number := number; nf_content := strip generated |}.

(** The four variables the parsing loop assigns. *)
Record quiz_fields : Type := {
  question : string;
  options : list (string * string);
  correct_answer : string;
  explanation : string
}.

Definition no_fields : quiz_fields :=
  {| question := ""; options := []; correct_answer := ""; explanation := "" |}.

Definition field_of (line label : string) : string :=
  strip (replace_with_empty line label).

Definition set_option (f : quiz_fields) (letter value : string) : quiz_fields :=
  {| question := question f; options := dict_set letter value (options f);
     correct_answer := correct_answer f; explanation := explanation f |}.

(** One turn of the loop over the lines. *)
Definition parse_line (f : quiz_fields) (line : string) : quiz_fields :=
  let line := strip line in
  if startswith line "QUESTION:" then
    {| question := field_of line "QUESTION:"; options := options f;
       correct_answer := correct_answer f; explanation := explanation f |}
  else if startswith line "A)" then set_option f "A" (field_of line "A)")
  else if startswith line "B)" then set_option f "B" (field_of line "B)")
  else if startswith line "C)" then set_option f "C" (field_of line "C)")
  else if startswith line "D)" then set_option f "D" (field_of line "D)")
  else if startswith line "CORRECT:" then
    {| question := question f; options := options f;
       correct_answer := field_of line "CORRECT:"; explanation := explanation f |}
  else if startswith line "EXPLANATION:" then
    {| question := question f; options := options f;
       correct_answer := correct_answer f;
       explanation := field_of line "EXPLANATION:" |}
  else f.

(** The body of the [try]: no step of it raises, whatever the text. *)
Definition parse_quiz (quiz_text : string) : exn + quiz_fields :=
  let lines := split_on newline quiz_text in
  inr (foldl parse_line no_fields lines).

Definition generate_fact_quiz (env : Env) : exn + Quiz :=
  match random_choice (pick env) fact_categories with
  | inl e => inl e
  | inr category =>
      let quiz_text := strip (text env) in
      match parse_quiz quiz_text with
      | inr f =>
          inr {| quiz_category := category;
                 quiz_question := question f;
                 quiz_options := options f;
                 quiz_correct_answer := correct_answer f;
                 quiz_explanation := explanation f |}
      | inl _ =>
          (* the [except] branch: a simple fallback *)
          inr {| quiz_category := category;
                 quiz_question := quiz_text;
                 quiz_options := [];
                 quiz_correct_answer := "";
                 quiz_explanation := "" |}
      end
  end.

(** The quiz as the dict that is sent out and handed back with the
    answer. *)
Definition quiz_data_of (q : Quiz) : list (string * pyval) :=
  [("type", PStr "quiz");
   ("category", PStr (quiz_category q));
   ("question", PStr (quiz_question q));
   ("options", PDict (prod_map id PStr <$> quiz_options q));
   ("correct_answer", PStr (quiz_correct_answer q));
   ("explanation", PStr (quiz_explanation q))].

Record QuizEvaluation : Type := {
  qe_correct : bool;
  qe_correct_answer : string;
  qe_explanation : pyval;
  qe_feedback : string
}.

Definition evaluate_quiz_answer (quiz_data : list (string * pyval))
    (user_answer : string) (env : Env) : exn + QuizEvaluation :=
  let user_answer := upper (strip user_answer) in
  match default (PStr "") (dict_get "correct_answer" quiz_data) with
  | PStr stored =>
      let correct_answer := upper (strip stored) in
      let is_correct := bool_decide (user_answer = correct_answer) in
      let feedback := strip (text env) in
      inr {| qe_correct := is_correct;
             qe_correct_answer := correct_answer;
             qe_explanation := default (PStr "") (dict_get "explanation" quiz_data);
             qe_feedback := feedback |}
  | _ => inl AttributeError
  end.

Definition pause_state : list (string * pyval) :=
  [("agent", PStr agent_name); ("status", PStr "paused")].

Definition resume_from_state (state : pyval) : bool := true.

End Facts.

(** ** agents/coordinator_agent.py *)

Module Coordinator.
Import Py Student Memory World.

Inductive Activity : Type :=
| FunFact (f : Facts.Fact)
| FactQuiz (q : Facts.Quiz)
| MathQuestion (q : MathTutor.Question).

(** The two kinds of turn: a math question, or a fun break. *)
Inductive Kind : Type := Question | Break.

Definition kind_of (a : Activity) : Kind :=
  match a with
  | FunFact _ | FactQuiz _ => Break
  | MathQuestion _ => Question
  end.

Record Welcome : Type := { welcome_message : string; welcome_session_id : string }.

(** The [status] replies of pause and resume. *)
Record Reply : Type := {
  status : string;
  message : string;
  session : option StudentSession
}.

Definition start_session (sid name : string) (max_ts : Z) (env : Env)
  : M World Welcome :=
  on_service (create_session sid name max_ts (now env)) ;;;
  let welcome := strip (text env) in
  set_count sid (PInt 0) ;;;
  ret {| welcome_message := welcome; welcome_session_id := sid |}.

Definition get_next_activity (sid : string) (env : Env) : M World Activity :=
  w <~ get_state ;;
  (if negb (bool_decide (is_Some (question_count w !! sid)))
   then set_count sid (PInt 0) else ret ()) ;;;
  w <~ get_state ;;
  count <~ of_sum (match question_count w !! sid with
                   | Some v => py_add1 v
                   | None => inl KeyError
                   end) ;;
  set_count sid (PInt count) ;;;
  if count mod 3 =? 0 then
    if draw_lt_0_5 (coin env) then
      f <~ of_sum (Facts.get_fun_fact env) ;; ret (FunFact f)
    else
      q <~ of_sum (Facts.generate_fact_quiz env) ;; ret (FactQuiz q)
  else
    q <~ MathTutor.generate_question sid env ;; ret (MathQuestion q).

Definition add_bonus (r : MathTutor.Evaluation) (fact : string) : MathTutor.Evaluation :=
  {| MathTutor.ev_correct := MathTutor.ev_correct r;
     MathTutor.ev_expected_answer := MathTutor.ev_expected_answer r;
     MathTutor.ev_feedback := MathTutor.ev_feedback r;
     MathTutor.ev_accuracy := MathTutor.ev_accuracy r;
     MathTutor.ev_total_questions := MathTutor.ev_total_questions r;
     MathTutor.ev_bonus_fact := Some fact |}.

Definition process_math_answer (sid : string) (question_data : MathTutor.Question)
    (user_answer : string) (env : Env) : M World MathTutor.Evaluation :=
  result <~ MathTutor.evaluate_answer sid question_data user_answer env ;;
  if MathTutor.ev_correct result && draw_lt_0_3 (coin env) then
    let number_fact :=
      Facts.get_number_fact (MathTutor.q_expected_answer question_data) (text2 env) in
    ret (add_bonus result (Facts.nf_content number_fact))
  else ret result.

Definition process_quiz_answer (quiz_data : list (string * pyval))
    (user_answer : string) (env : Env) : M World Facts.QuizEvaluation :=
  of_sum (Facts.evaluate_quiz_answer quiz_data user_answer env).

Section Pause.
Variable model_dump : StudentProgress → pyval.

Definition pause_payload (count : pyval) (math_state : list (string * pyval))
  : list (string * pyval) :=
  [("coordinator", PDict [("question_count", count)]);
   ("math_tutor", PDict math_state);
   ("facts_agent", PDict Facts.pause_state)].

Definition pause_session (sid : string) : M World Reply :=
  math_state <~ MathTutor.pause_state model_dump sid ;;
  w <~ get_state ;;
  let state := pause_payload (default (PInt 0) (question_count w !! sid)) math_state in
  on_service (Memory.pause_session sid state) ;;;
  ret {| status := "paused";
         message := "Session paused successfully! You can resume anytime.";
         session := None |}.
End Pause.

Definition not_resumed : Reply :=
  {| status := "error";
     message := "Could not find paused session";
     session := None |}.

(** [if state:] holds for a payload that is a non-empty dict. *)
Definition resume_session (sid : string) : M World Reply :=
  state <~ on_service (Memory.resume_session sid) ;;
  match state with
  | None => ret not_resumed
  | Some state =>
      if dict_truthy state then
        match dict_get "coordinator" state with
        | Some coordinator =>
            count <~ of_sum (py_get_method coordinator "question_count" (PInt 0)) ;;
            set_count sid count
        | None => ret ()
        end ;;;
        MathTutor.resume_from_state sid
          (default (PDict []) (dict_get "math_tutor" state)) ;;;
        let _ := Facts.resume_from_state
                   (default (PDict []) (dict_get "facts_agent" state)) in
        session <~ on_service (get_session sid) ;;
        match session with
        | Some s =>
            ret {| status := "resumed";
                   message := "Welcome back, " ++ s_student_name s
                                ++ "! Let's continue learning!";
                   session := Some s |}
        | None => raise AttributeError
        end
      else ret not_resumed
  end.

Definition get_progress (sid : string) (env : Env) : M World MathTutor.ProgressSummary :=
  MathTutor.get_progress_summary sid env.

Record Goodbye : Type := {
  goodbye_message : string;
  goodbye_progress : MathTutor.ProgressSummary
}.

(** [end_session]: the summary's text is the first generated text of the
    request, the farewell the second. *)
Definition end_session (sid : string) (env : Env) : M World Goodbye :=
  progress <~ get_progress sid env ;;
  let farewell := strip (text2 env) in
  ret {| goodbye_message := farewell; goodbye_progress := progress |}.

(** A run of [get_next_activity] calls on one session, each with its own
    inputs: the outcomes, oldest first.  A call that raises hands the
    state it reached to the next one. *)
Fixpoint run_turns (sid : string) (envs : list Env) (w : World)
  : list (outcome World Activity) :=
  match envs with
  | [] => []
  | env :: envs' =>
      let o := get_next_activity sid env w in
      o :: run_turns sid envs' (state_of o)
  end.

End Coordinator.

(** ** utils/logging_config.py

    The counters of [MetricsCollector] and the events of [TraceLogger].
    The reports that read the clock or average the latencies
    ([get_metrics], the exports) are not represented. *)

Module Logging.
Import Py.

Record MetricsCollector : Type := {
  requests : list (string * Z);
  latencies : list (string * list Q);
  errors : list (string * Z);
  agent_calls : list (string * Z)
}.

(** [self.metrics] as [__init__] leaves it. *)
Definition new_metrics : MetricsCollector :=
  {| requests := []; latencies := []; errors := []; agent_calls := [] |}.

(** [if key not in d: d[key] = 0] followed by [d[key] += 1]. *)
Definition count_up (key : string) (d : list (string * Z)) : list (string * Z) :=
  let d := if negb (dict_mem key d) then dict_set key 0 d else d in
  dict_set key (default 0 (dict_get key d) + 1) d.

Definition record_request (endpoint : string) (m : MetricsCollector) : MetricsCollector :=
  {| requests := count_up endpoint (requests m); latencies := latencies m;
     errors := errors m; agent_calls := agent_calls m |}.

Definition record_latency (operation : string) (duration : Q) (m : MetricsCollector)
  : MetricsCollector :=
  let d := if negb (dict_mem operation (latencies m))
           then dict_set operation [] (latencies m) else latencies m in
  {| requests := requests m;
     latencies :=
       dict_set operation (default [] (dict_get operation d) ++ [duration])%list d;
     errors := errors m; agent_calls := agent_calls m |}.

Definition record_error (error_type : string) (m : MetricsCollector) : MetricsCollector :=
  {| requests := requests m; latencies := latencies m;
     errors := count_up error_type (errors m); agent_calls := agent_calls m |}.

Definition record_agent_call (agent_name method : string) (m : MetricsCollector)
  : MetricsCollector :=
  let key := agent_name ++ "." ++ method in
  {| requests := requests m; latencies := latencies m;
     errors := errors m; agent_calls := count_up key (agent_calls m) |}.

Record TraceEvent : Type := {
  te_timestamp : Z;
  te_trace_id : string;
  te_agent : string;
  te_action : string;
  te_details : list (string * pyval)
}.

(** [self.traces] *)
Definition TraceLogger : Type := list TraceEvent.

(** [details or {}]: a missing or empty [details] gives the empty dict. *)
Definition trace (trace_id agent action : string)
    (details : option (list (string * pyval))) (now : Z) (traces : TraceLogger)
  : TraceLogger :=
  let trace_event :=
    {| te_timestamp := now; te_trace_id := trace_id; te_agent := agent;
       te_action := action;
       te_details := match details with
                     | Some d => if dict_truthy d then d else []
                     | None => []
                     end |} in
  (traces ++ [trace_event])%list.

(** [if trace_id:] fails for [None] and for the empty string. *)
Definition get_traces (trace_id : option string) (traces : TraceLogger) : list TraceEvent :=
  match trace_id with
  | Some id =>
      match id with
      | EmptyString => traces
      | _ => filter (λ t, te_trace_id t = id) traces
      end
  | None => traces
  end.

End Logging.

(** ** main.py: the endpoints of the turn, pause and resume requests

    An endpoint counts the request, traces it, calls the coordinator and
    traces the result; an exception of the coordinator is counted as an
    error and answered with status 500, its text as the detail.  The
    state of the server is the agents' state with the metrics and the
    traces. *)

Module Api.
Import Py Student World Logging.

Record Server : Type := {
  world : World.World;
  metrics : MetricsCollector;
  tracer : TraceLogger
}.

(** What a request brings besides its body: the identifier drawn for its
    trace, the clock at its two trace events, and the inputs of the
    coordinator's call. *)
Record Call : Type := {
  trace_id : string;
  clock1 : Z;
  clock2 : Z;
  inputs : Env
}.

(** [{"success": True, **result}], or the [HTTPException] raised; the
    detail [str(e)] is kept as the exception [e]. *)
Inductive Response (A : Type) : Type :=
| Success (result : A)
| HTTPException (status_code : Z) (detail : exn).
Arguments Success {A} result.
Arguments HTTPException {A} status_code detail.

(** [result.get("type", "unknown")]: facts and quizzes carry a type,
    questions do not. *)
Definition activity_type (a : Coordinator.Activity) : string :=
  match a with
  | Coordinator.FunFact _ => "fact"
  | Coordinator.FactQuiz _ => "quiz"
  | Coordinator.MathQuestion _ => "unknown"
  end.

Definition get_next_activity (session_id : string) (c : Call) (srv : Server)
  : Response Coordinator.Activity * Server :=
  let metrics := record_request "next_activity" (metrics srv) in
  let tracer :=
    trace (trace_id c) "API" "get_next_activity"
      (Some [("session_id", PStr session_id)]) (clock1 c) (tracer srv) in
  match Coordinator.get_next_activity session_id (inputs c) (world srv) with
  | Returned result w =>
      let tracer :=
        trace (trace_id c) "Coordinator" "activity_generated"
          (Some [("type", PStr (activity_type result))]) (clock2 c) tracer in
      (Success result, {| world := w; metrics := metrics; tracer := tracer |})
  | Raised e w =>
      let metrics := record_error "next_activity_error" metrics in
      (HTTPException 500 e, {| world := w; metrics := metrics; tracer := tracer |})
  end.

Section Pause.
Variable model_dump : StudentProgress → pyval.

Definition pause_session (session_id : string) (c : Call) (srv : Server)
  : Response Coordinator.Reply * Server :=
  let metrics := record_request "pause_session" (metrics srv) in
  let tracer :=
    trace (trace_id c) "API" "pause_session"
      (Some [("session_id", PStr session_id)]) (clock1 c) (tracer srv) in
  match Coordinator.pause_session model_dump session_id (world srv) with
  | Returned result w =>
      let tracer :=
        trace (trace_id c) "Coordinator" "session_paused" (Some []) (clock2 c) tracer in
      (Success result, {| world := w; metrics := metrics; tracer := tracer |})
  | Raised e w =>
      let metrics := record_error "pause_session_error" metrics in
      (HTTPException 500 e, {| world := w; metrics := metrics; tracer := tracer |})
  end.
End Pause.

Definition resume_session (session_id : string) (c : Call) (srv : Server)
  : Response Coordinator.Reply * Server :=
  let metrics := record_request "resume_session" (metrics srv) in
  let tracer :=
    trace (trace_id c) "API" "resume_session"
      (Some [("session_id", PStr session_id)]) (clock1 c) (tracer srv) in
  match Coordinator.resume_session session_id (world srv) with
  | Returned result w =>
      let tracer :=
        trace (trace_id c) "Coordinator" "session_resumed" (Some []) (clock2 c) tracer in
      (Success result, {| world := w; metrics := metrics; tracer := tracer |})
  | Raised e w =>
      let metrics := record_error "resume_session_error" metrics in
      (HTTPException 500 e, {| world := w; metrics := metrics; tracer := tracer |})
  end.

End Api.

(** ** Vocabulary of the statements *)

Import Py Student.

(** [precedes a b l]: an occurrence of [a] comes before one of [b]. *)
Definition precedes {A : Type} (a b : A) (l : list A) : Prop :=
  ∃ l1 l2 l3, l = (l1 ++ a :: l2 ++ b :: l3)%list.

(** Greatest key first. *)
Definition desc {A : Type} (key : A → Z) (x y : A) : Prop := key y ≤ key x.

(** Every weak area of a progress record, weakest first. *)
Definition ranking (p : StudentProgress) : list Z :=
  get_weakest_timestables p (Z.of_nat (length (weak_areas p))).

(** The progress record of the ranking example: mistakes on 5, 7 and 2,
    first made in that order. *)
Definition three_weak_areas : StudentProgress :=
  {| student_name := "Ana"; max_timestable := 12;
     total_questions := 7; correct_answers := 0;
     weak_areas := [(5, 3); (7, 3); (2, 1)];
     question_history := [] |}.

(** The service after [get_session sid]: a record found only on disk
    has been entered into the table. *)
Definition cached (ms : Memory.MemoryService) (sid : string) : Memory.MemoryService :=
  match Memory.sessions ms !! sid, Memory.disk ms !! sid with
  | None, Some (Memory.FileSession s) =>
      {| Memory.sessions := <[sid := s]> (Memory.sessions ms);
         Memory.disk := Memory.disk ms |}
  | _, _ => ms
  end.

(** The file that [get_session sid] would have to load, if any, loads. *)
Definition readable (ms : Memory.MemoryService) (sid : string) : Prop :=
  Memory.sessions ms !! sid = None → Memory.disk ms !! sid ≠ Some Memory.FileCorrupt.

(** The service after [update_session s]. *)
Definition updated (ms : Memory.MemoryService) (s : StudentSession) : Memory.MemoryService :=
  {| Memory.sessions := <[session_id s := s]> (Memory.sessions ms);
     Memory.disk := <[session_id s := Memory.FileSession s]> (Memory.disk ms) |}.

(** The whole state with the service replaced. *)
Definition with_service (w : World.World) (ms : Memory.MemoryService) : World.World :=
  {| World.memory_service := ms; World.question_count := World.question_count w |}.

(** The reply of a pause. *)
Definition paused_reply : Coordinator.Reply :=
  {| Coordinator.status := "paused";
     Coordinator.message := "Session paused successfully! You can resume anytime.";
     Coordinator.session := None |}.

(** The payload the coordinator assembles when it pauses session [sid],
    resolved to [s], in state [w]. *)
Definition payload_of (model_dump : StudentProgress → pyval) (w : World.World)
    (sid : string) (s : StudentSession) : list (string * pyval) :=
  Coordinator.pause_payload
    (default (PInt 0) (World.question_count w !! sid))
    [("agent", PStr "MathTutor"); ("progress", model_dump (progress s))].

(** [ms'] holds [s'] for [sid], in the table and on disk. *)
Definition holds (ms' : Memory.MemoryService) (sid : string) (s' : StudentSession) : Prop :=
  Memory.sessions ms' !! sid = Some s' ∧
  Memory.disk ms' !! sid = Some (Memory.FileSession s').

(** The whole state with the counter of [sid] set. *)
Definition with_count (w : World.World) (sid : string) (v : pyval) : World.World :=
  {| World.memory_service := World.memory_service w;
     World.question_count := <[sid := v]> (World.question_count w) |}.

(** The replies of a resume. *)
Definition resumed_reply (s : StudentSession) : Coordinator.Reply :=
  {| Coordinator.status := "resumed";
     Coordinator.message :=
       "Welcome back, " ++ s_student_name s ++ "! Let's continue learning!";
     Coordinator.session := Some s |}.

(** A state holding the single session [s], in the table and on disk,
    with the given counter for it, if any. *)
Definition world_of (s : StudentSession) (count : option pyval) : World.World :=
  {| World.memory_service :=
       {| Memory.sessions := {[session_id s := s]};
          Memory.disk := {[session_id s := Memory.FileSession s]} |};
     World.question_count :=
       match count with
       | Some v => {[session_id s := v]}
       | None => ∅
       end |}.

(** Ana's session ["s1"]: as created, and paused with a given payload. *)
Definition ana : StudentSession :=
  {| session_id := "s1"; s_student_name := "Ana"; s_max_timestable := 12;
     start_time := 0; progress := new_progress "Ana" 12;
     is_paused := false; current_state := None |}.

Definition ana_paused (payload : option (list (string * pyval))) : StudentSession :=
  Memory.set_pause ana true payload.

(** A session whose only weak area, 99, lies above its ceiling of 10:
    Ana's progress after one wrong answer recorded for timestable 99. *)
Definition ana_above_ceiling : StudentSession :=
  {| session_id := "s1"; s_student_name := "Ana"; s_max_timestable := 10;
     start_time := 0;
     progress := update_progress (new_progress "Ana" 10) 99 false;
     is_paused := false; current_state := None |}.

(** Inputs of a request: all draws [0], the given generated text. *)
Definition env_of (generated : string) : World.Env :=
  {| World.coin := 0; World.pick := 0; World.topic_draw := 0;
     World.multiplier_draw := 0; World.text := generated;
     World.text2 := ""; World.now := 0 |}.

(** A generated text that follows none of the requested format. *)
Definition malformed_env : World.Env :=
  env_of "This is not a properly formatted quiz at all!".

(** The quiz [generate_fact_quiz] makes of it. *)
Definition malformed_quiz : Facts.Quiz :=
  {| Facts.quiz_category := "animals";
     Facts.quiz_question := "";
     Facts.quiz_options := [];
     Facts.quiz_correct_answer := "";
     Facts.quiz_explanation := "" |}.

(** The sum of the mistake counts. *)
Definition mistakes (wa : list (Z * Z)) : Z := foldr (λ kv acc, kv.2 + acc) 0 wa.

(** A progress record as [update_progress] keeps it: one entry per weak
    area, each with at least one mistake, and every question counted once,
    as a correct answer or as a mistake. *)
Definition progress_ok (p : StudentProgress) : Prop :=
  NoDup (weak_areas p).*1 ∧
  Forall (λ kv, 1 ≤ kv.2) (weak_areas p) ∧
  0 ≤ correct_answers p ∧
  total_questions p = correct_answers p + mistakes (weak_areas p).

(** The service of a new process over the same data directory: an empty
    table, the files as they were. *)
Definition restart (ms : Memory.MemoryService) : Memory.MemoryService :=
  {| Memory.sessions := ∅; Memory.disk := Memory.disk ms |}.

(** Every record of the table is the one its file holds. *)
Definition coherent (ms : Memory.MemoryService) : Prop :=
  ∀ sid s, Memory.sessions ms !! sid = Some s →
           Memory.disk ms !! sid = Some (Memory.FileSession s).

(** A generated text in the format the quiz prompt asks for. *)
Definition format_quiz (q a b c d k e : string) : string :=
  "QUESTION: " ++ q ++ String newline
  ("A) " ++ a ++ String newline
  ("B) " ++ b ++ String newline
  ("C) " ++ c ++ String newline
  ("D) " ++ d ++ String newline
  ("CORRECT: " ++ k ++ String newline
  ("EXPLANATION: " ++ e)))))).

(** [old] occurs somewhere in [s]. *)
Fixpoint occurs (old s : string) : bool :=
  match s with
  | EmptyString => String.prefix old EmptyString
  | String _ s' => String.prefix old s || occurs old s'
  end.

(** The character [c] occurs in [s]. *)
Fixpoint has_char (c : ascii) (s : string) : bool :=
  match s with
  | EmptyString => false
  | String c' s' => Ascii.eqb c' c || has_char c s'
  end.

(** A non-empty text of one line without white space at either end. *)
Definition plain (s : string) : Prop :=
  s ≠ "" ∧ lstrip s = s ∧ rstrip s = s ∧ has_char newline s = false.

(** The letters of the quiz options. *)
Definition option_letters : list string := ["A"; "B"; "C"; "D"].

(** The options collected by the parsing loop: letters among A to D,
    each once. *)
Definition lettered (f : Facts.quiz_fields) : Prop :=
  NoDup (Facts.options f).*1 ∧ ∀ k, k ∈ (Facts.options f).*1 → k ∈ option_letters.

(** The calls that record something in a [MetricsCollector]. *)
Inductive metric_call : Type :=
| Request (endpoint : string)
| Latency (operation : string) (duration : Q)
| Failure (error_type : string)
| AgentCall (agent_name method : string).

Definition record_call (m : Logging.MetricsCollector) (c : metric_call)
  : Logging.MetricsCollector :=
  match c with
  | Request endpoint => Logging.record_request endpoint m
  | Latency operation duration => Logging.record_latency operation duration m
  | Failure error_type => Logging.record_error error_type m
  | AgentCall agent_name method => Logging.record_agent_call agent_name method m
  end.

(** The key under which a call is counted, in the counter it bumps. *)
Definition request_key (c : metric_call) : option string :=
  match c with Request endpoint => Some endpoint | _ => None end.

Definition failure_key (c : metric_call) : option string :=
  match c with Failure error_type => Some error_type | _ => None end.

Definition agent_call_key (c : metric_call) : option string :=
  match c with AgentCall a m => Some (a ++ "." ++ m) | _ => None end.

(** How many of the calls are counted under [key] by [key_of]. *)
Definition counted (key_of : metric_call → option string) (key : string)
    (calls : list metric_call) : Z :=
  Z.of_nat (length (filter (λ c, key_of c = Some key) calls)).

(** The durations recorded for an operation, oldest first. *)
Definition durations_of (operation : string) (calls : list metric_call) : list Q :=
  omap (λ c, match c with
             | Latency op duration =>
                 if decide (op = operation) then Some duration else None
             | _ => None
             end) calls.

(** The state after a series of answer submissions for one session, each
    with its question, its answer and its inputs, oldest first. *)
Definition submit_all (sid : string)
    (submissions : list (MathTutor.Question * string * World.Env)) (w : World.World)
  : World.World :=
  foldl (λ w sub, state_of (MathTutor.evaluate_answer sid sub.1.1 sub.1.2 sub.2 w))
    w submissions.

(** The table holds, for [sid], a record that counts [k] answers. *)
Definition after_answers (sid : string) (k : nat) (w : World.World) : Prop :=
  ∃ s, Memory.sessions (World.memory_service w) !! sid = Some s ∧
       session_id s = sid ∧
       progress_ok (progress s) ∧
       total_questions (progress s) = Z.of_nat k ∧
       length (question_history (progress s)) = k.

(** * Properties *)

(** ** Dicts *)

Section DictFacts.
Context {K V : Type} `{EqDecision K}.
Implicit Types (d : list (K * V)) (k : K) (v : V).

Lemma dict_get_set_eq d k v : dict_get k (dict_set k v d) = Some v.
Proof.
  induction d as [|[k' v'] d IH]; simpl.
  - by rewrite decide_True.
  - destruct (decide (k = k')) as [->|Hne]; simpl.
    + by rewrite decide_True.
    + by rewrite decide_False.
Qed.

Lemma dict_get_set_ne d k k' v : k ≠ k' → dict_get k' (dict_set k v d) = dict_get k' d.
Proof.
  intros Hne. induction d as [|[k0 v0] d IH]; simpl.
  - by rewrite decide_False.
  - destruct (decide (k = k0)) as [->|Hne0]; simpl.
    + by rewrite !decide_False.
    + by rewrite IH.
Qed.

Lemma dict_set_keys_present d k v :
  is_Some (dict_get k d) → (dict_set k v d).*1 = d.*1.
Proof.
  induction d as [|[k' v'] d IH]; csimpl.
  - by intros [? ?].
  - destruct (decide (k = k')) as [->|Hne]; csimpl; [done|].
    intros Hs. by rewrite IH.
Qed.

Lemma dict_set_keys_absent d k v :
  dict_get k d = None → (dict_set k v d).*1 = (d.*1 ++ [k])%list.
Proof.
  induction d as [|[k' v'] d IH]; csimpl; [done|].
  destruct (decide (k = k')) as [->|Hne]; csimpl; [done|].
  intros Hs. by rewrite IH.
Qed.

Lemma dict_get_Some_elem d k v : dict_get k d = Some v → (k, v) ∈ d.
Proof.
  induction d as [|[k' v'] d IH]; simpl; [done|].
  destruct (decide (k = k')) as [->|Hne].
  - intros [= ->]. left.
  - intros ?. right. auto.
Qed.

Lemma dict_get_None_keys d k : dict_get k d = None ↔ k ∉ d.*1.
Proof.
  induction d as [|[k' v'] d IH]; csimpl.
  - split; [intros _; apply not_elem_of_nil | done].
  - rewrite not_elem_of_cons. destruct (decide (k = k')) as [->|Hne].
    + split; [done | intros [? _]; done].
    + rewrite IH. tauto.
Qed.
End DictFacts.

(** ** Order of appearance in a list *)


Section Precedes.
Context {A : Type}.
Implicit Types (l : list A) (a b : A).

Lemma precedes_cons a b c l : precedes a b l → precedes a b (c :: l).
Proof. intros (l1 & l2 & l3 & ->). by exists (c :: l1), l2, l3. Qed.

Lemma precedes_head a b l : b ∈ l → precedes a b (a :: l).
Proof.
  intros (l2 & l3 & ->)%list_elem_of_split. by exists [], l2, l3.
Qed.

Lemma precedes_app_l a b l l' : precedes a b l → precedes a b (l ++ l')%list.
Proof.
  intros (l1 & l2 & l3 & ->). exists l1, l2, (l3 ++ l')%list.
  by rewrite <- !app_assoc, <- !app_comm_cons, <- app_assoc.
Qed.

Lemma precedes_take a b n l : precedes a b (take n l) → precedes a b l.
Proof.
  intros Hp. rewrite <- (take_drop n l). by apply precedes_app_l.
Qed.

Lemma precedes_elem a b l : precedes a b l → a ∈ l ∧ b ∈ l.
Proof.
  intros (l1 & l2 & l3 & ->). split.
  - rewrite elem_of_app, elem_of_cons. auto.
  - rewrite elem_of_app, elem_of_cons, elem_of_app, elem_of_cons. auto.
Qed.

Lemma precedes_inv_cons a b c l :
  precedes a b (c :: l) → (a = c ∧ b ∈ l) ∨ precedes a b l.
Proof.
  intros (l1 & l2 & l3 & Heq). destruct l1 as [|x l1]; simpl in Heq.
  - injection Heq as -> ->. left. split; [done|].
    rewrite elem_of_app, elem_of_cons. auto.
  - injection Heq as -> ->. right. by exists l1, l2, l3.
Qed.

Lemma precedes_filter (P : A → Prop) `{∀ x, Decision (P x)} a b l :
  precedes a b l → P a → P b → precedes a b (filter P l).
Proof.
  intros (l1 & l2 & l3 & ->) Ha Hb.
  exists (filter P l1), (filter P l2), (filter P l3).
  rewrite filter_app, filter_cons_True, filter_app, filter_cons_True; done.
Qed.

Lemma precedes_filter_inv (P : A → Prop) `{∀ x, Decision (P x)} a b l :
  precedes a b (filter P l) → precedes a b l.
Proof.
  induction l as [|c l IH]; simpl.
  - intros (l1 & l2 & l3 & Heq). by destruct l1.
  - rewrite filter_cons. destruct (decide (P c)) as [Hc|Hc].
    + intros [[-> Hb]|Hp]%precedes_inv_cons.
      * apply precedes_head. by apply list_elem_of_filter in Hb as [_ ?].
      * apply precedes_cons. auto.
    + intros Hp. apply precedes_cons. auto.
Qed.

Lemma precedes_sorted (R : A → A → Prop) a b l :
  StronglySorted R l → precedes a b l → R a b.
Proof.
  induction 1 as [|c l Hs IH Hall]; intros Hp.
  - destruct Hp as (l1 & l2 & l3 & Heq). by destruct l1.
  - apply precedes_inv_cons in Hp as [[-> Hb]|Hp]; [|auto].
    rewrite Forall_forall in Hall. by apply Hall.
Qed.
End Precedes.

Lemma precedes_fmap_inv {A B : Type} (f : A → B) (a b : B) (l : list A) :
  precedes a b (f <$> l) → ∃ x y, a = f x ∧ b = f y ∧ precedes x y l.
Proof.
  intros (l1 & l2 & l3 & Heq).
  apply fmap_app_inv in Heq as (k1 & k & -> & Hk & ->).
  symmetry in Hk. apply fmap_cons_inv in Hk as (x & k' & -> & Hk' & ->).
  symmetry in Hk'. apply fmap_app_inv in Hk' as (k2 & k'' & -> & Hk'' & ->).
  symmetry in Hk''. apply fmap_cons_inv in Hk'' as (y & k3 & -> & -> & ->).
  exists x, y. split; [done|]. split; [done|]. by exists k1, k2, k3.
Qed.

(** ** The stable descending sort *)

Section SortedFacts.
Context {A : Type} (key : A → Z).
Implicit Types (l : list A) (x : A).

Lemma insert_desc_perm x l : insert_desc key x l ≡ₚ x :: l.
Proof.
  induction l as [|y l IH]; simpl; [done|].
  destruct (key x <? key y); [|done].
  rewrite IH. apply Permutation_swap.
Qed.

Lemma sorted_desc_perm l : sorted_desc key l ≡ₚ l.
Proof.
  induction l as [|x l IH]; simpl; [done|].
  rewrite insert_desc_perm. by rewrite IH.
Qed.

Lemma insert_desc_sorted x l :
  StronglySorted (desc key) l → StronglySorted (desc key) (insert_desc key x l).
Proof.
  induction 1 as [|y l Hs IH Hall]; simpl.
  - repeat constructor.
  - destruct (key x <? key y) eqn:Hlt.
    + constructor; [done|].
      rewrite insert_desc_perm. constructor; [|done].
      unfold desc. lia.
    + constructor; [by constructor|].
      constructor; [unfold desc; lia|].
      eapply Forall_impl; [exact Hall|]. unfold desc. intros z Hz. lia.
Qed.

Lemma sorted_desc_sorted l : StronglySorted (desc key) (sorted_desc key l).
Proof.
  induction l as [|x l IH]; simpl; [constructor|].
  by apply insert_desc_sorted.
Qed.

(** Stability: the items of one key come out in the order they came in. *)
Lemma insert_desc_stable (c : Z) x l :
  filter (λ a, key a = c) (insert_desc key x l) = filter (λ a, key a = c) (x :: l).
Proof.
  induction l as [|y l IH]; simpl; [done|].
  destruct (key x <? key y) eqn:Hlt; [|done].
  rewrite filter_cons, IH, !filter_cons.
  destruct (decide (key y = c)), (decide (key x = c)); try done; lia.
Qed.

Lemma sorted_desc_stable (c : Z) l :
  filter (λ a, key a = c) (sorted_desc key l) = filter (λ a, key a = c) l.
Proof.
  induction l as [|x l IH]; simpl; [done|].
  rewrite insert_desc_stable, !filter_cons. by rewrite IH.
Qed.

Lemma sorted_desc_length l : length (sorted_desc key l) = length l.
Proof. by rewrite sorted_desc_perm. Qed.
End SortedFacts.

Example weakest_example_run :
  get_weakest_timestables
    (run_updates (new_progress "Ana" 12)
       [(5, false); (7, false); (2, false); (5, false); (7, false);
        (5, false); (7, false)]) 2 = [5; 7].
Proof. reflexivity. Qed.

(** ** ProgressStore: ranking of the weak areas *)

Lemma slice_to_nonneg {A : Type} (l : list A) (n : Z) :
  0 ≤ n → slice_to l n = take (Z.to_nat n) l.
Proof. intros Hn. unfold slice_to. by rewrite (proj2 (Z.leb_le 0 n) Hn). Qed.

Lemma slice_to_take {A : Type} (l : list A) (k : Z) : ∃ n, slice_to l k = take n l.
Proof. unfold slice_to. destruct (0 <=? k); by eexists. Qed.

Lemma slice_to_fmap {A B : Type} (f : A → B) (l : list A) (k : Z) :
  f <$> slice_to l k = slice_to (f <$> l) k.
Proof.
  unfold slice_to. destruct (0 <=? k); rewrite fmap_take; [done|].
  by rewrite length_fmap.
Qed.

Lemma weakest_slice (p : StudentProgress) (limit : Z) :
  get_weakest_timestables p limit
  = (slice_to (sorted_desc snd (weak_areas p)) limit).*1.
Proof.
  unfold get_weakest_timestables.
  destruct (weak_areas p) as [|kv wa] eqn:Hwa; simpl; [|done].
  unfold slice_to. destruct (0 <=? limit); by rewrite take_nil.
Qed.

Lemma weakest_unfold (p : StudentProgress) (limit : Z) :
  0 ≤ limit →
  get_weakest_timestables p limit
  = (take (Z.to_nat limit) (sorted_desc snd (weak_areas p))).*1.
Proof. intros Hl. by rewrite weakest_slice, slice_to_nonneg. Qed.

Lemma ranking_unfold (p : StudentProgress) :
  ranking p = (sorted_desc snd (weak_areas p)).*1.
Proof.
  unfold ranking. rewrite weakest_unfold by lia.
  rewrite Nat2Z.id, take_ge; [done|]. by rewrite sorted_desc_length.
Qed.

(** C1. [get_weakest_timestables] returns the slice [[:limit]] of the
    ranking of all weak areas: for a limit [0 <= limit], its first
    [limit] topics, hence at most [limit] of them.  The ranking lists each
    weak area once.  A topic returned before another has at least as many
    mistakes, and with as many mistakes it was entered into [weak_areas]
    first.  Nothing is returned when no mistake is recorded.  With the
    mistake counts [{5:3, 7:3, 2:1}] entered in that order, the two
    weakest topics are [[5; 7]]. *)
Theorem weakest_topics_ranked (p : StudentProgress) (limit : Z) :
  let r := get_weakest_timestables p limit in
  r = slice_to (ranking p) limit ∧
  (0 ≤ limit →
     r = take (Z.to_nat limit) (ranking p) ∧ Z.of_nat (length r) ≤ limit) ∧
  ranking p ≡ₚ (weak_areas p).*1 ∧
  (∀ a b, precedes a b r →
     ∃ ca cb, (a, ca) ∈ weak_areas p ∧ (b, cb) ∈ weak_areas p ∧ cb ≤ ca ∧
              (ca = cb → precedes (a, ca) (b, cb) (weak_areas p))) ∧
  (weak_areas p = [] → r = []) ∧
  (∀ name max_ts total correct history,
     get_weakest_timestables
       {| student_name := name; max_timestable := max_ts;
          total_questions := total; correct_answers := correct;
          weak_areas := [(5, 3); (7, 3); (2, 1)];
          question_history := history |} 2 = [5; 7]).
Proof.
  intros r. subst r.
  split; [|split; [|split; [|split; [|split]]]].
  - by rewrite weakest_slice, ranking_unfold, slice_to_fmap.
  - intros Hl. rewrite weakest_unfold by done. split.
    + by rewrite ranking_unfold, fmap_take.
    + rewrite length_fmap, length_take. lia.
  - by rewrite ranking_unfold, sorted_desc_perm.
  - rewrite weakest_slice.
    destruct (slice_to_take (sorted_desc snd (weak_areas p)) limit) as [n ->].
    intros a b ([a' ca] & [b' cb] & -> & -> & Hp)%precedes_fmap_inv.
    apply precedes_take in Hp. simpl. exists ca, cb.
    pose proof (precedes_elem _ _ _ Hp) as [Ha Hb].
    rewrite sorted_desc_perm in Ha, Hb.
    split; [done|]. split; [done|]. split.
    + exact (precedes_sorted _ _ _ _ (sorted_desc_sorted snd _) Hp).
    + intros <-.
      apply (precedes_filter (λ kv, kv.2 = ca)) in Hp; [|done..].
      rewrite sorted_desc_stable in Hp.
      by apply precedes_filter_inv in Hp.
  - intros Hwa. unfold get_weakest_timestables. by rewrite Hwa.
  - reflexivity.
Qed.

Lemma weakest_topics_ranked_witness :
  0 ≤ 2 ∧
  get_weakest_timestables three_weak_areas 2 = take 2 (ranking three_weak_areas).
Proof.
  split; [lia|].
  exact (proj1 (proj1 (proj2 (weakest_topics_ranked three_weak_areas 2))
                  ltac:(lia))).
Defined.

(** ** ProgressStore: counters *)

Lemma update_progress_total (p : StudentProgress) (t : Z) (c : bool) :
  total_questions (update_progress p t c) = total_questions p + 1.
Proof. unfold update_progress. by destruct c. Qed.

Lemma update_progress_correct (p : StudentProgress) (t : Z) (c : bool) :
  correct_answers (update_progress p t c)
  = correct_answers p + (if c then 1 else 0).
Proof. unfold update_progress. destruct c; simpl; lia. Qed.

Lemma run_updates_counters (calls : list (Z * bool)) (p : StudentProgress) :
  total_questions (run_updates p calls) = total_questions p + Z.of_nat (length calls) ∧
  correct_answers p ≤ correct_answers (run_updates p calls)
    ≤ correct_answers p + Z.of_nat (length calls).
Proof.
  revert p. induction calls as [|[t c] calls IH]; intros p; simpl.
  - lia.
  - destruct (IH (update_progress p t c)) as [Ht Hc].
    unfold run_updates in *. simpl.
    rewrite update_progress_total, update_progress_correct in *.
    destruct c; lia.
Qed.

Lemma accuracy_bounds (p : StudentProgress) :
  0 ≤ correct_answers p ≤ total_questions p →
  (0 <= get_accuracy p <= 100)%Q.
Proof.
  intros [H0 H1]. unfold get_accuracy.
  destruct (total_questions p =? 0) eqn:Hz; [by split|].
  apply Z.eqb_neq in Hz.
  destruct (total_questions p) as [|t|t]; [done| |lia].
  unfold Qle, Qdiv, Qmult, Qinv, inject_Z; simpl. split; nia.
Qed.

(** C7. Starting from a fresh progress record, after each of the calls
    of [update_progress] (after the first [k] of them, for every [k]) the
    number of correct answers is between [0] and the number of questions,
    the number of questions is the number of calls made so far, and the
    accuracy is [correct_answers / total_questions * 100], which is [0]
    when no question was asked; it lies between [0] and [100]. *)
Theorem update_progress_invariant (name : string) (max_ts : Z)
    (calls : list (Z * bool)) (k : nat) :
  let made := take k calls in
  let p := run_updates (new_progress name max_ts) made in
  0 ≤ correct_answers p ≤ total_questions p ∧
  total_questions p = Z.of_nat (length made) ∧
  (total_questions p = 0 → get_accuracy p = 0%Q) ∧
  (total_questions p ≠ 0 →
     get_accuracy p
     = (inject_Z (correct_answers p) / inject_Z (total_questions p) * 100)%Q) ∧
  (0 <= get_accuracy p <= 100)%Q.
Proof.
  intros made p.
  destruct (run_updates_counters made (new_progress name max_ts)) as [Ht Hc].
  fold p in Ht, Hc. simpl in Ht, Hc.
  assert (0 ≤ correct_answers p ≤ total_questions p) as Hinv by lia.
  split; [done|]. split; [lia|]. split; [|split].
  - intros Hz. unfold get_accuracy. by rewrite Hz.
  - intros Hz. unfold get_accuracy.
    by rewrite (proj2 (Z.eqb_neq _ _) Hz).
  - by apply accuracy_bounds.
Qed.

(** ** SessionRepository *)

Section MemoryFacts.
Import Memory.
Implicit Types (ms : MemoryService) (sid : string) (s : StudentSession).


Lemma resolve_wf ms sid s : wf_service ms → resolve ms sid = Some s → session_id s = sid.
Proof.
  intros [Hm Hd]. unfold resolve.
  destruct (sessions ms !! sid) as [s0|] eqn:Hs.
  - intros [= <-]. eauto.
  - destruct (disk ms !! sid) as [[s0|]|] eqn:Hf; [|done..].
    intros [= <-]. eauto.
Qed.

Lemma get_session_run ms sid :
  readable ms sid → get_session sid ms = Returned (resolve ms sid) (cached ms sid).
Proof.
  intros Hr. unfold get_session, _load_session, resolve, cached, bind, get_state.
  destruct (sessions ms !! sid) as [s0|] eqn:Hs; [done|].
  destruct (disk ms !! sid) as [[s0|]|] eqn:Hf; [done| |done].
  by destruct (Hr Hs).
Qed.

Lemma get_session_corrupt ms sid :
  sessions ms !! sid = None → disk ms !! sid = Some FileCorrupt →
  get_session sid ms = Raised ValidationError ms.
Proof.
  intros Hs Hf. unfold get_session, _load_session, bind, get_state.
  by rewrite Hs, Hf.
Qed.

Lemma cached_lookup ms sid : sessions (cached ms sid) !! sid = resolve ms sid.
Proof.
  unfold cached, resolve.
  destruct (sessions ms !! sid) as [s0|] eqn:Hs; [done|].
  destruct (disk ms !! sid) as [[s0|]|] eqn:Hf; simpl; [|done..].
  by rewrite lookup_insert_eq.
Qed.

Lemma cached_disk ms sid : disk (cached ms sid) = disk ms.
Proof.
  unfold cached. destruct (sessions ms !! sid); [done|].
  by destruct (disk ms !! sid) as [[?|]|].
Qed.

Lemma cached_unresolved ms sid : resolve ms sid = None → cached ms sid = ms.
Proof.
  unfold cached, resolve. destruct (sessions ms !! sid); [done|].
  by destruct (disk ms !! sid) as [[?|]|].
Qed.

Lemma cached_wf ms sid : wf_service ms → wf_service (cached ms sid).
Proof.
  intros [Hm Hd]. unfold cached.
  destruct (sessions ms !! sid) as [s0|] eqn:Hs; [done|].
  destruct (disk ms !! sid) as [[s0|]|] eqn:Hf; [|done..].
  split; [|done]. intros sid' s'; simpl.
  rewrite lookup_insert. case_decide as Heq.
  - intros [= <-]. subst. eauto.
  - apply Hm.
Qed.

Lemma cached_readable ms sid sid' : readable ms sid' → readable (cached ms sid) sid'.
Proof.
  unfold readable. rewrite cached_disk. intros Hr Hs. apply Hr.
  revert Hs. unfold cached.
  destruct (sessions ms !! sid) as [s0|] eqn:Hs; [done|].
  destruct (disk ms !! sid) as [[s0|]|] eqn:Hf; [|done..].
  simpl. rewrite lookup_insert. by case_decide.
Qed.


Lemma updated_wf ms s : wf_service ms → wf_service (updated ms s).
Proof.
  intros [Hm Hd]. split; intros sid' s'; simpl; rewrite lookup_insert;
    case_decide; try (intros [= <-]; done); eauto.
Qed.

Lemma create_session_run ms sid name max_ts now :
  let session :=
    {| session_id := sid; s_student_name := name; s_max_timestable := max_ts;
       start_time := now; progress := new_progress name max_ts;
       is_paused := false; current_state := None |} in
  create_session sid name max_ts now ms = Returned session (updated ms session).
Proof. reflexivity. Qed.

Lemma pause_session_run ms sid state :
  readable ms sid →
  Memory.pause_session sid state ms
  = Returned ()
      (match resolve ms sid with
       | Some s => updated (cached ms sid) (set_pause s true (Some state))
       | None => ms
       end).
Proof.
  intros Hr. unfold Memory.pause_session, bind. rewrite get_session_run by done.
  destruct (resolve ms sid) as [s|] eqn:Hres; [done|].
  by rewrite cached_unresolved.
Qed.

Lemma resume_session_run ms sid :
  readable ms sid →
  Memory.resume_session sid ms
  = match resolve ms sid with
    | Some s =>
        if is_paused s
        then Returned (current_state s) (updated (cached ms sid) (set_pause s false None))
        else Returned None (cached ms sid)
    | None => Returned None ms
    end.
Proof.
  intros Hr. unfold Memory.resume_session, bind. rewrite get_session_run by done.
  destruct (resolve ms sid) as [s|] eqn:Hres.
  - by destruct (is_paused s).
  - by rewrite cached_unresolved.
Qed.

End MemoryFacts.

(** C3 (amended). [create_session] makes no presence check and never
    fails: for every id, present in the table or not, it builds the new
    record (fresh progress, not paused, no pause payload), files it in
    the table under that id, in place of whatever record was there, and
    writes it to the session's file at once; the other sessions and files
    are left as they were. *)
Theorem create_session_always_stores (ms : Memory.MemoryService)
    (sid name : string) (max_ts now : Z) :
  let session :=
    {| session_id := sid; s_student_name := name; s_max_timestable := max_ts;
       start_time := now; progress := new_progress name max_ts;
       is_paused := false; current_state := None |} in
  ∃ ms', Memory.create_session sid name max_ts now ms = Returned session ms' ∧
         Memory.sessions ms' !! sid = Some session ∧
         Memory.disk ms' !! sid = Some (Memory.FileSession session) ∧
         (∀ sid', sid' ≠ sid →
            Memory.sessions ms' !! sid' = Memory.sessions ms !! sid' ∧
            Memory.disk ms' !! sid' = Memory.disk ms !! sid').
Proof.
  intros session. exists (updated ms session).
  split; [apply create_session_run|]. simpl.
  rewrite !lookup_insert_eq. split; [done|]. split; [done|].
  intros sid' Hne. by rewrite !lookup_insert_ne.
Qed.

(** C3, counterexample. With a session ["s1"] of Ana in the table,
    creating ["s1"] again for Bob does not fail: it returns Bob's record,
    which has taken the place of Ana's. *)
Lemma create_session_replaces_existing :
  ∃ ana bob ms ms',
    Memory.create_session "s1" "Ana" 12 0 Memory.empty_service = Returned ana ms ∧
    Memory.sessions ms !! "s1" = Some ana ∧
    Memory.create_session "s1" "Bob" 5 1 ms = Returned bob ms' ∧
    Memory.sessions ms' !! "s1" = Some bob ∧
    s_student_name ana = "Ana" ∧ s_student_name bob = "Bob".
Proof.
  eexists _, _, _, _. split; [apply create_session_run|].
  split; [apply lookup_insert_eq|].
  split; [apply create_session_run|].
  split; [apply lookup_insert_eq|]. done.
Qed.

(** ** Pause *)

Section CoordinatorFacts.
Import Memory World.
Implicit Types (w : World) (ms : MemoryService) (sid : string) (s : StudentSession).

Lemma on_service_returned {A : Type} (m : M MemoryService A) w (a : A) ms' :
  m (memory_service w) = Returned a ms' →
  on_service m w = Returned a (with_service w ms').
Proof. intros Hm. unfold on_service. by rewrite Hm. Qed.

Lemma on_service_raised {A : Type} (m : M MemoryService A) w e ms' :
  m (memory_service w) = Raised e ms' →
  on_service m w = Raised e (with_service w ms').
Proof. intros Hm. unfold on_service. by rewrite Hm. Qed.

Lemma resolve_cached ms sid : resolve (cached ms sid) sid = resolve ms sid.
Proof.
  unfold resolve at 1. rewrite cached_lookup, cached_disk.
  destruct (resolve ms sid) as [s|] eqn:Hres; [done|].
  revert Hres. unfold resolve. destruct (sessions ms !! sid); [done|].
  by destruct (disk ms !! sid) as [[?|]|].
Qed.

Lemma cached_idem ms sid : cached (cached ms sid) sid = cached ms sid.
Proof.
  unfold cached at 1. rewrite cached_lookup, cached_disk.
  destruct (resolve ms sid) as [s|] eqn:Hres; [done|].
  rewrite cached_unresolved by done.
  revert Hres. unfold resolve. destruct (sessions ms !! sid); [done|].
  by destruct (disk ms !! sid) as [[?|]|].
Qed.

Lemma holds_updated ms sid s :
  session_id s = sid → holds (updated ms s) sid s.
Proof. intros <-. split; simpl; by rewrite lookup_insert_eq. Qed.

Lemma wf_world_of s c : wf_service (memory_service (world_of s c)).
Proof.
  split; intros sid s'; simpl; rewrite lookup_singleton;
    case_decide; naive_solver.
Qed.

Lemma readable_world_of s c sid : readable (memory_service (world_of s c)) sid.
Proof.
  unfold readable. simpl. rewrite !lookup_singleton. case_decide; naive_solver.
Qed.

Lemma resolve_world_of s c :
  resolve (memory_service (world_of s c)) (session_id s) = Some s.
Proof. unfold resolve. simpl. by rewrite lookup_singleton_eq. Qed.

Lemma pause_state_run (dump : StudentProgress → pyval) w sid :
  readable (memory_service w) sid →
  MathTutor.pause_state dump sid w
  = Returned
      (match resolve (memory_service w) sid with
       | Some s => [("agent", PStr "MathTutor"); ("progress", dump (progress s))]
       | None => []
       end)
      (with_service w (cached (memory_service w) sid)).
Proof.
  intros Hr. unfold MathTutor.pause_state, bind.
  rewrite (on_service_returned _ _ _ _ (get_session_run _ _ Hr)).
  by destruct (resolve (memory_service w) sid).
Qed.

Lemma coordinator_pause_run (dump : StudentProgress → pyval) w sid :
  readable (memory_service w) sid →
  Coordinator.pause_session dump sid w
  = Returned paused_reply
      (match resolve (memory_service w) sid with
       | Some s =>
           with_service w
             (updated (cached (memory_service w) sid)
                (set_pause s true (Some (payload_of dump w sid s))))
       | None => w
       end).
Proof.
  intros Hr. unfold Coordinator.pause_session, bind at 1.
  rewrite pause_state_run by done. unfold bind, get_state.
  assert (readable (cached (memory_service w) sid) sid) as Hr'
    by by apply cached_readable.
  erewrite on_service_returned; [|simpl; by apply pause_session_run].
  simpl. rewrite resolve_cached.
  destruct (resolve (memory_service w) sid) as [s|] eqn:Hres.
  - by rewrite cached_idem.
  - rewrite cached_unresolved by done. by destruct w.
Qed.

End CoordinatorFacts.

(** C4 (amended). Pausing never fails on an id the repository cannot
    resolve: with the id neither in the table nor on disk,
    [MemoryService.pause_session] returns without changing anything and
    the coordinator still reports ["paused"].  For an id that resolves to
    a record, the record with [is_paused = True] and the payload as its
    [current_state] is filed under the id, in the table and on disk: the
    payload given, for the service; the payload the coordinator assembles
    from its counter and the agents' states, for the coordinator.  The
    counters are not touched. *)
Theorem pause_session_outcome (model_dump : StudentProgress → pyval)
    (w : World.World) (sid : string) :
  let ms := World.memory_service w in
  Memory.wf_service ms →
  readable ms sid →
  (∀ state, ∃ ms',
     Memory.pause_session sid state ms = Returned () ms' ∧
     Memory.wf_service ms' ∧
     match Memory.resolve ms sid with
     | Some s => holds ms' sid (Memory.set_pause s true (Some state))
     | None => ms' = ms
     end) ∧
  (∃ w',
     Coordinator.pause_session model_dump sid w = Returned paused_reply w' ∧
     World.question_count w' = World.question_count w ∧
     Memory.wf_service (World.memory_service w') ∧
     match Memory.resolve ms sid with
     | Some s =>
         holds (World.memory_service w') sid
           (Memory.set_pause s true (Some (payload_of model_dump w sid s)))
     | None => w' = w
     end).
Proof.
  intros ms Hwf Hr. split.
  - intros state. eexists. split; [by apply pause_session_run|].
    destruct (Memory.resolve ms sid) as [s|] eqn:Hres; [|done].
    split.
    + by apply updated_wf, cached_wf.
    + apply holds_updated. simpl. by eapply resolve_wf.
  - eexists. split; [by apply coordinator_pause_run|]. fold ms.
    destruct (Memory.resolve ms sid) as [s|] eqn:Hres; [|done].
    split; [done|]. split.
    + simpl. by apply updated_wf, cached_wf.
    + apply holds_updated. simpl. by eapply resolve_wf.
Qed.

Lemma readable_empty (sid : string) : readable Memory.empty_service sid.
Proof. intros _. simpl. by rewrite lookup_empty. Qed.

Lemma pause_session_outcome_witness :
  ∃ w',
    Coordinator.pause_session (λ _, PNone) "s1" (world_of ana (Some (PInt 5)))
    = Returned paused_reply w' ∧
    holds (World.memory_service w') "s1"
      (ana_paused (Some (payload_of (λ _, PNone) (world_of ana (Some (PInt 5)))
                           "s1" ana))).
Proof.
  destruct (pause_session_outcome (λ _, PNone) (world_of ana (Some (PInt 5))) "s1"
              (wf_world_of ana _) (readable_world_of ana _ "s1"))
    as [_ (w' & Hrun & _ & _ & Hh)].
  rewrite (resolve_world_of ana) in Hh.
  exists w'. split; [exact Hrun | exact Hh].
Defined.

(** C4, counterexample. Pausing the session ["ghost"], which exists
    neither in the table nor on disk, raises nothing: the coordinator
    answers ["paused"] and the state is what it was. *)
Lemma pause_unknown_session_succeeds :
  Coordinator.pause_session (λ _, PNone) "ghost" World.empty_world
  = Returned paused_reply World.empty_world ∧
  Memory.resolve (World.memory_service World.empty_world) "ghost" = None ∧
  ∀ e w', Coordinator.pause_session (λ _, PNone) "ghost" World.empty_world
          ≠ Raised e w'.
Proof.
  assert (Coordinator.pause_session (λ _, PNone) "ghost" World.empty_world
          = Returned paused_reply World.empty_world) as Hrun.
  { rewrite coordinator_pause_run by apply readable_empty.
    unfold Memory.resolve. simpl. by rewrite !lookup_empty. }
  split; [done|]. split.
  - unfold Memory.resolve. simpl. by rewrite !lookup_empty.
  - intros e w'. by rewrite Hrun.
Qed.

(** ** Resume *)

Section ResumeFacts.
Import Memory World.
Implicit Types (w : World) (ms : MemoryService) (sid : string) (s : StudentSession).

Lemma get_session_hit ms sid s :
  sessions ms !! sid = Some s → get_session sid ms = Returned (Some s) ms.
Proof. intros Hs. unfold get_session, bind, get_state. by rewrite Hs. Qed.

Lemma on_service_returned_or_raised_resume w sid :
  readable (memory_service w) sid →
  on_service (Memory.resume_session sid) w
  = match resolve (memory_service w) sid with
    | Some s =>
        if is_paused s
        then Returned (current_state s)
               (with_service w
                  (updated (cached (memory_service w) sid) (set_pause s false None)))
        else Returned None (with_service w (cached (memory_service w) sid))
    | None => Returned None (with_service w (memory_service w))
    end.
Proof.
  intros Hr. unfold on_service. rewrite resume_session_run by done.
  destruct (resolve (memory_service w) sid) as [s|]; [|done].
  by destruct (is_paused s).
Qed.

(** What [Coordinator.resume_session] does, case by case. *)
Lemma coordinator_resume_run w sid :
  wf_service (memory_service w) →
  readable (memory_service w) sid →
  Coordinator.resume_session sid w
  = match resolve (memory_service w) sid with
    | None => Returned Coordinator.not_resumed w
    | Some s =>
        if is_paused s then
          let s' := set_pause s false None in
          let w1 := with_service w (updated (cached (memory_service w) sid) s') in
          match current_state s with
          | None | Some [] => Returned Coordinator.not_resumed w1
          | Some state =>
              match dict_get "coordinator" state with
              | None => Returned (resumed_reply s') w1
              | Some (PDict d) =>
                  Returned (resumed_reply s')
                    (with_count w1 sid (default (PInt 0) (dict_get "question_count" d)))
              | Some _ => Raised AttributeError w1
              end
          end
        else Returned Coordinator.not_resumed (with_service w (cached (memory_service w) sid))
    end.
Proof.
  intros Hwf Hr. unfold Coordinator.resume_session. unfold bind at 1.
  rewrite on_service_returned_or_raised_resume by done.
  destruct (resolve (memory_service w) sid) as [s|] eqn:Hres;
    [|by destruct w].
  pose proof (resolve_wf _ _ _ Hwf Hres) as Hid.
  destruct (is_paused s) eqn:Hp; [|done].
  destruct (current_state s) as [[|kv state]|] eqn:Hst; [done| |done].
  set (s' := set_pause s false None).
  assert (∀ w2, sessions (memory_service w2)
                = <[sid := s']> (sessions (cached (memory_service w) sid)) →
                 bind (on_service (get_session sid))
                   (λ session, match session with
                               | Some s0 => ret (resumed_reply s0)
                               | None => raise AttributeError
                               end) w2
                 = Returned (resumed_reply s') w2) as Hget.
  { intros w2 Hw2. unfold bind.
    erewrite on_service_returned;
      [|apply get_session_hit; rewrite Hw2; apply lookup_insert_eq].
    by destruct w2. }
  cbn [dict_truthy].
  destruct (dict_get "coordinator" (kv :: state)) as [v|] eqn:Hco.
  - destruct v as [|b|n|t|l|d]; try reflexivity.
    refine (Hget (with_count _ sid _) _). simpl. by rewrite Hid.
  - refine (Hget _ _). simpl. by rewrite Hid.
Qed.

End ResumeFacts.

(** C2 (amended). For a paused session whose stored payload is a
    non-empty dict in which the ["coordinator"] entry, if there is one, is
    itself a dict, [resume_session] reports ["resumed"] and the session is
    filed as not paused, its payload cleared, in the table and on disk.
    With a ["coordinator"] entry the turn counter of the session becomes
    that entry's ["question_count"], or [0] when the entry has no such
    field; without a ["coordinator"] entry the counters stay as they
    were. *)
Theorem resume_session_restores_counter (w : World.World) (sid : string)
    (s : StudentSession) (state : list (string * pyval)) :
  let ms := World.memory_service w in
  Memory.wf_service ms →
  readable ms sid →
  Memory.resolve ms sid = Some s →
  is_paused s = true →
  current_state s = Some state →
  state ≠ [] →
  (∀ v, dict_get "coordinator" state = Some v → ∃ d, v = PDict d) →
  let s' := Memory.set_pause s false None in
  ∃ w',
    Coordinator.resume_session sid w = Returned (resumed_reply s') w' ∧
    holds (World.memory_service w') sid s' ∧
    is_paused s' = false ∧ current_state s' = None ∧
    World.question_count w'
    = match dict_get "coordinator" state with
      | Some coordinator =>
          match coordinator with
          | PDict d =>
              <[sid := default (PInt 0) (dict_get "question_count" d)]>
                (World.question_count w)
          | _ => World.question_count w
          end
      | None => World.question_count w
      end.
Proof.
  intros ms Hwf Hr Hres Hp Hst Hne Hco s'.
  pose proof (resolve_wf _ _ _ Hwf Hres) as Hid.
  pose proof (coordinator_resume_run w sid Hwf Hr) as Hrun.
  fold ms in Hrun. rewrite Hres, Hp, Hst in Hrun. cbv zeta in Hrun.
  destruct state as [|kv state]; [done|].
  destruct (dict_get "coordinator" (kv :: state)) as [v|] eqn:Hv.
  - destruct (Hco v eq_refl) as [d ->].
    eexists. split; [exact Hrun|]. split; [by apply holds_updated|]. done.
  - eexists. split; [exact Hrun|]. split; [by apply holds_updated|]. done.
Qed.

Lemma resume_session_restores_counter_witness :
  ∃ w',
    Coordinator.resume_session "s1"
      (world_of (ana_paused (Some [("coordinator", PDict [("question_count", PInt 5)])]))
         None)
    = Returned (resumed_reply ana) w' ∧
    World.question_count w' = <[ "s1" := PInt 5 ]> ∅.
Proof.
  set (payload := [("coordinator", PDict [("question_count", PInt 5)])]).
  destruct (resume_session_restores_counter
              (world_of (ana_paused (Some payload)) None) "s1"
              (ana_paused (Some payload)) payload) as (w' & Hrun & _ & _ & _ & Hc).
  - apply wf_world_of.
  - apply readable_world_of.
  - apply (resolve_world_of (ana_paused (Some payload))).
  - reflexivity.
  - reflexivity.
  - discriminate.
  - intros v [= <-]. by eexists.
  - exists w'. split; [exact Hrun | exact Hc].
Defined.

(** C2, counterexample. Ana's session is paused and its stored payload is
    absent.  [resume_session] then reports ["error"], "Could not find
    paused session", and the counter of the session keeps the value [5]
    it had instead of becoming [0]. *)
Lemma resume_without_payload_reports_error :
  Memory.resolve (World.memory_service (world_of (ana_paused None) (Some (PInt 5)))) "s1"
  = Some (ana_paused None) ∧
  is_paused (ana_paused None) = true ∧
  current_state (ana_paused None) = None ∧
  ∃ w',
    Coordinator.resume_session "s1" (world_of (ana_paused None) (Some (PInt 5)))
    = Returned Coordinator.not_resumed w' ∧
    World.question_count w' !! "s1" = Some (PInt 5).
Proof.
  split; [apply (resolve_world_of (ana_paused None))|].
  split; [done|]. split; [done|].
  eexists. split.
  - rewrite coordinator_resume_run
      by (apply wf_world_of || apply readable_world_of).
    by rewrite (resolve_world_of (ana_paused None)).
  - simpl. apply lookup_singleton_eq.
Qed.

(** The same with an empty payload, as [pause_session(sid, {})] stores. *)
Lemma resume_with_empty_payload_reports_error :
  ∃ w',
    Coordinator.resume_session "s1" (world_of (ana_paused (Some [])) None)
    = Returned Coordinator.not_resumed w'.
Proof.
  eexists.
  rewrite coordinator_resume_run
    by (apply wf_world_of || apply readable_world_of).
  by rewrite (resolve_world_of (ana_paused (Some []))).
Qed.

(** A payload whose ["coordinator"] entry is not a dict makes
    [resume_session] raise, after the service has cleared the pause. *)
Lemma resume_with_corrupt_coordinator_raises :
  ∃ w',
    Coordinator.resume_session "s1"
      (world_of (ana_paused (Some [("coordinator", PInt 5)])) None)
    = Raised AttributeError w' ∧
    holds (World.memory_service w') "s1" ana.
Proof.
  eexists. split.
  - rewrite coordinator_resume_run
      by (apply wf_world_of || apply readable_world_of).
    by rewrite (resolve_world_of (ana_paused (Some [("coordinator", PInt 5)]))).
  - by apply holds_updated.
Qed.

(** ** Random source *)

Lemma random_choice_elem {A : Type} (i : nat) (l : list A) :
  l ≠ [] → ∃ x, random_choice i l = inr x ∧ x ∈ l.
Proof.
  intros Hne. unfold random_choice.
  destruct (l !! (i mod length l)%nat) as [x|] eqn:Hx.
  - exists x. split; [done|]. by eapply list_elem_of_lookup_2.
  - apply lookup_ge_None in Hx.
    assert (length l ≠ 0%nat) by by destruct l.
    pose proof (Nat.mod_upper_bound i (length l)). lia.
Qed.

Lemma random_choice_ok {A : Type} (i : nat) (l : list A) (x : A) :
  random_choice i l = inr x → x ∈ l.
Proof.
  unfold random_choice.
  destruct (l !! (i mod length l)%nat) as [y|] eqn:Hy; [|done].
  intros [= <-]. by eapply list_elem_of_lookup_2.
Qed.

Lemma random_randint_range (r a b : Z) :
  a ≤ b → ∃ v, random_randint r a b = inr v ∧ a ≤ v ≤ b.
Proof.
  intros Hab. unfold random_randint.
  rewrite (proj2 (Z.ltb_ge b a) Hab). eexists. split; [done|].
  pose proof (Z.mod_pos_bound r (b - a + 1)). lia.
Qed.

Lemma random_randint_ok (r a b v : Z) :
  random_randint r a b = inr v → a ≤ v ≤ b.
Proof.
  unfold random_randint. destruct (b <? a) eqn:Hlt; [done|].
  intros [= <-]. apply Z.ltb_ge in Hlt.
  pose proof (Z.mod_pos_bound r (b - a + 1)). lia.
Qed.

Lemma random_randint_raises (r a b : Z) (e : exn) :
  random_randint r a b = inl e → b < a.
Proof.
  unfold random_randint. destruct (b <? a) eqn:Hlt; [|done].
  intros _. by apply Z.ltb_lt.
Qed.

(** ** Breaks *)

Lemma get_fun_fact_returns (env : World.Env) : ∃ f, Facts.get_fun_fact env = inr f.
Proof.
  unfold Facts.get_fun_fact.
  destruct (random_choice_elem (World.pick env) Facts.fact_categories)
    as (c & -> & _); [done|]. by eexists.
Qed.

Lemma generate_fact_quiz_returns (env : World.Env) :
  ∃ q, Facts.generate_fact_quiz env = inr q.
Proof.
  unfold Facts.generate_fact_quiz.
  destruct (random_choice_elem (World.pick env) Facts.fact_categories)
    as (c & -> & _); [done|]. by eexists.
Qed.

(** ** Topic selection *)

Section SelectFacts.
Import World MathTutor.
Implicit Types (s : StudentSession) (env : Env).

Lemma weakest_subset (p : StudentProgress) (t : Z) :
  t ∈ get_weakest_timestables p default_limit → t ∈ (weak_areas p).*1.
Proof.
  rewrite weakest_unfold by done. rewrite fmap_take.
  intros Ht%subseteq_take. revert Ht.
  by rewrite sorted_desc_perm.
Qed.

Lemma weakest_nonempty (p : StudentProgress) :
  weak_areas p ≠ [] → get_weakest_timestables p default_limit ≠ [].
Proof.
  intros Hne Hnil. apply (f_equal length) in Hnil. revert Hnil.
  rewrite weakest_unfold by done.
  rewrite length_fmap, length_take, sorted_desc_length.
  destruct (weak_areas p); [done|]. simpl. unfold default_limit. lia.
Qed.

Lemma select_without_weak_areas s env :
  weak_areas (progress s) = [] →
  _select_timestable s env = random_randint (topic_draw env) 1 (s_max_timestable s).
Proof. intros Hwa. unfold _select_timestable. by rewrite Hwa. Qed.

Lemma select_cases s env :
  (weak_areas (progress s) ≠ [] ∧ draw_lt_0_7 (coin env) = true ∧
   _select_timestable s env
   = random_choice (pick env) (get_weakest_timestables (progress s) default_limit))
  ∨ _select_timestable s env = random_randint (topic_draw env) 1 (s_max_timestable s).
Proof.
  unfold _select_timestable.
  destruct (weak_areas (progress s)) as [|kv wa] eqn:Hwa; simpl; [by right|].
  destruct (draw_lt_0_7 (coin env)); simpl; [|by right].
  by left.
Qed.

Lemma select_raises s env e :
  _select_timestable s env = inl e → s_max_timestable s < 1.
Proof.
  destruct (select_cases s env) as [(Hne & _ & ->)| ->].
  - destruct (random_choice_elem (pick env) _ (weakest_nonempty _ Hne))
      as (x & -> & _). done.
  - apply random_randint_raises.
Qed.

End SelectFacts.

(** C8 (amended). [_select_timestable] never draws from an empty set of
    weak areas: with no weak area recorded it draws from
    [1..max_timestable] whatever the random draw, and it never raises
    [IndexError].  The topic it returns is in [1..max_timestable] or is
    one of the recorded weak areas, which the progress store does not
    check against the ceiling; so it is in [1..max_timestable] whenever
    every recorded weak area is. *)
Theorem select_timestable_safe (s : StudentSession) (env : World.Env) :
  (weak_areas (progress s) = [] →
     MathTutor._select_timestable s env
     = random_randint (World.topic_draw env) 1 (s_max_timestable s)) ∧
  MathTutor._select_timestable s env ≠ inl IndexError ∧
  (∀ t, MathTutor._select_timestable s env = inr t →
        1 ≤ t ≤ s_max_timestable s ∨ t ∈ (weak_areas (progress s)).*1) ∧
  ((∀ t, t ∈ (weak_areas (progress s)).*1 → 1 ≤ t ≤ s_max_timestable s) →
   ∀ t, MathTutor._select_timestable s env = inr t → 1 ≤ t ≤ s_max_timestable s).
Proof.
  assert (∀ t, MathTutor._select_timestable s env = inr t →
               1 ≤ t ≤ s_max_timestable s ∨ t ∈ (weak_areas (progress s)).*1) as Hin.
  { intros t. destruct (select_cases s env) as [(Hne & _ & ->)| ->].
    - intros Ht%random_choice_ok. right. by apply weakest_subset.
    - intros Ht%random_randint_ok. by left. }
  split; [apply select_without_weak_areas|]. split; [|split; [done|]].
  - destruct (select_cases s env) as [(Hne & _ & ->)| ->].
    + destruct (random_choice_elem (World.pick env) _ (weakest_nonempty _ Hne))
        as (x & -> & _). done.
    + unfold random_randint. by destruct (_ <? _).
  - intros Hall t Ht. destruct (Hin t Ht) as [?|?]; auto.
Qed.

(** C8, counterexample. A wrong answer recorded for timestable 99 makes
    99 a weak area of a session whose ceiling is 10; with a draw below
    0.7 the topic selected is 99. *)
Lemma select_timestable_above_ceiling :
  MathTutor._select_timestable ana_above_ceiling (env_of "") = inr 99 ∧
  s_max_timestable ana_above_ceiling = 10 ∧
  ¬ (1 ≤ 99 ≤ s_max_timestable ana_above_ceiling).
Proof. split; [reflexivity|]. split; [reflexivity|]. simpl. lia. Qed.

(** ** Turns *)

Section TurnFacts.
Import Memory World Coordinator.
Implicit Types (w : World) (sid : string) (s : StudentSession) (env : Env).

Lemma generate_question_run w sid env s :
  sessions (memory_service w) !! sid = Some s →
  MathTutor.generate_question sid env w
  = match MathTutor._select_timestable s env with
    | inl e => Raised e w
    | inr timestable =>
        match random_randint (multiplier_draw env) 1 12 with
        | inl e => Raised e w
        | inr multiplier =>
            Returned
              {| MathTutor.q_question := strip (text env);
                 MathTutor.q_timestable := timestable;
                 MathTutor.q_multiplier := multiplier;
                 MathTutor.q_expected_answer := timestable * multiplier;
                 MathTutor.q_session_id := sid |} w
        end
    end.
Proof.
  intros Hs. unfold MathTutor.generate_question. unfold bind at 1.
  erewrite on_service_returned; [|by apply get_session_hit].
  replace (with_service w (memory_service w)) with w by by destruct w.
  unfold bind, of_sum.
  destruct (MathTutor._select_timestable s env); [done|].
  by destruct (random_randint (multiplier_draw env) 1 12).
Qed.

Lemma next_activity_run w sid env (n : Z) :
  question_count w !! sid = Some (PInt n) →
  get_next_activity sid env w
  = let w1 := with_count w sid (PInt (n + 1)) in
    if (n + 1) mod 3 =? 0 then
      if draw_lt_0_5 (coin env) then
        bind (of_sum (Facts.get_fun_fact env)) (λ f, ret (FunFact f)) w1
      else
        bind (of_sum (Facts.generate_fact_quiz env)) (λ q, ret (FactQuiz q)) w1
    else
      bind (MathTutor.generate_question sid env) (λ q, ret (MathQuestion q)) w1.
Proof.
  intros Hn. unfold get_next_activity.
  unfold bind at 1. unfold get_state at 1. rewrite Hn.
  rewrite bool_decide_true by by eexists.
  unfold bind at 1. cbn [negb]. unfold ret at 1. cbv beta iota.
  unfold bind at 1. unfold get_state at 1. rewrite Hn.
  cbv beta iota zeta delta [bind of_sum py_add1 ret set_count modify].
  destruct ((n + 1) mod 3 =? 0); [destruct (draw_lt_0_5 (coin env))|];
    reflexivity.
Qed.

(** One turn from a state where the counter of the session is [n] and the
    session is in the table. *)
Lemma next_activity_step w sid env (n : Z) s :
  question_count w !! sid = Some (PInt n) →
  sessions (memory_service w) !! sid = Some s →
  let o := get_next_activity sid env w in
  question_count (state_of o) !! sid = Some (PInt (n + 1)) ∧
  sessions (memory_service (state_of o)) !! sid = Some s ∧
  match o with
  | Returned a _ =>
      (kind_of a = Break ↔ (n + 1) mod 3 = 0) ∧
      (kind_of a = Question ↔ (n + 1) mod 3 ≠ 0)
  | Raised _ _ => (n + 1) mod 3 ≠ 0 ∧ s_max_timestable s < 1
  end.
Proof.
  intros Hn Hs o. subst o. rewrite (next_activity_run _ _ _ _ Hn). cbv zeta.
  destruct ((n + 1) mod 3 =? 0) eqn:Hmod.
  - apply Z.eqb_eq in Hmod.
    destruct (draw_lt_0_5 (coin env)).
    + destruct (get_fun_fact_returns env) as [f Hf].
      unfold bind, of_sum. rewrite Hf. simpl.
      rewrite lookup_insert_eq. split; [done|]. split; [done|].
      split; split; done.
    + destruct (generate_fact_quiz_returns env) as [q Hq].
      unfold bind, of_sum. rewrite Hq. simpl.
      rewrite lookup_insert_eq. split; [done|]. split; [done|].
      split; split; done.
  - apply Z.eqb_neq in Hmod. unfold bind.
    rewrite (generate_question_run _ _ _ s) by done.
    destruct (MathTutor._select_timestable s env) as [e|t] eqn:Hsel.
    + simpl. rewrite lookup_insert_eq. split; [done|]. split; [done|].
      split; [done|]. by eapply select_raises.
    + destruct (random_randint_range (multiplier_draw env) 1 12) as (m & -> & _);
        [lia|].
      simpl. rewrite lookup_insert_eq. split; [done|]. split; [done|].
      split; split; done.
Qed.

Lemma run_turns_kinds sid s (envs : list Env) :
  ∀ w (n : Z),
    question_count w !! sid = Some (PInt n) →
    sessions (memory_service w) !! sid = Some s →
    ∀ (i : nat) o, run_turns sid envs w !! i = Some o →
      let turn := n + Z.of_nat i + 1 in
      question_count (state_of o) !! sid = Some (PInt turn) ∧
      match o with
      | Returned a _ =>
          (kind_of a = Break ↔ turn mod 3 = 0) ∧
          (kind_of a = Question ↔ turn mod 3 ≠ 0)
      | Raised _ _ => turn mod 3 ≠ 0 ∧ s_max_timestable s < 1
      end.
Proof.
  induction envs as [|env envs IH]; intros w n Hn Hs i o; [done|].
  destruct (next_activity_step w sid env n s Hn Hs) as (Hn' & Hs' & Hk).
  destruct i as [|i].
  - intros Hi. change (Some (get_next_activity sid env w) = Some o) in Hi.
    injection Hi as <-. cbv zeta.
    replace (n + Z.of_nat 0 + 1) with (n + 1) by lia. done.
  - intros Hi.
    change (run_turns sid envs (state_of (get_next_activity sid env w)) !! i
            = Some o) in Hi.
    specialize (IH _ _ Hn' Hs' i o Hi). cbv zeta in *.
    replace (n + Z.of_nat (S i) + 1) with (n + 1 + Z.of_nat i + 1) by lia.
    exact IH.
Qed.

End TurnFacts.

(** C6. After [start_session], in any run of [get_next_activity] calls
    on the session the call number [i + 1] (the first call is turn 1)
    leaves the turn counter at [i + 1]; the activity it returns is a break
    (a fun fact or a quiz) exactly when the turn is divisible by 3 and a
    math question exactly when it is not; and a call returns nothing only
    on a question turn of a session whose ceiling is below 1, for which
    no question can be drawn. *)
Theorem break_every_third_turn (w : World.World) (sid name : string)
    (max_ts : Z) (env0 : World.Env) (envs : list World.Env) (i : nat)
    (o : outcome World.World Coordinator.Activity) :
  let started := state_of (Coordinator.start_session sid name max_ts env0 w) in
  Coordinator.run_turns sid envs started !! i = Some o →
  let turn := Z.of_nat i + 1 in
  World.question_count (state_of o) !! sid = Some (PInt turn) ∧
  match o with
  | Returned a _ =>
      (Coordinator.kind_of a = Coordinator.Break ↔ turn mod 3 = 0) ∧
      (Coordinator.kind_of a = Coordinator.Question ↔ turn mod 3 ≠ 0)
  | Raised _ _ => turn mod 3 ≠ 0 ∧ max_ts < 1
  end.
Proof.
  intros started Hi turn.
  set (created :=
         {| session_id := sid; s_student_name := name; s_max_timestable := max_ts;
            start_time := World.now env0; progress := new_progress name max_ts;
            is_paused := false; current_state := None |}).
  apply (run_turns_kinds sid created envs started 0) in Hi.
  - exact Hi.
  - subst started. simpl. apply lookup_insert_eq.
  - subst started. simpl. apply lookup_insert_eq.
Qed.

Lemma break_every_third_turn_witness :
  ∃ o,
    Coordinator.run_turns "s1" [env_of "a"; env_of "b"; env_of "c"]
      (state_of (Coordinator.start_session "s1" "Ana" 12 (env_of "hi")
                   World.empty_world))
    !! 2%nat = Some o ∧
    World.question_count (state_of o) !! "s1" = Some (PInt 3).
Proof.
  eexists. split; [reflexivity|].
  exact (proj1 (break_every_third_turn World.empty_world "s1" "Ana" 12
                  (env_of "hi") [env_of "a"; env_of "b"; env_of "c"] 2 _ eq_refl)).
Defined.

(** ** Answers *)

Example py_int_plain : py_int "42" = Some 42.
Proof. reflexivity. Qed.
Example py_int_spaces : py_int "  7 " = Some 7.
Proof. reflexivity. Qed.
Example py_int_signed : py_int "-30" = Some (-30).
Proof. reflexivity. Qed.
Example py_int_underscore : py_int "1_000" = Some 1000.
Proof. reflexivity. Qed.
Example py_int_word : py_int "abc" = None.
Proof. reflexivity. Qed.
Example py_int_empty : py_int "" = None.
Proof. reflexivity. Qed.
Example py_int_decimal_point : py_int "4.0" = None.
Proof. reflexivity. Qed.
Example py_int_double_underscore : py_int "1__0" = None.
Proof. reflexivity. Qed.

Section AnswerFacts.
Import Memory World MathTutor.
Implicit Types (w : World) (sid : string) (s : StudentSession) (env : Env).

Lemma generate_question_product w sid env (q : Question) w' :
  generate_question sid env w = Returned q w' →
  q_expected_answer q = q_timestable q * q_multiplier q.
Proof.
  unfold generate_question, bind.
  destruct (on_service (get_session sid) w) as [[s|] w1|e w1]; [|done..].
  unfold of_sum.
  destruct (_select_timestable s env) as [e|t]; [done|].
  destruct (random_randint (multiplier_draw env) 1 12) as [e|m]; [done|].
  by intros [= <- <-].
Qed.

Lemma evaluate_answer_run w sid (qd : Question) (user_answer : string) env s :
  readable (memory_service w) sid →
  resolve (memory_service w) sid = Some s →
  let is_correct :=
    match py_int user_answer with
    | Some n => n =? q_expected_answer qd
    | None => false
    end in
  let p' :=
    append_history (update_progress (progress s) (q_timestable qd) is_correct)
      {| qr_timestable := q_timestable qd; qr_question := q_question qd;
         qr_answer := user_answer; qr_correct := is_correct;
         qr_timestamp := now env |} in
  evaluate_answer sid qd user_answer env w
  = Returned
      {| ev_correct := is_correct;
         ev_expected_answer := q_expected_answer qd;
         ev_feedback := strip (text env);
         ev_accuracy := get_accuracy p';
         ev_total_questions := total_questions p';
         ev_bonus_fact := None |}
      (with_service w (updated (cached (memory_service w) sid) (set_progress s p'))).
Proof.
  intros Hr Hres is_correct p'. unfold evaluate_answer. unfold bind at 1.
  erewrite on_service_returned; [|by apply get_session_run].
  rewrite Hres. reflexivity.
Qed.

End AnswerFacts.

(** C9. A submitted answer for a session the repository resolves is
    always evaluated, never refused: when [int(user_answer)] fails the
    answer counts as incorrect, and when it gives [n] the answer is
    correct exactly when [n] is the question's [expected_answer]; which,
    for a question made by [generate_question], is the product
    [timestable * multiplier] in exact integers.  In both cases the
    feedback is returned, one more question is counted, the answer is
    appended to the history, and the session so updated is filed in the
    table and on disk. *)
Theorem answer_scored_not_rejected (w : World.World) (sid : string)
    (qd : MathTutor.Question) (user_answer : string) (env : World.Env)
    (s : StudentSession) :
  let ms := World.memory_service w in
  Memory.wf_service ms →
  readable ms sid →
  Memory.resolve ms sid = Some s →
  ∃ ev w' s',
    MathTutor.evaluate_answer sid qd user_answer env w = Returned ev w' ∧
    (py_int user_answer = None → MathTutor.ev_correct ev = false) ∧
    (∀ n, py_int user_answer = Some n →
          (MathTutor.ev_correct ev = true ↔ n = MathTutor.q_expected_answer qd)) ∧
    (∀ env0 w0 w1,
       MathTutor.generate_question sid env0 w0 = Returned qd w1 →
       MathTutor.q_expected_answer qd
       = MathTutor.q_timestable qd * MathTutor.q_multiplier qd) ∧
    MathTutor.ev_feedback ev = strip (World.text env) ∧
    MathTutor.ev_total_questions ev = total_questions (progress s) + 1 ∧
    holds (World.memory_service w') sid s' ∧
    total_questions (progress s') = total_questions (progress s) + 1 ∧
    correct_answers (progress s')
    = correct_answers (progress s) + (if MathTutor.ev_correct ev then 1 else 0) ∧
    question_history (progress s')
    = (question_history (progress s)
       ++ [{| qr_timestable := MathTutor.q_timestable qd;
              qr_question := MathTutor.q_question qd;
              qr_answer := user_answer;
              qr_correct := MathTutor.ev_correct ev;
              qr_timestamp := World.now env |}])%list.
Proof.
  intros ms Hwf Hr Hres.
  pose proof (resolve_wf _ _ _ Hwf Hres) as Hid.
  eexists _, _, _. split; [by apply evaluate_answer_run|]. simpl.
  split; [by intros ->|]. split.
  { intros n ->. by rewrite Z.eqb_eq. }
  split.
  { intros env0 w0 w1. apply generate_question_product. }
  split; [done|].
  split; [apply update_progress_total|].
  split; [by apply holds_updated|].
  split; [apply update_progress_total|].
  split; [apply update_progress_correct|].
  unfold update_progress.
  by destruct (match py_int user_answer with Some _ => _ | None => _ end).
Qed.

Lemma answer_scored_not_rejected_witness :
  ∃ ev w' s',
    MathTutor.evaluate_answer "s1"
      {| MathTutor.q_question := "5 x 6?"; MathTutor.q_timestable := 5;
         MathTutor.q_multiplier := 6; MathTutor.q_expected_answer := 30;
         MathTutor.q_session_id := "s1" |}
      "thirty" (env_of "Nice try!") (world_of ana None)
    = Returned ev w' ∧
    MathTutor.ev_correct ev = false ∧
    holds (World.memory_service w') "s1" s' ∧
    total_questions (progress s') = 1.
Proof.
  destruct (answer_scored_not_rejected (world_of ana None) "s1"
              {| MathTutor.q_question := "5 x 6?"; MathTutor.q_timestable := 5;
                 MathTutor.q_multiplier := 6; MathTutor.q_expected_answer := 30;
                 MathTutor.q_session_id := "s1" |}
              "thirty" (env_of "Nice try!") ana
              (wf_world_of ana None) (readable_world_of ana None "s1")
              (resolve_world_of ana None))
    as (ev & w' & s' & Hrun & Hnone & _ & _ & _ & _ & Hh & Ht & _).
  exists ev, w', s'. split; [exact Hrun|]. split; [by apply Hnone|].
  split; [exact Hh | exact Ht].
Defined.

(** ** Quizzes *)

Section QuizFacts.
Import World Facts.

Lemma parse_line_keeps_empty_question (f : quiz_fields) (line : string) :
  startswith (strip line) "QUESTION:" = false →
  question (parse_line f line) = question f.
Proof.
  intros Hq. unfold parse_line. rewrite Hq.
  repeat (match goal with |- context [if ?b then _ else _] => destruct b end;
          try done).
Qed.

Lemma parse_lines_keep_question (lines : list string) (f : quiz_fields) :
  Forall (λ line, startswith (strip line) "QUESTION:" = false) lines →
  question (foldl parse_line f lines) = question f.
Proof.
  intros Hall. revert f. induction Hall as [|line lines Hq _ IH]; intros f; simpl.
  - done.
  - rewrite IH. by apply parse_line_keeps_empty_question.
Qed.

(** The body of the [try] always succeeds, so the handler that would
    return the raw text is never entered. *)
Lemma parse_quiz_never_raises (quiz_text : string) :
  ∃ f, parse_quiz quiz_text = inr f.
Proof. by eexists. Qed.

(** A text without a [QUESTION:] line gives a quiz with an empty
    question, not one that echoes the text. *)
Lemma quiz_without_question_line (env : Env) (q : Quiz) :
  Forall (λ line, startswith (strip line) "QUESTION:" = false)
    (split_on newline (strip (text env))) →
  generate_fact_quiz env = inr q →
  quiz_question q = "".
Proof.
  intros Hall. unfold generate_fact_quiz.
  destruct (random_choice (pick env) fact_categories) as [e|c]; [done|].
  unfold parse_quiz. intros [= <-]. simpl.
  by rewrite parse_lines_keep_question.
Qed.

Lemma strip_only_whitespace (s : string) : only_whitespace s = true → strip s = "".
Proof.
  intros Hs. unfold strip.
  assert (rstrip s = "") as ->; [|done].
  induction s as [|c s IH]; simpl in *; [done|].
  apply andb_true_iff in Hs as [Hc Hs]. by rewrite (IH Hs), Hc.
Qed.

End QuizFacts.

(** C5. The generated text "This is not a properly formatted quiz at
    all!" has none of the required fields.  [generate_fact_quiz] returns a
    quiz for it without raising, with empty options and an empty correct
    answer, but its question is the empty string: the generated text is
    not returned as the question. *)
Theorem malformed_quiz_drops_text :
  Facts.generate_fact_quiz malformed_env = inr malformed_quiz ∧
  Facts.quiz_question malformed_quiz = "" ∧
  Facts.quiz_question malformed_quiz ≠ strip (World.text malformed_env).
Proof. split; [reflexivity|]. split; [reflexivity|]. discriminate. Qed.

(** C10. When the quiz handed back has no ["correct_answer"] or an empty
    one, as the quiz made from a text without a [CORRECT:] line has, an
    answer made of white space only (the empty answer included) is
    reported correct: both sides are the empty string once stripped and
    put in upper case. *)
Theorem blank_answer_matches_blank_key (quiz_data : list (string * pyval))
    (user_answer : string) (env : World.Env) :
  only_whitespace user_answer = true →
  dict_get "correct_answer" quiz_data = None ∨
  dict_get "correct_answer" quiz_data = Some (PStr "") →
  ∃ ev,
    Facts.evaluate_quiz_answer quiz_data user_answer env = inr ev ∧
    Facts.qe_correct ev = true ∧
    Facts.qe_correct_answer ev = "".
Proof.
  intros Hws Hkey. unfold Facts.evaluate_quiz_answer.
  rewrite (strip_only_whitespace _ Hws).
  destruct Hkey as [-> | ->]; simpl; eexists; split; done.
Qed.

Lemma blank_answer_matches_blank_key_witness :
  ∃ ev,
    Facts.evaluate_quiz_answer (Facts.quiz_data_of malformed_quiz) "  "
      (env_of "Well done!") = inr ev ∧
    Facts.qe_correct ev = true.
Proof.
  destruct (blank_answer_matches_blank_key (Facts.quiz_data_of malformed_quiz)
              "  " (env_of "Well done!") eq_refl (or_intror eq_refl))
    as (ev & Hrun & Hc & _).
  exists ev. split; [exact Hrun | exact Hc].
Defined.

(** ** The embedding on the inputs of the test suite *)

(** A negative [limit] drops that many topics from the end of the
    ranking, as the slice [sorted_weak[:limit]] does. *)
Example weakest_negative_limit :
  get_weakest_timestables three_weak_areas (-1) = [5; 7].
Proof. reflexivity. Qed.

Example weakest_test_progress :
  get_weakest_timestables
    {| student_name := "TestStudent"; max_timestable := 10;
       total_questions := 10; correct_answers := 7;
       weak_areas := [(6, 3); (7, 2)]; question_history := [] |}
    default_limit = [6; 7].
Proof. reflexivity. Qed.

Example replace_every_occurrence :
  replace_with_empty "A) a A) b" "A)" = " a  b".
Proof. reflexivity. Qed.

Example replace_without_overlap : replace_with_empty "aaa" "aa" = "a".
Proof. reflexivity. Qed.

Example split_lines :
  split_on newline ("one" ++ String newline ("two" ++ String newline ""))
  = ["one"; "two"; ""].
Proof. reflexivity. Qed.

(** The well-formed answer of the generator used by the tests. *)
Example well_formed_quiz :
  Facts.generate_fact_quiz
    (env_of ("QUESTION: What is the largest planet in our solar system?"
             ++ String newline ("A) Earth"
             ++ String newline ("B) Jupiter"
             ++ String newline ("C) Saturn"
             ++ String newline ("D) Mars"
             ++ String newline ("CORRECT: B"
             ++ String newline
                  "EXPLANATION: Jupiter is the largest planet in our solar system!")))))))
  = inr {| Facts.quiz_category := "animals";
           Facts.quiz_question := "What is the largest planet in our solar system?";
           Facts.quiz_options :=
             [("A", "Earth"); ("B", "Jupiter"); ("C", "Saturn"); ("D", "Mars")];
           Facts.quiz_correct_answer := "B";
           Facts.quiz_explanation :=
             "Jupiter is the largest planet in our solar system!" |}.
Proof. vm_compute. reflexivity. Qed.

(** [evaluate_quiz_answer] ignores case and surrounding white space. *)
Example quiz_answer_normalized :
  Facts.evaluate_quiz_answer
    [("correct_answer", PStr "B"); ("explanation", PStr "Spiders!")]
    " b " (env_of "Fantastic!")
  = inr {| Facts.qe_correct := true; Facts.qe_correct_answer := "B";
           Facts.qe_explanation := PStr "Spiders!";
           Facts.qe_feedback := "Fantastic!" |}.
Proof. reflexivity. Qed.

(** * Further properties of the code *)

(** ** ProgressStore: the weak areas *)

Section WeakAreaFacts.
Context {K V : Type} `{EqDecision K}.
Implicit Types (d : list (K * V)) (k : K) (v : V).

Lemma dict_mem_true d k : dict_mem k d = true ↔ is_Some (dict_get k d).
Proof. unfold dict_mem. apply bool_decide_eq_true. Qed.

Lemma dict_mem_false d k : dict_mem k d = false ↔ dict_get k d = None.
Proof.
  unfold dict_mem. rewrite bool_decide_eq_false, <- eq_None_not_Some. done.
Qed.

Lemma dict_set_twice d k v0 v : dict_set k v (dict_set k v0 d) = dict_set k v d.
Proof.
  induction d as [|[k' v'] d IH]; simpl.
  - by rewrite decide_True.
  - destruct (decide (k = k')) as [->|Hne]; simpl.
    + by rewrite decide_True.
    + by rewrite decide_False, IH.
Qed.

Lemma dict_keys_functional d k v1 v2 :
  NoDup d.*1 → (k, v1) ∈ d → (k, v2) ∈ d → v1 = v2.
Proof.
  induction d as [|[k' v'] d IH]; csimpl; [by intros _ ?%elem_of_nil|].
  rewrite NoDup_cons, !elem_of_cons. intros [Hk Hnd] [H1|H1] [H2|H2].
  - congruence.
  - injection H1 as -> ->. destruct Hk.
    by apply (list_elem_of_fmap_2 fst) in H2.
  - injection H2 as -> ->. destruct Hk.
    by apply (list_elem_of_fmap_2 fst) in H1.
  - auto.
Qed.
End WeakAreaFacts.

Lemma update_progress_wrong (p : StudentProgress) (t : Z) :
  weak_areas (update_progress p t false)
  = dict_set t (default 0 (dict_get t (weak_areas p)) + 1) (weak_areas p).
Proof.
  unfold update_progress. simpl.
  destruct (dict_mem t (weak_areas p)) eqn:Hm; simpl.
  - done.
  - apply dict_mem_false in Hm.
    by rewrite dict_get_set_eq, dict_set_twice, Hm.
Qed.

(** X1. A wrong answer for a timestable adds one to its mistake count,
    entering it with count [1] after the others when it had none; it
    leaves the counts of the other timestables and the order of the
    entries as they were.  A correct answer leaves the weak areas alone.
    Neither touches the history. *)
Theorem update_progress_weak_areas (p : StudentProgress) (t : Z) (c : bool) :
  let p' := update_progress p t c in
  (if c then weak_areas p' = weak_areas p
   else
     dict_get t (weak_areas p') = Some (default 0 (dict_get t (weak_areas p)) + 1) ∧
     (∀ t', t' ≠ t → dict_get t' (weak_areas p') = dict_get t' (weak_areas p)) ∧
     (weak_areas p').*1
     = (if dict_mem t (weak_areas p) then (weak_areas p).*1
        else ((weak_areas p).*1 ++ [t])%list)) ∧
  question_history p' = question_history p.
Proof.
  intros p'. subst p'. destruct c; [done|].
  split; [|done]. rewrite update_progress_wrong.
  split; [apply dict_get_set_eq|]. split.
  - intros t' Hne. by apply dict_get_set_ne.
  - destruct (dict_mem t (weak_areas p)) eqn:Hm.
    + apply dict_set_keys_present. by apply dict_mem_true.
    + apply dict_set_keys_absent. by apply dict_mem_false.
Qed.

Lemma mistakes_dict_set (wa : list (Z * Z)) (t v : Z) :
  mistakes (dict_set t v wa) = mistakes wa - default 0 (dict_get t wa) + v.
Proof.
  induction wa as [|[k x] wa IH]; simpl; [lia|].
  destruct (decide (t = k)) as [->|Hne]; simpl; [lia|].
  rewrite IH. lia.
Qed.

Lemma dict_set_counts_positive (wa : list (Z * Z)) (t v : Z) :
  1 ≤ v → Forall (λ kv, 1 ≤ kv.2) wa → Forall (λ kv, 1 ≤ kv.2) (dict_set t v wa).
Proof.
  intros Hv. induction 1 as [|[k x] wa Hx Hall IH]; simpl.
  - by repeat constructor.
  - destruct (decide (t = k)); constructor; auto.
Qed.

Lemma dict_get_counts_positive (wa : list (Z * Z)) (t : Z) :
  Forall (λ kv, 1 ≤ kv.2) wa → 0 ≤ default 0 (dict_get t wa).
Proof.
  induction 1 as [|[k x] wa Hx Hall IH]; simpl; [done|].
  destruct (decide (t = k)); simpl in *; [lia|done].
Qed.

Lemma update_progress_ok (p : StudentProgress) (t : Z) (c : bool) :
  progress_ok p → progress_ok (update_progress p t c).
Proof.
  intros (Hnd & Hpos & Hc & Htot). unfold progress_ok.
  rewrite update_progress_total, update_progress_correct.
  destruct c.
  - simpl. split; [done|]. split; [done|]. lia.
  - rewrite update_progress_wrong.
    pose proof (dict_get_counts_positive _ t Hpos) as Hge.
    split; [|split; [|split]].
    + destruct (dict_get t (weak_areas p)) as [x|] eqn:Hg.
      * by rewrite dict_set_keys_present.
      * rewrite dict_set_keys_absent by done.
        apply NoDup_app. split; [done|]. split; [|apply NoDup_singleton].
        intros x Hx ->%list_elem_of_singleton.
        by apply dict_get_None_keys in Hg.
    + apply dict_set_counts_positive; [lia|done].
    + lia.
    + rewrite mistakes_dict_set. lia.
Qed.

(** X2. Whatever the answers recorded since the progress record was
    created, it has one entry per weak area, each with at least one
    mistake, and every question counted is either a correct answer or one
    of the mistakes: [total_questions = correct_answers + sum of the
    mistake counts]. *)
Theorem progress_accounts_for_every_answer (name : string) (max_ts : Z)
    (calls : list (Z * bool)) :
  progress_ok (run_updates (new_progress name max_ts) calls).
Proof.
  assert (progress_ok (new_progress name max_ts)) as Hfresh.
  { split; [constructor|]. split; [constructor|]. done. }
  revert Hfresh. generalize (new_progress name max_ts).
  induction calls as [|[t c] calls IH]; intros p Hp; [done|].
  apply IH. by apply update_progress_ok.
Qed.

Lemma precedes_app {A : Type} (x y : A) (l1 l2 : list A) :
  x ∈ l1 → y ∈ l2 → precedes x y (l1 ++ l2).
Proof.
  intros (a1 & a2 & ->)%list_elem_of_split (b1 & b2 & ->)%list_elem_of_split.
  exists a1, (a2 ++ b1)%list, b2.
  by rewrite <- !app_assoc.
Qed.

(** X3. With one entry per weak area, [get_weakest_timestables] returns
    no topic twice, and the topics it returns are the weakest: a topic
    it returns has at least as many mistakes as any weak area it leaves
    out.  For a limit [0 <= limit] it returns [min limit n] of the [n]
    weak areas. *)
Theorem weakest_are_the_weakest (p : StudentProgress) (limit : Z) :
  NoDup (weak_areas p).*1 →
  let r := get_weakest_timestables p limit in
  NoDup r ∧
  (∀ a ca b cb,
     (a, ca) ∈ weak_areas p → (b, cb) ∈ weak_areas p →
     a ∈ r → b ∉ r → cb ≤ ca) ∧
  (0 ≤ limit → length r = (Z.to_nat limit `min` length (weak_areas p))%nat).
Proof.
  intros Hnd r. subst r. split; [|split].
  - rewrite weakest_slice.
    destruct (slice_to_take (sorted_desc snd (weak_areas p)) limit) as [n ->].
    rewrite fmap_take. eapply sublist_NoDup; [|apply sublist_take].
    by rewrite sorted_desc_perm.
  - rewrite weakest_slice.
    destruct (slice_to_take (sorted_desc snd (weak_areas p)) limit) as [n ->].
    intros a ca b cb Ha Hb Hin Hout.
    apply list_elem_of_fmap in Hin as ([a' ca'] & -> & Hin). simpl in *.
    assert (ca' = ca) as ->.
    { eapply dict_keys_functional; [done| |done].
      apply subseteq_take in Hin. revert Hin. by rewrite sorted_desc_perm. }
    assert ((b, cb) ∈ drop n (sorted_desc snd (weak_areas p))) as Hdrop.
    { assert ((b, cb) ∈ sorted_desc snd (weak_areas p)) as Hs
        by by rewrite sorted_desc_perm.
      rewrite <- (take_drop n) in Hs. apply elem_of_app in Hs as [Hs|Hs]; [|done].
      destruct Hout. by apply (list_elem_of_fmap_2 fst) in Hs. }
    pose proof (precedes_app _ _ _ _ Hin Hdrop) as Hp.
    rewrite take_drop in Hp.
    exact (precedes_sorted _ _ _ _ (sorted_desc_sorted snd _) Hp).
  - intros Hl. rewrite weakest_unfold by done.
    by rewrite length_fmap, length_take, sorted_desc_length.
Qed.

Lemma weakest_are_the_weakest_witness :
  NoDup (get_weakest_timestables three_weak_areas 2).
Proof.
  apply (weakest_are_the_weakest three_weak_areas 2).
  by apply (bool_decide_unpack _).
Defined.

(** ** SessionRepository: cache, files and restarts *)

Section RepositoryFacts.
Import Memory.
Implicit Types (ms : MemoryService) (sid : string) (s : StudentSession).




Lemma pause_session_corrupt ms sid state :
  sessions ms !! sid = None → disk ms !! sid = Some FileCorrupt →
  Memory.pause_session sid state ms = Raised ValidationError ms.
Proof.
  intros Hs Hd. unfold Memory.pause_session, bind.
  by rewrite get_session_corrupt.
Qed.

Lemma resume_session_corrupt ms sid :
  sessions ms !! sid = None → disk ms !! sid = Some FileCorrupt →
  Memory.resume_session sid ms = Raised ValidationError ms.
Proof.
  intros Hs Hd. unfold Memory.resume_session, bind.
  by rewrite get_session_corrupt.
Qed.



Lemma restart_wf ms : wf_service ms → wf_service (restart ms).
Proof.
  intros [_ Hd]. split; [|done]. intros sid s. simpl. by rewrite lookup_empty.
Qed.

Lemma resolve_restart ms sid :
  coherent ms → resolve (restart ms) sid = resolve ms sid.
Proof.
  intros Hc. unfold resolve. simpl. rewrite lookup_empty.
  destruct (sessions ms !! sid) as [s|] eqn:Hs; [|done].
  by rewrite (Hc _ _ Hs).
Qed.

Lemma readable_restart ms sid :
  coherent ms → readable ms sid → readable (restart ms) sid.
Proof.
  intros Hc Hr _. simpl.
  destruct (sessions ms !! sid) as [s|] eqn:Hs.
  - by rewrite (Hc _ _ Hs).
  - by apply Hr.
Qed.

End RepositoryFacts.

(** X4. Whatever the repository resolved an id to before the process
    stopped, it resolves it to after a restart, from the files alone:
    with every record of the table written to its file, [get_session] on
    the restarted service returns the same record, enters it into the
    table again and leaves the files untouched. *)
Theorem sessions_survive_restart (ms : Memory.MemoryService) (sid : string) :
  coherent ms →
  readable ms sid →
  ∃ ms',
    Memory.get_session sid (restart ms) = Returned (Memory.resolve ms sid) ms' ∧
    Memory.sessions ms' !! sid = Memory.resolve ms sid ∧
    Memory.disk ms' = Memory.disk ms.
Proof.
  intros Hc Hr. exists (cached (restart ms) sid).
  split; [|split].
  - rewrite get_session_run by by apply readable_restart.
    by rewrite resolve_restart.
  - by rewrite cached_lookup, resolve_restart.
  - by rewrite cached_disk.
Qed.

Lemma coherent_world_of (s : StudentSession) (c : option pyval) :
  coherent (World.memory_service (world_of s c)).
Proof.
  intros sid s'. simpl. rewrite !lookup_singleton. by case_decide; intros [= <-].
Qed.

Lemma sessions_survive_restart_witness :
  ∃ ms',
    Memory.get_session "s1" (restart (World.memory_service (world_of ana None)))
    = Returned (Some ana) ms'.
Proof.
  destruct (sessions_survive_restart (World.memory_service (world_of ana None)) "s1"
              (coherent_world_of ana None) (readable_world_of ana None "s1"))
    as (ms' & Hrun & _).
  rewrite (resolve_world_of ana None : Memory.resolve _ "s1" = _) in Hrun.
  by exists ms'.
Defined.

(** X5. [get_session] looks in the table first and in the files second:
    it finds nothing only when the id is in neither; a record found on
    disk is entered into the table, so that asking again gives the same
    answer without any further change; the records of the other ids and
    all the files stay as they were. *)
Theorem get_session_caches (ms : Memory.MemoryService) (sid : string) :
  readable ms sid →
  ∃ ms',
    Memory.get_session sid ms = Returned (Memory.resolve ms sid) ms' ∧
    Memory.get_session sid ms' = Returned (Memory.resolve ms sid) ms' ∧
    (Memory.resolve ms sid = None ↔
       Memory.sessions ms !! sid = None ∧ Memory.disk ms !! sid = None) ∧
    Memory.sessions ms' !! sid = Memory.resolve ms sid ∧
    (∀ sid', sid' ≠ sid →
       Memory.sessions ms' !! sid' = Memory.sessions ms !! sid') ∧
    Memory.disk ms' = Memory.disk ms.
Proof.
  intros Hr. exists (cached ms sid).
  split; [by apply get_session_run|]. split.
  { rewrite get_session_run by by apply cached_readable.
    by rewrite resolve_cached, cached_idem. }
  split.
  { unfold Memory.resolve. unfold readable in Hr.
    destruct (Memory.sessions ms !! sid) as [s|]; [by split; [|intros [? _]]|].
    destruct (Memory.disk ms !! sid) as [[s|]|];
      [by split; [|intros [_ ?]]| |done].
    by destruct Hr. }
  split; [apply cached_lookup|]. split; [|apply cached_disk].
  intros sid' Hne. unfold cached.
  destruct (Memory.sessions ms !! sid) as [s|]; [done|].
  destruct (Memory.disk ms !! sid) as [[s|]|]; [|done..].
  simpl. by rewrite lookup_insert_ne.
Qed.

Lemma get_session_caches_witness :
  ∃ ms',
    Memory.get_session "s1" (restart (World.memory_service (world_of ana None)))
    = Returned (Some ana) ms' ∧
    Memory.get_session "s1" ms' = Returned (Some ana) ms'.
Proof.
  destruct (get_session_caches
              (restart (World.memory_service (world_of ana None))) "s1")
    as (ms' & Hrun & Hagain & _).
  - intros _. simpl. by rewrite lookup_singleton_eq.
  - exists ms'. split; [exact Hrun | exact Hagain].
Defined.

(** X6. [update_session] is read back by [get_session]: after it, the
    session's own id resolves to the session just stored, in the table
    and on disk, and every other id resolves to what it did before. *)
Theorem update_session_read_back (ms : Memory.MemoryService) (s : StudentSession) :
  ∃ ms',
    Memory.update_session s ms = Returned () ms' ∧
    Memory.get_session (session_id s) ms' = Returned (Some s) ms' ∧
    holds ms' (session_id s) s ∧
    (∀ sid', sid' ≠ session_id s → Memory.resolve ms' sid' = Memory.resolve ms sid').
Proof.
  exists (updated ms s). split; [done|]. split; [|split].
  - apply get_session_hit. simpl. apply lookup_insert_eq.
  - by apply holds_updated.
  - intros sid' Hne. unfold Memory.resolve. simpl.
    by rewrite !lookup_insert_ne.
Qed.

(** X7. Pausing a session and resuming it gives back the payload that
    was stored: for a session the repository resolves, [pause_session]
    followed by [resume_session] returns the payload, and leaves the
    session filed, in the table and on disk, as not paused, without
    payload, with the progress it had.  Resuming once more finds nothing
    to resume and changes nothing. *)
Theorem pause_then_resume_returns_payload (ms : Memory.MemoryService)
    (sid : string) (s : StudentSession) (state : list (string * pyval)) :
  Memory.wf_service ms →
  readable ms sid →
  Memory.resolve ms sid = Some s →
  ∃ ms1 ms2,
    Memory.pause_session sid state ms = Returned () ms1 ∧
    Memory.resume_session sid ms1 = Returned (Some state) ms2 ∧
    holds ms2 sid (Memory.set_pause s false None) ∧
    progress (Memory.set_pause s false None) = progress s ∧
    Memory.resume_session sid ms2 = Returned None ms2.
Proof.
  intros Hwf Hr Hres.
  pose proof (resolve_wf _ _ _ Hwf Hres) as Hid.
  set (s1 := Memory.set_pause s true (Some state)).
  set (ms1 := updated (cached ms sid) s1).
  assert (Memory.sessions ms1 !! sid = Some s1) as Hs1.
  { subst ms1. simpl. rewrite Hid. apply lookup_insert_eq. }
  assert (readable ms1 sid) as Hr1 by (intros Hn; by rewrite Hs1 in Hn).
  assert (Memory.resolve ms1 sid = Some s1) as Hres1
    by (unfold Memory.resolve; by rewrite Hs1).
  assert (cached ms1 sid = ms1) as Hc1 by (unfold cached; by rewrite Hs1).
  set (s2 := Memory.set_pause s false None).
  set (ms2 := updated ms1 s2).
  assert (Memory.sessions ms2 !! sid = Some s2) as Hs2.
  { subst ms2. simpl. rewrite Hid. apply lookup_insert_eq. }
  exists ms1, ms2. split; [|split; [|split; [|split]]].
  - rewrite pause_session_run by done. by rewrite Hres.
  - rewrite resume_session_run by done. rewrite Hres1. simpl. by rewrite Hc1.
  - by apply holds_updated.
  - done.
  - rewrite resume_session_run by (intros Hn; by rewrite Hs2 in Hn).
    unfold Memory.resolve. rewrite Hs2. simpl.
    unfold cached. by rewrite Hs2.
Qed.

Lemma pause_then_resume_returns_payload_witness :
  ∃ ms1 ms2,
    Memory.pause_session "s1" [("activity_count", PInt 5)]
      (World.memory_service (world_of ana None)) = Returned () ms1 ∧
    Memory.resume_session "s1" ms1
    = Returned (Some [("activity_count", PInt 5)]) ms2 ∧
    holds ms2 "s1" ana.
Proof.
  destruct (pause_then_resume_returns_payload
              (World.memory_service (world_of ana None)) "s1" ana
              [("activity_count", PInt 5)]
              (wf_world_of ana None) (readable_world_of ana None "s1")
              (resolve_world_of ana None))
    as (ms1 & ms2 & Hp & Hres & Hh & _).
  exists ms1, ms2. split; [exact Hp|]. split; [exact Hres | exact Hh].
Defined.

(** X8. [resume_session] on a session that is not paused, or on an id
    that is in neither the table nor the files, returns [None] and
    changes no record: the id resolves to what it did, and the files are
    untouched. *)
Theorem resume_unpaused_is_noop (ms : Memory.MemoryService) (sid : string) :
  readable ms sid →
  (∀ s, Memory.resolve ms sid = Some s → is_paused s = false) →
  ∃ ms',
    Memory.resume_session sid ms = Returned None ms' ∧
    Memory.resolve ms' sid = Memory.resolve ms sid ∧
    Memory.disk ms' = Memory.disk ms.
Proof.
  intros Hr Hp. exists (cached ms sid).
  split; [|split; [apply resolve_cached | apply cached_disk]].
  rewrite resume_session_run by done.
  destruct (Memory.resolve ms sid) as [s|] eqn:Hres.
  - by rewrite (Hp s eq_refl).
  - by rewrite cached_unresolved.
Qed.

Lemma resume_unpaused_is_noop_witness :
  ∃ ms',
    Memory.resume_session "s1" (World.memory_service (world_of ana None))
    = Returned None ms'.
Proof.
  destruct (resume_unpaused_is_noop (World.memory_service (world_of ana None)) "s1"
              (readable_world_of ana None "s1")) as (ms' & Hrun & _).
  - rewrite (resolve_world_of ana None : Memory.resolve _ "s1" = _).
    by intros s [= <-].
  - by exists ms'.
Defined.



(** ** The agents on sessions that are missing, unreadable or present *)

Section AgentFacts.
Import Memory World.
Implicit Types (w : World) (sid : string) (s : StudentSession) (env : Env).

Lemma with_service_same w : with_service w (memory_service w) = w.
Proof. by destruct w. Qed.

Lemma world_get_session w sid :
  readable (memory_service w) sid →
  on_service (get_session sid) w
  = Returned (resolve (memory_service w) sid)
      (with_service w (cached (memory_service w) sid)).
Proof. intros Hr. erewrite on_service_returned; [done|]. by apply get_session_run. Qed.

Lemma world_get_session_corrupt w sid :
  sessions (memory_service w) !! sid = None →
  disk (memory_service w) !! sid = Some FileCorrupt →
  on_service (get_session sid) w = Raised ValidationError w.
Proof.
  intros Hs Hd. erewrite on_service_raised; [|by apply get_session_corrupt].
  by rewrite with_service_same.
Qed.

Lemma world_get_session_unknown w sid :
  sessions (memory_service w) !! sid = None →
  disk (memory_service w) !! sid = None →
  on_service (get_session sid) w = Returned None w.
Proof.
  intros Hs Hd. rewrite world_get_session by (intros _; by rewrite Hd).
  unfold resolve, cached. rewrite Hs, Hd. by rewrite with_service_same.
Qed.

Lemma generate_question_resolved w sid env s :
  readable (memory_service w) sid →
  resolve (memory_service w) sid = Some s →
  MathTutor.generate_question sid env w
  = match MathTutor._select_timestable s env with
    | inl e => Raised e (with_service w (cached (memory_service w) sid))
    | inr timestable =>
        match random_randint (multiplier_draw env) 1 12 with
        | inl e => Raised e (with_service w (cached (memory_service w) sid))
        | inr multiplier =>
            Returned
              {| MathTutor.q_question := strip (text env);
                 MathTutor.q_timestable := timestable;
                 MathTutor.q_multiplier := multiplier;
                 MathTutor.q_expected_answer := timestable * multiplier;
                 MathTutor.q_session_id := sid |}
              (with_service w (cached (memory_service w) sid))
        end
    end.
Proof.
  intros Hr Hres. unfold MathTutor.generate_question. unfold bind at 1.
  rewrite world_get_session by done. rewrite Hres.
  unfold bind, of_sum.
  destruct (MathTutor._select_timestable s env); [done|].
  by destruct (random_randint (multiplier_draw env) 1 12).
Qed.

Lemma progress_summary_resolved w sid env s :
  readable (memory_service w) sid →
  resolve (memory_service w) sid = Some s →
  MathTutor.get_progress_summary sid env w
  = Returned
      {| MathTutor.ps_student_name := s_student_name s;
         MathTutor.ps_total_questions := total_questions (progress s);
         MathTutor.ps_correct_answers := correct_answers (progress s);
         MathTutor.ps_accuracy := get_accuracy (progress s);
         MathTutor.ps_weak_areas :=
           get_weakest_timestables (progress s) default_limit;
         MathTutor.ps_summary := strip (text env) |}
      (with_service w (cached (memory_service w) sid)).
Proof.
  intros Hr Hres. unfold MathTutor.get_progress_summary. unfold bind at 1.
  rewrite world_get_session by done. by rewrite Hres.
Qed.

End AgentFacts.

(** X10. A session file that does not load is reported, not hidden: with
    the id absent from the table and its file unreadable, [get_session],
    [pause_session] and [resume_session] of the service, the math tutor's
    [generate_question], [evaluate_answer] and [get_progress_summary],
    and the coordinator's [pause_session], [resume_session] and
    [end_session] all raise the loading error, and none of them changes
    the table, the files or the counters. *)
Theorem unreadable_session_is_reported (w : World.World) (sid : string) :
  let ms := World.memory_service w in
  Memory.sessions ms !! sid = None →
  Memory.disk ms !! sid = Some Memory.FileCorrupt →
  Memory.get_session sid ms = Raised ValidationError ms ∧
  (∀ state, Memory.pause_session sid state ms = Raised ValidationError ms) ∧
  Memory.resume_session sid ms = Raised ValidationError ms ∧
  (∀ env, MathTutor.generate_question sid env w = Raised ValidationError w) ∧
  (∀ qd answer env,
     MathTutor.evaluate_answer sid qd answer env w = Raised ValidationError w) ∧
  (∀ env, MathTutor.get_progress_summary sid env w = Raised ValidationError w) ∧
  (∀ model_dump,
     Coordinator.pause_session model_dump sid w = Raised ValidationError w) ∧
  Coordinator.resume_session sid w = Raised ValidationError w ∧
  (∀ env, Coordinator.end_session sid env w = Raised ValidationError w).
Proof.
  intros ms Hs Hd.
  pose proof (world_get_session_corrupt w sid Hs Hd) as Hw.
  split; [by apply get_session_corrupt|].
  split; [intros; by apply pause_session_corrupt|].
  split; [by apply resume_session_corrupt|].
  split.
  { intros env. unfold MathTutor.generate_question, bind. by rewrite Hw. }
  split.
  { intros qd answer env. unfold MathTutor.evaluate_answer, bind. by rewrite Hw. }
  assert (∀ env, MathTutor.get_progress_summary sid env w
                 = Raised ValidationError w) as Hsum.
  { intros env. unfold MathTutor.get_progress_summary, bind. by rewrite Hw. }
  split; [done|]. split.
  { intros dump. unfold Coordinator.pause_session, MathTutor.pause_state, bind.
    by rewrite Hw. }
  split.
  { unfold Coordinator.resume_session, bind.
    erewrite on_service_raised; [|by apply resume_session_corrupt].
    by rewrite with_service_same. }
  intros env. unfold Coordinator.end_session, Coordinator.get_progress, bind.
  by rewrite Hsum.
Qed.

Lemma unreadable_session_is_reported_witness :
  Memory.get_session "s1"
    {| Memory.sessions := ∅; Memory.disk := {[ "s1" := Memory.FileCorrupt ]} |}
  = Raised ValidationError
      {| Memory.sessions := ∅; Memory.disk := {[ "s1" := Memory.FileCorrupt ]} |}.
Proof.
  refine (proj1 (unreadable_session_is_reported
                   {| World.memory_service :=
                        {| Memory.sessions := ∅;
                           Memory.disk := {[ "s1" := Memory.FileCorrupt ]} |};
                      World.question_count := ∅ |} "s1" _ _)).
  - apply lookup_empty.
  - apply lookup_singleton_eq.
Defined.

(** X11. For an id that is in neither the table nor the files, the math
    tutor's [generate_question], [evaluate_answer] and
    [get_progress_summary] and the coordinator's [end_session] raise
    [ValueError] "Session <id> not found" without changing anything,
    [pause_state] returns the empty dict, and the coordinator's
    [resume_session] answers ["error"]; [get_next_activity] on a question
    turn raises the same [ValueError] after it has counted the turn. *)
Theorem unknown_session_is_an_error (w : World.World) (sid : string) :
  let ms := World.memory_service w in
  Memory.sessions ms !! sid = None →
  Memory.disk ms !! sid = None →
  let not_found := ValueError ("Session " ++ sid ++ " not found") in
  (∀ env, MathTutor.generate_question sid env w = Raised not_found w) ∧
  (∀ qd answer env,
     MathTutor.evaluate_answer sid qd answer env w = Raised not_found w) ∧
  (∀ env, MathTutor.get_progress_summary sid env w = Raised not_found w) ∧
  (∀ env, Coordinator.end_session sid env w = Raised not_found w) ∧
  (∀ model_dump, MathTutor.pause_state model_dump sid w = Returned [] w) ∧
  Coordinator.resume_session sid w = Returned Coordinator.not_resumed w ∧
  (∀ env n,
     World.question_count w !! sid = Some (PInt n) → (n + 1) mod 3 ≠ 0 →
     Coordinator.get_next_activity sid env w
     = Raised not_found (with_count w sid (PInt (n + 1)))).
Proof.
  intros ms Hs Hd not_found.
  pose proof (world_get_session_unknown w sid Hs Hd) as Hw.
  assert (∀ w', World.memory_service w' = ms → ∀ env,
            MathTutor.generate_question sid env w' = Raised not_found w') as Hgen.
  { intros w' Hms env. unfold MathTutor.generate_question, bind.
    rewrite world_get_session_unknown by by rewrite Hms. done. }
  split; [by apply Hgen|]. split.
  { intros qd answer env. unfold MathTutor.evaluate_answer, bind. by rewrite Hw. }
  assert (∀ env, MathTutor.get_progress_summary sid env w = Raised not_found w)
    as Hsum.
  { intros env. unfold MathTutor.get_progress_summary, bind. by rewrite Hw. }
  split; [done|]. split.
  { intros env. unfold Coordinator.end_session, Coordinator.get_progress, bind.
    by rewrite Hsum. }
  split.
  { intros dump. unfold MathTutor.pause_state, bind. by rewrite Hw. }
  split.
  { assert (Memory.resume_session sid ms = Returned None ms) as Hres.
    { rewrite resume_session_run by (intros _; by rewrite Hd).
      unfold Memory.resolve. by rewrite Hs, Hd. }
    unfold Coordinator.resume_session, bind.
    erewrite on_service_returned; [|exact Hres].
    by rewrite with_service_same. }
  intros env n Hn Hmod. rewrite (next_activity_run _ _ _ _ Hn). cbv zeta.
  rewrite (proj2 (Z.eqb_neq _ _) Hmod). unfold bind.
  by rewrite Hgen.
Qed.

Lemma unknown_session_is_an_error_witness :
  MathTutor.generate_question "ghost" (env_of "") World.empty_world
  = Raised (ValueError "Session ghost not found") World.empty_world.
Proof.
  refine (proj1 (unknown_session_is_an_error World.empty_world "ghost" _ _)
            (env_of "")); apply lookup_empty.
Defined.

(** X12. For a session the repository resolves and whose ceiling is at
    least 1, [generate_question] returns a question: its multiplier is in
    [1..12], its expected answer is the product of its timestable and
    multiplier, its timestable is in [1..max_timestable] or one of the
    three weakest areas, it carries the session id and the generated
    text, stripped; and the session's record is not changed by it. *)
Theorem generate_question_shape (w : World.World) (sid : string)
    (env : World.Env) (s : StudentSession) :
  let ms := World.memory_service w in
  readable ms sid →
  Memory.resolve ms sid = Some s →
  1 ≤ s_max_timestable s →
  ∃ q w',
    MathTutor.generate_question sid env w = Returned q w' ∧
    1 ≤ MathTutor.q_multiplier q ≤ 12 ∧
    MathTutor.q_expected_answer q
    = MathTutor.q_timestable q * MathTutor.q_multiplier q ∧
    (1 ≤ MathTutor.q_timestable q ≤ s_max_timestable s ∨
     MathTutor.q_timestable q
     ∈ get_weakest_timestables (progress s) default_limit) ∧
    MathTutor.q_session_id q = sid ∧
    MathTutor.q_question q = strip (World.text env) ∧
    Memory.resolve (World.memory_service w') sid = Some s ∧
    Memory.disk (World.memory_service w') = Memory.disk ms ∧
    World.question_count w' = World.question_count w.
Proof.
  intros ms Hr Hres Hmax.
  pose proof (generate_question_resolved w sid env s Hr Hres) as Hrun.
  destruct (MathTutor._select_timestable s env) as [e|t] eqn:Hsel.
  { apply select_raises in Hsel. lia. }
  destruct (random_randint_range (World.multiplier_draw env) 1 12)
    as (m & Hm & Hrange); [lia|].
  rewrite Hm in Hrun. eexists _, _. split; [exact Hrun|]. simpl.
  split; [done|]. split; [done|]. split.
  { destruct (select_cases s env) as [(_ & _ & Hc)|Hc]; rewrite Hc in Hsel.
    - right. by apply random_choice_ok in Hsel.
    - left. by apply random_randint_ok in Hsel. }
  split; [done|]. split; [done|].
  split; [exact (eq_trans (resolve_cached _ _) Hres)|].
  split; [apply cached_disk|done].
Qed.

Lemma generate_question_shape_witness :
  ∃ q w',
    MathTutor.generate_question "s1" (env_of " What is 1 x 1? ") (world_of ana None)
    = Returned q w' ∧
    MathTutor.q_question q = "What is 1 x 1?".
Proof.
  destruct (generate_question_shape (world_of ana None) "s1"
              (env_of " What is 1 x 1? ") ana
              (readable_world_of ana None "s1") (resolve_world_of ana None))
    as (q & w' & Hrun & _ & _ & _ & _ & Hq & _).
  - simpl. lia.
  - exists q, w'. split; [exact Hrun | exact Hq].
Defined.

(** X13. The first mistake is what gets drilled: when a session without
    weak areas gets a wrong answer for a timestable, that timestable
    becomes its only weak area, with one mistake, and from then on every
    selection whose draw is below 0.7 picks that timestable, whatever the
    ceiling. *)
Theorem first_mistake_is_drilled (w : World.World) (sid : string)
    (qd : MathTutor.Question) (user_answer : string) (env : World.Env)
    (s : StudentSession) :
  let ms := World.memory_service w in
  Memory.wf_service ms →
  readable ms sid →
  Memory.resolve ms sid = Some s →
  weak_areas (progress s) = [] →
  py_int user_answer ≠ Some (MathTutor.q_expected_answer qd) →
  ∃ ev w' s',
    MathTutor.evaluate_answer sid qd user_answer env w = Returned ev w' ∧
    MathTutor.ev_correct ev = false ∧
    holds (World.memory_service w') sid s' ∧
    weak_areas (progress s') = [(MathTutor.q_timestable qd, 1)] ∧
    (∀ env', draw_lt_0_7 (World.coin env') = true →
             MathTutor._select_timestable s' env'
             = inr (MathTutor.q_timestable qd)).
Proof.
  intros ms Hwf Hr Hres Hwa Hwrong.
  pose proof (resolve_wf _ _ _ Hwf Hres) as Hid.
  pose proof (evaluate_answer_run w sid qd user_answer env s Hr Hres) as Hrun.
  cbv zeta in Hrun.
  assert (match py_int user_answer with
          | Some n => n =? MathTutor.q_expected_answer qd
          | None => false
          end = false) as Hfalse.
  { destruct (py_int user_answer) as [n|]; [|done].
    apply Z.eqb_neq. congruence. }
  rewrite Hfalse in Hrun.
  eexists _, _, _. split; [exact Hrun|]. split; [done|].
  split; [by apply holds_updated|].
  assert (weak_areas (update_progress (progress s) (MathTutor.q_timestable qd) false)
          = [(MathTutor.q_timestable qd, 1)]) as Hnew.
  { rewrite update_progress_wrong, Hwa. done. }
  split; [exact Hnew|].
  intros env' Hdraw. unfold MathTutor._select_timestable, get_weakest_timestables.
  cbn [progress MathTutor.set_progress MathTutor.append_history weak_areas].
  rewrite Hnew, Hdraw. reflexivity.
Qed.

Lemma first_mistake_is_drilled_witness :
  ∃ ev w' s',
    MathTutor.evaluate_answer "s1"
      {| MathTutor.q_question := "7 x 8?"; MathTutor.q_timestable := 7;
         MathTutor.q_multiplier := 8; MathTutor.q_expected_answer := 56;
         MathTutor.q_session_id := "s1" |}
      "54" (env_of "Almost!") (world_of ana None)
    = Returned ev w' ∧
    holds (World.memory_service w') "s1" s' ∧
    weak_areas (progress s') = [(7, 1)].
Proof.
  destruct (first_mistake_is_drilled (world_of ana None) "s1"
              {| MathTutor.q_question := "7 x 8?"; MathTutor.q_timestable := 7;
                 MathTutor.q_multiplier := 8; MathTutor.q_expected_answer := 56;
                 MathTutor.q_session_id := "s1" |}
              "54" (env_of "Almost!") ana
              (wf_world_of ana None) (readable_world_of ana None "s1")
              (resolve_world_of ana None) eq_refl)
    as (ev & w' & s' & Hrun & _ & Hh & Hwa & _).
  - discriminate.
  - exists ev, w', s'. split; [exact Hrun|]. split; [exact Hh | exact Hwa].
Defined.

(** ** Coordinator: counters, pause and resume *)

(** X14. The turn counter survives a pause, also across a restart.  For
    a session the repository resolves, after the coordinator's
    [pause_session] a [resume_session] answers ["resumed"] and sets the
    session's turn counter to the value it had when the pause was made
    ([0] if it had none), whatever the counters say at that moment and
    whether the service still has its table or was restarted on the same
    files; the session is filed as not paused, with the progress it
    had. *)
Theorem turn_counter_survives_pause (model_dump : StudentProgress → pyval)
    (w : World.World) (sid : string) (s : StudentSession)
    (restarted : bool) (counters : gmap string pyval) :
  let ms := World.memory_service w in
  Memory.wf_service ms →
  readable ms sid →
  Memory.resolve ms sid = Some s →
  ∃ w1 w2,
    Coordinator.pause_session model_dump sid w = Returned paused_reply w1 ∧
    let ms1 := World.memory_service w1 in
    Coordinator.resume_session sid
      {| World.memory_service := if restarted then restart ms1 else ms1;
         World.question_count := counters |}
    = Returned (resumed_reply (Memory.set_pause s false None)) w2 ∧
    World.question_count w2
    = <[sid := default (PInt 0) (World.question_count w !! sid)]> counters ∧
    holds (World.memory_service w2) sid (Memory.set_pause s false None).
Proof.
  intros ms Hwf Hr Hres.
  pose proof (resolve_wf _ _ _ Hwf Hres) as Hid.
  set (s1 := Memory.set_pause s true (Some (payload_of model_dump w sid s))).
  set (ms1 := updated (cached ms sid) s1).
  assert (Memory.wf_service ms1) as Hwf1 by by apply updated_wf, cached_wf.
  assert (holds ms1 sid s1) as [Hs1 Hd1] by by apply holds_updated.
  set (ms1' := if restarted then restart ms1 else ms1).
  assert (Memory.wf_service ms1') as Hwf1'
    by (subst ms1'; destruct restarted; [by apply restart_wf | done]).
  assert (Memory.resolve ms1' sid = Some s1) as Hres1.
  { subst ms1'. unfold Memory.resolve. destruct restarted.
    - change (Memory.sessions (restart ms1)) with (∅ : gmap string StudentSession).
      rewrite lookup_empty.
      change (Memory.disk (restart ms1)) with (Memory.disk ms1). by rewrite Hd1.
    - by rewrite Hs1. }
  assert (readable ms1' sid) as Hr1.
  { intros _. subst ms1'. destruct restarted.
    - change (Memory.disk (restart ms1)) with (Memory.disk ms1). by rewrite Hd1.
    - by rewrite Hd1. }
  set (s2 := Memory.set_pause s false None).
  set (c := default (PInt 0) (World.question_count w !! sid)).
  assert (∀ w',
            Memory.wf_service (World.memory_service w') →
            readable (World.memory_service w') sid →
            Memory.resolve (World.memory_service w') sid = Some s1 →
            Coordinator.resume_session sid w'
            = Returned (resumed_reply s2)
                (with_count
                   (with_service w'
                      (updated (cached (World.memory_service w') sid) s2))
                   sid c)) as Hresume.
  { intros w' Hw Hr' Hrs. rewrite coordinator_resume_run by done.
    rewrite Hrs. reflexivity. }
  set (w1' := {| World.memory_service := ms1'; World.question_count := counters |}).
  exists (with_service w ms1),
         (with_count (with_service w1' (updated (cached ms1' sid) s2)) sid c).
  split.
  { rewrite coordinator_pause_run by done. fold ms. rewrite Hres. reflexivity. }
  cbv zeta. split; [exact (Hresume w1' Hwf1' Hr1 Hres1)|].
  split; [reflexivity|].
  apply holds_updated. exact Hid.
Qed.

Lemma turn_counter_survives_pause_witness :
  ∃ w1 w2,
    Coordinator.pause_session (λ _, PNone) "s1" (world_of ana (Some (PInt 5)))
    = Returned paused_reply w1 ∧
    Coordinator.resume_session "s1"
      {| World.memory_service := restart (World.memory_service w1);
         World.question_count := ∅ |}
    = Returned (resumed_reply ana) w2 ∧
    World.question_count w2 = <[ "s1" := PInt 5 ]> ∅.
Proof.
  destruct (turn_counter_survives_pause (λ _, PNone)
              (world_of ana (Some (PInt 5))) "s1" ana true ∅
              (wf_world_of ana _) (readable_world_of ana _ "s1")
              (resolve_world_of ana _))
    as (w1 & w2 & Hp & Hres & Hc & _).
  exists w1, w2. split; [exact Hp|]. split; [exact Hres|].
  rewrite Hc. reflexivity.
Defined.

Section CounterFacts.
Import Memory World Coordinator.
Implicit Types (w : World) (sid : string) (env : Env).

Lemma next_activity_not_a_number w sid env (v : pyval) (e : exn) :
  question_count w !! sid = Some v →
  py_add1 v = inl e →
  get_next_activity sid env w = Raised e w.
Proof.
  intros Hv He. unfold get_next_activity.
  unfold bind at 1. unfold get_state at 1. rewrite Hv.
  rewrite bool_decide_true by by eexists.
  unfold bind at 1. cbn [negb]. unfold ret at 1. cbv beta iota.
  unfold bind at 1. unfold get_state at 1. rewrite Hv, He.
  reflexivity.
Qed.

Lemma run_turns_not_a_number w sid (v : pyval) (e : exn) (envs : list Env) :
  question_count w !! sid = Some v →
  py_add1 v = inl e →
  Forall (λ o, o = Raised e w) (run_turns sid envs w).
Proof.
  intros Hv He. induction envs as [|env envs IH]; simpl; [constructor|].
  rewrite (next_activity_not_a_number w sid env v e Hv He). simpl.
  by constructor.
Qed.

Lemma next_activity_first w sid env :
  question_count w !! sid = None →
  get_next_activity sid env w
  = bind (MathTutor.generate_question sid env) (λ q, ret (MathQuestion q))
      (with_count (with_count w sid (PInt 0)) sid (PInt 1)).
Proof.
  intros Hn. unfold get_next_activity.
  unfold bind at 1. unfold get_state at 1. rewrite Hn.
  rewrite bool_decide_false by by intros [? ?].
  unfold bind at 1. cbn [negb]. unfold set_count at 1, modify at 1.
  unfold bind at 1. unfold get_state at 1.
  cbn [question_count]. rewrite lookup_insert_eq.
  reflexivity.
Qed.

End CounterFacts.

(** X15. The turn counter at its edges.  A session without a counter (as
    after a restart of the process without a resume) starts again at turn
    1: [get_next_activity] sets its counter to [1] and asks the math
    tutor for a question.  A counter that is not a number makes
    [get_next_activity] raise [TypeError] before anything is changed, so
    that every later turn of the session fails in the same way. *)
Theorem turn_counter_edge_cases (w : World.World) (sid : string) (env : World.Env) :
  (World.question_count w !! sid = None →
   ∃ w1,
     World.question_count w1 = <[sid := PInt 1]> (World.question_count w) ∧
     World.memory_service w1 = World.memory_service w ∧
     Coordinator.get_next_activity sid env w
     = bind (MathTutor.generate_question sid env)
         (λ q, ret (Coordinator.MathQuestion q)) w1) ∧
  (∀ v e,
     World.question_count w !! sid = Some v →
     py_add1 v = inl e →
     e = TypeError ∧
     Coordinator.get_next_activity sid env w = Raised TypeError w ∧
     ∀ envs, Forall (λ o, o = Raised TypeError w) (Coordinator.run_turns sid envs w)).
Proof.
  split.
  - intros Hn. eexists. split; [|split; [|by apply next_activity_first]].
    + simpl. apply insert_insert_eq.
    + done.
  - intros v e Hv He.
    assert (e = TypeError) as -> by (destruct v; simpl in He; congruence).
    split; [done|]. split; [by eapply next_activity_not_a_number|].
    intros envs. by eapply run_turns_not_a_number.
Qed.

(** X16. A pause payload whose [question_count] is not a number is taken
    over as it is: [resume_session] answers ["resumed"] all the same, but
    from then on every [get_next_activity] of the session raises
    [TypeError] and leaves the state as the resume left it. *)
Theorem resumed_counter_is_not_checked (w : World.World) (sid : string)
    (s : StudentSession) (state d : list (string * pyval)) (v : pyval) (e : exn) :
  let ms := World.memory_service w in
  Memory.wf_service ms →
  readable ms sid →
  Memory.resolve ms sid = Some s →
  is_paused s = true →
  current_state s = Some state →
  dict_get "coordinator" state = Some (PDict d) →
  dict_get "question_count" d = Some v →
  py_add1 v = inl e →
  ∃ w',
    Coordinator.resume_session sid w
    = Returned (resumed_reply (Memory.set_pause s false None)) w' ∧
    World.question_count w' !! sid = Some v ∧
    ∀ envs,
      Forall (λ o, o = Raised TypeError w') (Coordinator.run_turns sid envs w').
Proof.
  intros ms Hwf Hr Hres Hp Hst Hco Hqc He.
  pose proof (coordinator_resume_run w sid Hwf Hr) as Hrun.
  fold ms in Hrun. rewrite Hres, Hp, Hst in Hrun. cbv zeta in Hrun.
  destruct state as [|kv state]; [done|].
  rewrite Hco, Hqc in Hrun. simpl default in Hrun.
  assert (e = TypeError) as -> by (destruct v; simpl in He; congruence).
  eexists. split; [exact Hrun|].
  assert (World.question_count
            (with_count
               (with_service w
                  (updated (cached ms sid) (Memory.set_pause s false None)))
               sid v) !! sid = Some v) as Hv
    by (simpl; apply lookup_insert_eq).
  split; [exact Hv|].
  intros envs. by eapply run_turns_not_a_number.
Qed.

Lemma resumed_counter_is_not_checked_witness :
  ∃ w',
    Coordinator.resume_session "s1"
      (world_of
         (ana_paused (Some [("coordinator", PDict [("question_count", PStr "five")])]))
         None)
    = Returned (resumed_reply ana) w' ∧
    Coordinator.get_next_activity "s1" (env_of "") w' = Raised TypeError w'.
Proof.
  set (payload := [("coordinator", PDict [("question_count", PStr "five")])]).
  destruct (resumed_counter_is_not_checked
              (world_of (ana_paused (Some payload)) None) "s1"
              (ana_paused (Some payload)) payload
              [("question_count", PStr "five")] (PStr "five") TypeError
              (wf_world_of _ None) (readable_world_of _ None "s1")
              (resolve_world_of (ana_paused (Some payload)) None)
              eq_refl eq_refl eq_refl eq_refl eq_refl)
    as (w' & Hrun & _ & Hall).
  exists w'. split; [exact Hrun|].
  specialize (Hall [env_of ""]). by inversion Hall.
Defined.

(** ** Coordinator: answers and the end of a session *)

(** X17. [process_math_answer] gives the verdict of the math tutor's
    [evaluate_answer], with the same accuracy, count and state; it adds a
    bonus fact, the second generated text stripped, exactly when the
    answer is correct and the draw is below 0.3, so never to an incorrect
    answer. *)
Theorem bonus_fact_only_when_correct (w : World.World) (sid : string)
    (qd : MathTutor.Question) (user_answer : string) (env : World.Env)
    (s : StudentSession) :
  let ms := World.memory_service w in
  readable ms sid →
  Memory.resolve ms sid = Some s →
  ∃ ev r w',
    MathTutor.evaluate_answer sid qd user_answer env w = Returned ev w' ∧
    Coordinator.process_math_answer sid qd user_answer env w = Returned r w' ∧
    MathTutor.ev_correct r = MathTutor.ev_correct ev ∧
    MathTutor.ev_expected_answer r = MathTutor.ev_expected_answer ev ∧
    MathTutor.ev_feedback r = MathTutor.ev_feedback ev ∧
    MathTutor.ev_accuracy r = MathTutor.ev_accuracy ev ∧
    MathTutor.ev_total_questions r = MathTutor.ev_total_questions ev ∧
    MathTutor.ev_bonus_fact r
    = (if MathTutor.ev_correct ev && draw_lt_0_3 (World.coin env)
       then Some (strip (World.text2 env)) else None) ∧
    (MathTutor.ev_correct ev = false → MathTutor.ev_bonus_fact r = None).
Proof.
  intros ms Hr Hres.
  pose proof (evaluate_answer_run w sid qd user_answer env s Hr Hres) as Hrun.
  cbv zeta in Hrun.
  match type of Hrun with _ = Returned ?ev0 ?w0 =>
    exists ev0,
      (if MathTutor.ev_correct ev0 && draw_lt_0_3 (World.coin env)
       then Coordinator.add_bonus ev0 (strip (World.text2 env)) else ev0), w0
  end.
  split; [exact Hrun|].
  unfold Coordinator.process_math_answer, bind. rewrite Hrun.
  cbn [MathTutor.ev_correct].
  destruct (match py_int user_answer with Some _ => _ | None => _ end);
    destruct (draw_lt_0_3 (World.coin env)); simpl; repeat split; done.
Qed.

Lemma bonus_fact_only_when_correct_witness :
  ∃ ev r w',
    MathTutor.evaluate_answer "s1"
      {| MathTutor.q_question := "5 x 6?"; MathTutor.q_timestable := 5;
         MathTutor.q_multiplier := 6; MathTutor.q_expected_answer := 30;
         MathTutor.q_session_id := "s1" |}
      "30" (env_of "Great!") (world_of ana None) = Returned ev w' ∧
    Coordinator.process_math_answer "s1"
      {| MathTutor.q_question := "5 x 6?"; MathTutor.q_timestable := 5;
         MathTutor.q_multiplier := 6; MathTutor.q_expected_answer := 30;
         MathTutor.q_session_id := "s1" |}
      "30" (env_of "Great!") (world_of ana None) = Returned r w'.
Proof.
  destruct (bonus_fact_only_when_correct (world_of ana None) "s1"
              {| MathTutor.q_question := "5 x 6?"; MathTutor.q_timestable := 5;
                 MathTutor.q_multiplier := 6; MathTutor.q_expected_answer := 30;
                 MathTutor.q_session_id := "s1" |}
              "30" (env_of "Great!") ana
              (readable_world_of ana None "s1") (resolve_world_of ana None))
    as (ev & r & w' & He & Hp & _).
  exists ev, r, w'. split; [exact He | exact Hp].
Defined.

(** X18. [end_session] reports the progress of the session as it is
    stored: the counts, the accuracy and the three weakest areas of its
    record, with the generated farewell.  It does not delete or change
    the record: the id still resolves to it afterwards, the files and the
    counters are untouched. *)
Theorem end_session_keeps_the_record (w : World.World) (sid : string)
    (env : World.Env) (s : StudentSession) :
  let ms := World.memory_service w in
  readable ms sid →
  Memory.resolve ms sid = Some s →
  ∃ w',
    Coordinator.end_session sid env w
    = Returned
        {| Coordinator.goodbye_message := strip (World.text2 env);
           Coordinator.goodbye_progress :=
             {| MathTutor.ps_student_name := s_student_name s;
                MathTutor.ps_total_questions := total_questions (progress s);
                MathTutor.ps_correct_answers := correct_answers (progress s);
                MathTutor.ps_accuracy := get_accuracy (progress s);
                MathTutor.ps_weak_areas :=
                  get_weakest_timestables (progress s) default_limit;
                MathTutor.ps_summary := strip (World.text env) |} |} w' ∧
    Memory.resolve (World.memory_service w') sid = Some s ∧
    Memory.disk (World.memory_service w') = Memory.disk ms ∧
    World.question_count w' = World.question_count w.
Proof.
  intros ms Hr Hres. eexists. split.
  - unfold Coordinator.end_session, Coordinator.get_progress, bind.
    by rewrite (progress_summary_resolved w sid env s Hr Hres).
  - split; [exact (eq_trans (resolve_cached _ _) Hres)|].
    split; [apply cached_disk | done].
Qed.

Lemma end_session_keeps_the_record_witness :
  ∃ g w',
    Coordinator.end_session "s1" (env_of "Well done") (world_of ana None)
    = Returned g w' ∧
    Memory.resolve (World.memory_service w') "s1" = Some ana.
Proof.
  destruct (end_session_keeps_the_record (world_of ana None) "s1"
              (env_of "Well done") ana
              (readable_world_of ana None "s1") (resolve_world_of ana None))
    as (w' & Hrun & Hres & _).
  eexists _, w'. split; [exact Hrun | exact Hres].
Defined.

(** ** Quizzes: what the parser keeps *)

Section OptionFacts.
Import Facts.

Lemma set_option_lettered (f : quiz_fields) (letter value : string) :
  letter ∈ option_letters → lettered f → lettered (set_option f letter value).
Proof.
  intros Hl [Hnd Hsub]. unfold lettered, set_option. simpl.
  destruct (dict_get letter (options f)) as [x|] eqn:Hg.
  - by rewrite dict_set_keys_present.
  - rewrite dict_set_keys_absent by done. split.
    + apply NoDup_app. split; [done|]. split; [|apply NoDup_singleton].
      intros x Hx ->%list_elem_of_singleton.
      by apply dict_get_None_keys in Hg.
    + intros k [Hk| ->%list_elem_of_singleton]%elem_of_app; auto.
Qed.

Lemma parse_line_lettered (f : quiz_fields) (line : string) :
  lettered f → lettered (parse_line f line).
Proof.
  intros Hf. unfold parse_line.
  repeat (match goal with
          | |- lettered (if ?b then _ else _) => destruct b
          | |- lettered (set_option _ _ _) =>
              apply set_option_lettered; [set_solver|done]
          end; try done).
Qed.

Lemma parse_lines_lettered (lines : list string) (f : quiz_fields) :
  lettered f → lettered (foldl parse_line f lines).
Proof.
  revert f. induction lines as [|line lines IH]; intros f Hf; [done|].
  simpl. by apply IH, parse_line_lettered.
Qed.

Lemma generated_quiz_lettered (env : World.Env) :
  ∃ q, generate_fact_quiz env = inr q ∧
       quiz_category q ∈ fact_categories ∧
       NoDup (quiz_options q).*1 ∧
       (∀ k, k ∈ (quiz_options q).*1 → k ∈ option_letters).
Proof.
  unfold generate_fact_quiz.
  destruct (random_choice_elem (World.pick env) fact_categories)
    as (c & -> & Hc); [done|].
  unfold parse_quiz. eexists. split; [done|]. split; [done|]. simpl.
  apply parse_lines_lettered. split; [constructor|].
  by intros k ?%elem_of_nil.
Qed.

End OptionFacts.

(** X19. Whatever text the generator returns, [generate_fact_quiz]
    returns a quiz: its category is one of the nine categories, and its
    options are keyed by letters among A, B, C and D, each at most once,
    so that there are at most four. *)
Theorem quiz_options_are_lettered (env : World.Env) :
  ∃ q,
    Facts.generate_fact_quiz env = inr q ∧
    Facts.quiz_category q ∈ Facts.fact_categories ∧
    NoDup (Facts.quiz_options q).*1 ∧
    (∀ k, k ∈ (Facts.quiz_options q).*1 → k ∈ option_letters) ∧
    (length (Facts.quiz_options q) ≤ 4)%nat.
Proof.
  destruct (generated_quiz_lettered env) as (q & Hq & Hc & Hnd & Hsub).
  exists q. split; [done|]. split; [done|]. split; [done|]. split; [done|].
  rewrite <- (length_fmap fst).
  change 4%nat with (length option_letters).
  apply submseteq_length, NoDup_submseteq; done.
Qed.

(** ** Quizzes: white space and letter case of the answer *)

Section StripFacts.

Lemma rstrip_only_whitespace (s : string) : only_whitespace s = true → rstrip s = "".
Proof.
  induction s as [|c s IH]; simpl; [done|].
  intros [Hc Hs]%andb_true_iff. by rewrite (IH Hs), Hc.
Qed.

Lemma lstrip_app_whitespace (a s : string) :
  only_whitespace a = true → lstrip (a ++ s) = lstrip s.
Proof.
  induction a as [|c a IH]; simpl; [done|].
  intros [Hc Ha]%andb_true_iff. rewrite Hc. auto.
Qed.

Lemma rstrip_app_whitespace (s b : string) :
  only_whitespace b = true → rstrip (s ++ b) = rstrip s.
Proof.
  intros Hb. induction s as [|c s IH]; simpl.
  - by apply rstrip_only_whitespace.
  - by rewrite IH.
Qed.

Lemma strip_whitespace_app (a s : string) :
  only_whitespace a = true → strip (a ++ s) = strip s.
Proof.
  intros Ha. unfold strip. induction a as [|c a IH]; simpl; [done|].
  apply andb_true_iff in Ha as [Hc Ha]. specialize (IH Ha).
  destruct (rstrip (a ++ s)) as [|c' r] eqn:Hr.
  - rewrite Hc. simpl in IH. by rewrite <- IH.
  - cbn [lstrip]. rewrite Hc. exact IH.
Qed.

Lemma strip_padding (a s b : string) :
  only_whitespace a = true → only_whitespace b = true →
  strip (a ++ s ++ b) = strip s.
Proof.
  intros Ha Hb. rewrite strip_whitespace_app by done.
  unfold strip. by rewrite rstrip_app_whitespace.
Qed.

Lemma is_space_upper_char (c : ascii) : is_space (upper_char c) = is_space c.
Proof. by destruct c as [[] [] [] [] [] [] [] []]. Qed.

Lemma lstrip_upper (s : string) : lstrip (upper s) = upper (lstrip s).
Proof.
  induction s as [|c s IH]; simpl; [done|].
  rewrite is_space_upper_char. by destruct (is_space c).
Qed.

Lemma rstrip_upper (s : string) : rstrip (upper s) = upper (rstrip s).
Proof.
  induction s as [|c s IH]; simpl; [done|].
  rewrite IH, is_space_upper_char.
  destruct (rstrip s); simpl; [by destruct (is_space c)|done].
Qed.

Lemma strip_upper (s : string) : strip (upper s) = upper (strip s).
Proof. unfold strip. by rewrite rstrip_upper, lstrip_upper. Qed.

End StripFacts.

(** X20. The verdict on a quiz answer depends neither on the white space
    around the answer nor on the case of its letters: an answer padded
    with white space on either side is evaluated as the answer itself,
    and two answers that agree once put in upper case are evaluated
    alike. *)
Theorem quiz_answer_ignores_padding_and_case (quiz_data : list (string * pyval))
    (env : World.Env) :
  (∀ a before after,
     only_whitespace before = true → only_whitespace after = true →
     Facts.evaluate_quiz_answer quiz_data (before ++ a ++ after) env
     = Facts.evaluate_quiz_answer quiz_data a env) ∧
  (∀ a1 a2,
     upper a1 = upper a2 →
     Facts.evaluate_quiz_answer quiz_data a1 env
     = Facts.evaluate_quiz_answer quiz_data a2 env).
Proof.
  split.
  - intros a before after Hb Ha. unfold Facts.evaluate_quiz_answer.
    by rewrite strip_padding.
  - intros a1 a2 Hup. unfold Facts.evaluate_quiz_answer.
    by rewrite <- !strip_upper, Hup.
Qed.

(** ** Quizzes: a text in the requested format *)

Section ParseFacts.
Import Facts.

Lemma rstrip_keep_cons (c : ascii) (t : string) :
  rstrip t = t ∧ t ≠ "" → rstrip (String c t) = String c t ∧ String c t ≠ "".
Proof. intros [Ht Hne]. simpl. rewrite Ht. by destruct t. Qed.

Lemma rstrip_keep_app (s t : string) :
  rstrip t = t ∧ t ≠ "" → rstrip (s ++ t) = s ++ t ∧ s ++ t ≠ "".
Proof.
  intros Ht. induction s as [|c s IH]; [done|].
  by apply (rstrip_keep_cons c (s ++ t)).
Qed.

Lemma plain_keeps (x : string) : plain x → rstrip x = x ∧ x ≠ "".
Proof. by intros (? & _ & ? & _). Qed.

Lemma strip_line (pre x : string) :
  lstrip (pre ++ x) = pre ++ x → plain x → strip (pre ++ x) = pre ++ x.
Proof.
  intros Hl Hx. unfold strip.
  by rewrite (proj1 (rstrip_keep_app pre x (plain_keeps x Hx))).
Qed.

Lemma strip_space_plain (x : string) : plain x → strip (String " " x) = x.
Proof.
  intros (Hne & Hl & Hr & _). unfold strip.
  rewrite (proj1 (rstrip_keep_cons " " x (conj Hr Hne))). exact Hl.
Qed.

Lemma delete_absent (old s : string) :
  occurs old s = false → delete_occurrences old 0 s = s.
Proof.
  induction s as [|c s IH]; simpl; [done|].
  intros [Hp Ho]%orb_false_iff. rewrite Hp. by rewrite IH.
Qed.

Lemma split_on_line (pre l rest : string) :
  has_char newline pre = false → has_char newline l = false →
  split_on newline (pre ++ l ++ String newline rest)
  = (pre ++ l) :: split_on newline rest.
Proof.
  intros Hpre Hl.
  assert (split_on newline (l ++ String newline rest) = l :: split_on newline rest)
    as Hline.
  { clear Hpre. induction l as [|c l IH]; simpl in *; [done|].
    apply orb_false_iff in Hl as [Hc Hl]. by rewrite Hc, IH. }
  induction pre as [|c pre IH]; simpl in *; [done|].
  apply orb_false_iff in Hpre as [Hc Hpre]. by rewrite Hc, IH.
Qed.

Lemma split_on_last (pre l : string) :
  has_char newline pre = false → has_char newline l = false →
  split_on newline (pre ++ l) = [pre ++ l].
Proof.
  intros Hpre Hl.
  assert (split_on newline l = [l]) as Hline.
  { clear Hpre. induction l as [|c l IH]; simpl in *; [done|].
    apply orb_false_iff in Hl as [Hc Hl]. by rewrite Hc, IH. }
  induction pre as [|c pre IH]; simpl in *; [done|].
  apply orb_false_iff in Hpre as [Hc Hpre]. by rewrite Hc, IH.
Qed.

(** A line made of a label, a space and a plain text in which the label
    does not occur. *)
Ltac parse_labelled pre lbl x :=
  unfold parse_line; cbv zeta;
  rewrite (strip_line pre x) by done;
  repeat match goal with
         | |- context [startswith (pre ++ x) ?l] =>
             let b := eval cbv in (startswith (pre ++ x) l) in
             change (startswith (pre ++ x) l) with b
         end;
  cbv iota; unfold field_of;
  change (replace_with_empty (pre ++ x) lbl)
    with (String " " (delete_occurrences lbl 0 x));
  rewrite delete_absent by done; rewrite strip_space_plain by done;
  reflexivity.

Lemma parse_question_line (f : quiz_fields) (x : string) :
  plain x → occurs "QUESTION:" x = false →
  parse_line f ("QUESTION: " ++ x)
  = {| question := x; options := options f;
       correct_answer := correct_answer f; explanation := explanation f |}.
Proof. intros Hp Ho. parse_labelled "QUESTION: " "QUESTION:" x. Qed.

Lemma parse_option_a (f : quiz_fields) (x : string) :
  plain x → occurs "A)" x = false →
  parse_line f ("A) " ++ x) = set_option f "A" x.
Proof. intros Hp Ho. parse_labelled "A) " "A)" x. Qed.

Lemma parse_option_b (f : quiz_fields) (x : string) :
  plain x → occurs "B)" x = false →
  parse_line f ("B) " ++ x) = set_option f "B" x.
Proof. intros Hp Ho. parse_labelled "B) " "B)" x. Qed.

Lemma parse_option_c (f : quiz_fields) (x : string) :
  plain x → occurs "C)" x = false →
  parse_line f ("C) " ++ x) = set_option f "C" x.
Proof. intros Hp Ho. parse_labelled "C) " "C)" x. Qed.

Lemma parse_option_d (f : quiz_fields) (x : string) :
  plain x → occurs "D)" x = false →
  parse_line f ("D) " ++ x) = set_option f "D" x.
Proof. intros Hp Ho. parse_labelled "D) " "D)" x. Qed.

Lemma parse_correct_line (f : quiz_fields) (x : string) :
  plain x → occurs "CORRECT:" x = false →
  parse_line f ("CORRECT: " ++ x)
  = {| question := question f; options := options f;
       correct_answer := x; explanation := explanation f |}.
Proof. intros Hp Ho. parse_labelled "CORRECT: " "CORRECT:" x. Qed.

Lemma parse_explanation_line (f : quiz_fields) (x : string) :
  plain x → occurs "EXPLANATION:" x = false →
  parse_line f ("EXPLANATION: " ++ x)
  = {| question := question f; options := options f;
       correct_answer := correct_answer f; explanation := x |}.
Proof. intros Hp Ho. parse_labelled "EXPLANATION: " "EXPLANATION:" x. Qed.

Lemma strip_format_quiz (q a b c d k e : string) :
  plain e → strip (format_quiz q a b c d k e) = format_quiz q a b c d k e.
Proof.
  intros He. unfold strip, format_quiz.
  match goal with |- lstrip (rstrip ?t) = _ =>
    assert (rstrip t = t ∧ t ≠ "") as [-> _]; [|reflexivity]
  end.
  repeat (apply rstrip_keep_app || apply rstrip_keep_cons).
  by apply plain_keeps.
Qed.

Lemma split_format_quiz (q a b c d k e : string) :
  plain q → plain a → plain b → plain c → plain d → plain k → plain e →
  split_on newline (format_quiz q a b c d k e)
  = ["QUESTION: " ++ q; "A) " ++ a; "B) " ++ b; "C) " ++ c; "D) " ++ d;
     "CORRECT: " ++ k; "EXPLANATION: " ++ e].
Proof.
  intros (_ & _ & _ & Hq) (_ & _ & _ & Ha) (_ & _ & _ & Hb) (_ & _ & _ & Hc)
         (_ & _ & _ & Hd) (_ & _ & _ & Hk) (_ & _ & _ & He).
  unfold format_quiz.
  rewrite !split_on_line by done. by rewrite split_on_last.
Qed.

End ParseFacts.

(** X21. A generated text in the requested format is read back field by
    field: when the question, the four options, the letter of the correct
    answer and the explanation are non-empty one-line texts without white
    space at either end, none containing its own label, the quiz made of
    the text "QUESTION: q / A) a / B) b / C) c / D) d / CORRECT: k /
    EXPLANATION: e" has exactly that question, those four options under
    A, B, C and D in this order, that correct answer and that
    explanation. *)
Theorem formatted_quiz_is_read_back (env : World.Env) (q a b c d k e : string) :
  World.text env = format_quiz q a b c d k e →
  plain q → plain a → plain b → plain c → plain d → plain k → plain e →
  occurs "QUESTION:" q = false →
  occurs "A)" a = false → occurs "B)" b = false →
  occurs "C)" c = false → occurs "D)" d = false →
  occurs "CORRECT:" k = false →
  occurs "EXPLANATION:" e = false →
  ∃ category,
    Facts.generate_fact_quiz env
    = inr {| Facts.quiz_category := category;
             Facts.quiz_question := q;
             Facts.quiz_options := [("A", a); ("B", b); ("C", c); ("D", d)];
             Facts.quiz_correct_answer := k;
             Facts.quiz_explanation := e |}.
Proof.
  intros Htext Hq Ha Hb Hc Hd Hk He Oq Oa Ob Oc Od Ok Oe.
  unfold Facts.generate_fact_quiz.
  destruct (random_choice_elem (World.pick env) Facts.fact_categories)
    as (category & -> & _); [done|].
  exists category. rewrite Htext, strip_format_quiz by done.
  unfold Facts.parse_quiz. rewrite split_format_quiz by done.
  cbn [foldl].
  rewrite parse_question_line, parse_option_a, parse_option_b, parse_option_c,
    parse_option_d, parse_correct_line, parse_explanation_line by done.
  reflexivity.
Qed.

Lemma formatted_quiz_is_read_back_witness :
  ∃ category,
    Facts.generate_fact_quiz
      (env_of (format_quiz "How many legs does a spider have?"
                 "6 legs" "8 legs" "10 legs" "4 legs" "B" "Spiders have 8 legs!"))
    = inr {| Facts.quiz_category := category;
             Facts.quiz_question := "How many legs does a spider have?";
             Facts.quiz_options :=
               [("A", "6 legs"); ("B", "8 legs"); ("C", "10 legs"); ("D", "4 legs")];
             Facts.quiz_correct_answer := "B";
             Facts.quiz_explanation := "Spiders have 8 legs!" |}.
Proof.
  apply (formatted_quiz_is_read_back
           (env_of (format_quiz "How many legs does a spider have?"
                      "6 legs" "8 legs" "10 legs" "4 legs" "B" "Spiders have 8 legs!")));
    try reflexivity; by repeat split.
Defined.

(** ** Metrics and traces *)

Section MetricsFacts.
Import Logging.

Lemma count_up_eq (key : string) (d : list (string * Z)) :
  count_up key d = dict_set key (default 0 (dict_get key d) + 1) d.
Proof.
  unfold count_up. destruct (dict_mem key d) eqn:Hm; simpl; [done|].
  apply dict_mem_false in Hm.
  by rewrite dict_get_set_eq, dict_set_twice, Hm.
Qed.

Lemma count_up_get (key e : string) (d : list (string * Z)) :
  default 0 (dict_get e (count_up key d))
  = default 0 (dict_get e d) + (if decide (key = e) then 1 else 0).
Proof.
  rewrite count_up_eq. case_decide as Heq.
  - subst. by rewrite dict_get_set_eq.
  - rewrite dict_get_set_ne by done. lia.
Qed.

Lemma record_latency_eq (operation : string) (duration : Q) (m : MetricsCollector) :
  latencies (record_latency operation duration m)
  = dict_set operation
      (default [] (dict_get operation (latencies m)) ++ [duration])%list
      (latencies m).
Proof.
  unfold record_latency. simpl.
  destruct (dict_mem operation (latencies m)) eqn:Hm; simpl; [done|].
  apply dict_mem_false in Hm.
  by rewrite dict_get_set_eq, dict_set_twice, Hm.
Qed.

Lemma counted_cons (key_of : metric_call → option string) (key : string)
    (c : metric_call) (calls : list metric_call) :
  counted key_of key (c :: calls)
  = (if decide (key_of c = Some key) then 1 else 0) + counted key_of key calls.
Proof.
  unfold counted. rewrite filter_cons. case_decide; simpl length; lia.
Qed.

Lemma record_calls_from (calls : list metric_call) (m : MetricsCollector) :
  let m' := foldl record_call m calls in
  (∀ e, default 0 (dict_get e (requests m'))
        = default 0 (dict_get e (requests m)) + counted request_key e calls) ∧
  (∀ t, default 0 (dict_get t (errors m'))
        = default 0 (dict_get t (errors m)) + counted failure_key t calls) ∧
  (∀ k, default 0 (dict_get k (agent_calls m'))
        = default 0 (dict_get k (agent_calls m)) + counted agent_call_key k calls) ∧
  (∀ op, default [] (dict_get op (latencies m'))
         = (default [] (dict_get op (latencies m)) ++ durations_of op calls)%list).
Proof.
  revert m. induction calls as [|c calls IH]; intros m; cbn [foldl].
  - cbv zeta. unfold counted. simpl. repeat split; intros; try lia.
    by rewrite app_nil_r.
  - destruct (IH (record_call m c)) as (Hreq & Herr & Hag & Hlat). cbv zeta.
    split; [|split; [|split]].
    + intros e. rewrite Hreq, counted_cons. destruct c; simpl; try lia.
      rewrite count_up_get.
      destruct (decide (endpoint = e)), (decide (Some endpoint = Some e));
        try lia; congruence.
    + intros t. rewrite Herr, counted_cons. destruct c; simpl; try lia.
      rewrite count_up_get.
      destruct (decide (error_type = t)), (decide (Some error_type = Some t));
        try lia; congruence.
    + intros k. rewrite Hag, counted_cons. destruct c; simpl; try lia.
      rewrite count_up_get.
      destruct (decide (agent_name ++ "." ++ method = k)),
               (decide (Some (agent_name ++ "." ++ method) = Some k));
        try lia; congruence.
    + intros op. rewrite Hlat.
      destruct c as [ep|operation duration|ty|ag me]; try done.
      cbn [record_call]. rewrite record_latency_eq.
      unfold durations_of. simpl.
      destruct (decide (operation = op)) as [->|Hne].
      * rewrite dict_get_set_eq. simpl. by rewrite <- app_assoc.
      * by rewrite dict_get_set_ne.
Qed.

End MetricsFacts.

(** X22. The metrics count every call once, under its own key: after any
    sequence of recording calls on a new collector, the counter of an
    endpoint is the number of requests recorded for it, the counter of an
    error type the number of errors recorded for it, the counter of a key
    ["agent.method"] the number of agent calls recorded under that key,
    and the latencies of an operation are the durations recorded for it,
    in the order they were recorded. *)
Theorem metrics_count_every_call (calls : list metric_call) :
  let m := foldl record_call Logging.new_metrics calls in
  (∀ e, default 0 (dict_get e (Logging.requests m)) = counted request_key e calls) ∧
  (∀ t, default 0 (dict_get t (Logging.errors m)) = counted failure_key t calls) ∧
  (∀ k, default 0 (dict_get k (Logging.agent_calls m))
        = counted agent_call_key k calls) ∧
  (∀ op, default [] (dict_get op (Logging.latencies m)) = durations_of op calls).
Proof.
  destruct (record_calls_from calls Logging.new_metrics) as (Hreq & Herr & Hag & Hlat).
  cbv zeta. split; [|split; [|split]]; intros x.
  - by rewrite Hreq.
  - by rewrite Herr.
  - by rewrite Hag.
  - by rewrite Hlat.
Qed.

(** X23. Traces are only ever added at the end, and [get_traces] with a
    non-empty trace id returns exactly the events recorded under that id,
    in the order they were recorded.  Without an id, and also with the
    empty string as id, it returns all events. *)
Theorem get_traces_selects_by_id (traces : Logging.TraceLogger) (id : string) :
  (∀ trace_id agent action details now,
     ∃ event,
       Logging.trace trace_id agent action details now traces
       = (traces ++ [event])%list ∧
       Logging.te_trace_id event = trace_id) ∧
  (id ≠ "" →
     (∀ ev, ev ∈ Logging.get_traces (Some id) traces
            ↔ ev ∈ traces ∧ Logging.te_trace_id ev = id) ∧
     Logging.get_traces (Some id) traces `sublist_of` traces ∧
     (∀ trace_id agent action details now,
        Logging.get_traces (Some id)
          (Logging.trace trace_id agent action details now traces)
        = (Logging.get_traces (Some id) traces
           ++ Logging.get_traces (Some id)
                (Logging.trace trace_id agent action details now []))%list)) ∧
  Logging.get_traces (Some "") traces = traces ∧
  Logging.get_traces None traces = traces.
Proof.
  split; [by eexists|]. split; [|done].
  intros Hne. destruct id as [|c id]; [done|]. cbn [Logging.get_traces].
  split; [|split].
  - intros ev. rewrite list_elem_of_filter. tauto.
  - apply sublist_filter.
  - intros trace_id agent action details now.
    unfold Logging.trace. cbv zeta. exact (filter_app _ traces _).
Qed.

Lemma get_traces_selects_by_id_witness :
  Logging.get_traces (Some "t1")
    (Logging.trace "t2" "API" "pause_session" None 1
       (Logging.trace "t1" "API" "get_next_activity" None 0 []))
  `sublist_of`
  Logging.trace "t2" "API" "pause_session" None 1
    (Logging.trace "t1" "API" "get_next_activity" None 0 []).
Proof.
  refine (proj1 (proj2 (proj1 (proj2 (get_traces_selects_by_id _ "t1")) _))).
  discriminate.
Defined.

(** ** The endpoints *)

Section ApiFacts.
Import Memory World.

Lemma coordinator_resume_unpaused (w : World) (sid : string) :
  readable (memory_service w) sid →
  (∀ s, resolve (memory_service w) sid = Some s → is_paused s = false) →
  Coordinator.resume_session sid w
  = Returned Coordinator.not_resumed
      (with_service w (cached (memory_service w) sid)).
Proof.
  intros Hr Hp. unfold Coordinator.resume_session, bind.
  rewrite on_service_returned_or_raised_resume by done.
  destruct (resolve (memory_service w) sid) as [s|] eqn:Hres.
  - by rewrite (Hp s eq_refl).
  - by rewrite cached_unresolved.
Qed.

End ApiFacts.

(** X24. The turn endpoint counts every request once and reports every
    failure: whatever the state and the request, the request counter of
    ["next_activity"] goes up by one and no other request counter moves;
    the answer is the coordinator's activity, after two trace events and
    with the error counters untouched, or, when the coordinator raises,
    status 500 with that exception, after one trace event and with the
    error counter of ["next_activity_error"], and no other, up by one.
    Either way the agents are left in the state the coordinator reached,
    and the earlier trace events are kept. *)
Theorem turn_request_is_accounted_for (srv : Api.Server) (sid : string) (c : Api.Call) :
  let out := Api.get_next_activity sid c srv in
  let o := Coordinator.get_next_activity sid (Api.inputs c) (Api.world srv) in
  Api.world out.2 = state_of o ∧
  (∀ e, default 0 (dict_get e (Logging.requests (Api.metrics out.2)))
        = default 0 (dict_get e (Logging.requests (Api.metrics srv)))
          + (if decide ("next_activity" = e) then 1 else 0)) ∧
  Api.tracer srv `prefix_of` Api.tracer out.2 ∧
  match out.1 with
  | Api.Success a =>
      o = Returned a (Api.world out.2) ∧
      Logging.errors (Api.metrics out.2) = Logging.errors (Api.metrics srv) ∧
      length (Api.tracer out.2) = S (S (length (Api.tracer srv)))
  | Api.HTTPException code e =>
      code = 500 ∧
      o = Raised e (Api.world out.2) ∧
      (∀ t, default 0 (dict_get t (Logging.errors (Api.metrics out.2)))
            = default 0 (dict_get t (Logging.errors (Api.metrics srv)))
              + (if decide ("next_activity_error" = t) then 1 else 0)) ∧
      length (Api.tracer out.2) = S (length (Api.tracer srv))
  end.
Proof.
  intros out o. subst out o. unfold Api.get_next_activity.
  destruct (Coordinator.get_next_activity sid (Api.inputs c) (Api.world srv))
    as [a w'|e w']; cbn [fst snd Api.world Api.metrics Api.tracer state_of].
  - split; [done|]. split; [intros e; apply count_up_get|]. split.
    + unfold Logging.trace. rewrite <- app_assoc. by eexists.
    + split; [done|]. split; [done|].
      unfold Logging.trace. rewrite !length_app. simpl. lia.
  - split; [done|]. split; [intros e0; apply count_up_get|]. split.
    + unfold Logging.trace. by eexists.
    + split; [done|]. split; [done|]. split; [intros t; apply count_up_get|].
      unfold Logging.trace. rewrite length_app. simpl. lia.
Qed.

(** X25. The pause and resume endpoints answer with success where there
    is nothing to pause or to resume.  For an id that is in neither the
    table nor the files, the pause request is answered with status
    ["paused"]; for a session that is not paused, or such an unknown id,
    the resume request is answered with status ["error"], "Could not
    find paused session", inside a successful response.  Neither request
    is answered with status 500 nor counted as an error. *)
Theorem nothing_to_pause_or_resume_is_a_success (model_dump : StudentProgress → pyval)
    (srv : Api.Server) (sid : string) (c : Api.Call) :
  let ms := World.memory_service (Api.world srv) in
  readable ms sid →
  (∀ s, Memory.resolve ms sid = Some s → is_paused s = false) →
  (Api.resume_session sid c srv).1 = Api.Success Coordinator.not_resumed ∧
  Logging.errors (Api.metrics (Api.resume_session sid c srv).2)
  = Logging.errors (Api.metrics srv) ∧
  (Memory.resolve ms sid = None →
   (Api.pause_session model_dump sid c srv).1 = Api.Success paused_reply ∧
   Api.world (Api.pause_session model_dump sid c srv).2 = Api.world srv ∧
   Logging.errors (Api.metrics (Api.pause_session model_dump sid c srv).2)
   = Logging.errors (Api.metrics srv)).
Proof.
  intros ms Hr Hp. unfold Api.resume_session, Api.pause_session.
  rewrite coordinator_resume_unpaused by done.
  split; [done|]. split; [done|].
  intros Hres. rewrite coordinator_pause_run by done. fold ms. by rewrite Hres.
Qed.

Lemma nothing_to_pause_or_resume_is_a_success_witness :
  (Api.resume_session "ghost"
     {| Api.trace_id := "t1"; Api.clock1 := 0; Api.clock2 := 1;
        Api.inputs := env_of "" |}
     {| Api.world := World.empty_world; Api.metrics := Logging.new_metrics;
        Api.tracer := [] |}).1
  = Api.Success Coordinator.not_resumed.
Proof.
  refine (proj1 (nothing_to_pause_or_resume_is_a_success (λ _, PNone)
                   {| Api.world := World.empty_world;
                      Api.metrics := Logging.new_metrics; Api.tracer := [] |}
                   "ghost"
                   {| Api.trace_id := "t1"; Api.clock1 := 0; Api.clock2 := 1;
                      Api.inputs := env_of "" |} _ _)).
  - apply readable_empty.
  - unfold Memory.resolve. simpl. rewrite !lookup_empty. discriminate.
Defined.

(** ** A session from its start to its end *)

Section SessionFacts.
Import Memory World.

Lemma evaluate_answer_counts (sid : string) (qd : MathTutor.Question)
    (answer : string) (env : Env) (w : World) (k : nat) :
  after_answers sid k w →
  after_answers sid (S k)
    (state_of (MathTutor.evaluate_answer sid qd answer env w)) ∧
  question_count (state_of (MathTutor.evaluate_answer sid qd answer env w))
  = question_count w.
Proof.
  intros (s & Hs & Hid & Hok & Htot & Hlen).
  assert (readable (memory_service w) sid) as Hr
    by (intros Hn; by rewrite Hs in Hn).
  assert (resolve (memory_service w) sid = Some s) as Hres
    by (unfold resolve; by rewrite Hs).
  rewrite (evaluate_answer_run w sid qd answer env s Hr Hres).
  cbv zeta. cbn [state_of]. split; [|done].
  eexists. split; [|split; [|split; [|split]]].
  - simpl. rewrite Hid. apply lookup_insert_eq.
  - exact Hid.
  - simpl. destruct (update_progress_ok (progress s) (MathTutor.q_timestable qd)
                       (match py_int answer with
                        | Some n => n =? MathTutor.q_expected_answer qd
                        | None => false
                        end) Hok) as (? & ? & ? & ?).
    by repeat split.
  - simpl. rewrite update_progress_total. lia.
  - simpl. rewrite length_app. simpl.
    replace (question_history (update_progress _ _ _))
      with (question_history (progress s))
      by (unfold update_progress; by destruct (match py_int answer with
                                               | Some _ => _ | None => _ end)).
    lia.
Qed.

Lemma submit_all_counts (sid : string)
    (submissions : list (MathTutor.Question * string * Env)) :
  ∀ (w : World) (k : nat),
    after_answers sid k w →
    after_answers sid (k + length submissions) (submit_all sid submissions w) ∧
    question_count (submit_all sid submissions w) = question_count w.
Proof.
  induction submissions as [|[[qd answer] env] subs IH]; intros w k Hk.
  - simpl. by rewrite Nat.add_0_r.
  - destruct (evaluate_answer_counts sid qd answer env w k Hk) as [Hk' Hc].
    destruct (IH _ _ Hk') as [Hfin Hc'].
    unfold submit_all in *. cbn [foldl fst snd length].
    rewrite Nat.add_succ_r. split; [exact Hfin|]. by rewrite Hc'.
Qed.

End SessionFacts.

(** X26. Every answer submitted is counted once.  After [start_session]
    and any series of [evaluate_answer] calls for the session, whatever
    the questions and the answers, [end_session] reports as many
    questions as answers were submitted, with no more correct answers
    than questions; the stored record has one history entry per answer,
    every question in it is either a correct answer or a recorded
    mistake, and the turn counter is still [0]. *)
Theorem every_answer_is_counted (w : World.World) (sid name : string) (max_ts : Z)
    (env0 env1 : World.Env)
    (submissions : list (MathTutor.Question * string * World.Env)) :
  let started := state_of (Coordinator.start_session sid name max_ts env0 w) in
  let final := submit_all sid submissions started in
  ∃ g w' s,
    Coordinator.end_session sid env1 final = Returned g w' ∧
    MathTutor.ps_total_questions (Coordinator.goodbye_progress g)
    = Z.of_nat (length submissions) ∧
    0 ≤ MathTutor.ps_correct_answers (Coordinator.goodbye_progress g)
      ≤ MathTutor.ps_total_questions (Coordinator.goodbye_progress g) ∧
    Memory.resolve (World.memory_service final) sid = Some s ∧
    progress_ok (progress s) ∧
    length (question_history (progress s)) = length submissions ∧
    World.question_count final !! sid = Some (PInt 0).
Proof.
  intros started final.
  assert (after_answers sid 0 started) as H0.
  { eexists. split; [subst started; simpl; apply lookup_insert_eq|].
    split; [done|]. split; [|done].
    split; [constructor|]. split; [constructor|]. done. }
  destruct (submit_all_counts sid submissions started 0%nat H0)
    as [(s & Hs & Hid & Hok & Htot & Hlen) Hc].
  fold final in Hs, Hc. simpl in Htot, Hlen.
  assert (readable (World.memory_service final) sid) as Hr
    by (intros Hn; by rewrite Hs in Hn).
  assert (Memory.resolve (World.memory_service final) sid = Some s) as Hres
    by (unfold Memory.resolve; by rewrite Hs).
  eexists _, _, s. split.
  { unfold Coordinator.end_session, Coordinator.get_progress, bind.
    by rewrite (progress_summary_resolved final sid env1 s Hr Hres). }
  cbn [Coordinator.goodbye_progress MathTutor.ps_total_questions
       MathTutor.ps_correct_answers].
  destruct Hok as (Hnd & Hpos & Hc0 & Hsum).
  split; [done|]. split.
  { split; [done|]. rewrite Hsum.
    assert (0 ≤ mistakes (weak_areas (progress s))); [|lia].
    clear -Hpos. induction Hpos as [|[k x] wa Hx _ IH]; simpl in *; lia. }
  split; [done|]. split; [done|]. split; [done|].
  rewrite Hc. subst started. simpl. apply lookup_insert_eq.
Qed.

(** X27. A pause does not close the session to answers, and a resume
    does not roll them back.  For a session the repository resolves,
    after the coordinator's [pause_session] an answer is still evaluated
    and counted, the session staying paused with its payload; the
    [resume_session] that follows answers ["resumed"] with the session
    as it then is: not paused, and with the answer given during the pause
    counted in its progress. *)
Theorem answers_while_paused_are_kept (model_dump : StudentProgress → pyval)
    (w : World.World) (sid : string) (s : StudentSession)
    (qd : MathTutor.Question) (user_answer : string) (env : World.Env) :
  let ms := World.memory_service w in
  Memory.wf_service ms →
  readable ms sid →
  Memory.resolve ms sid = Some s →
  ∃ w1 ev w2 s2 s3 w3,
    Coordinator.pause_session model_dump sid w = Returned paused_reply w1 ∧
    MathTutor.evaluate_answer sid qd user_answer env w1 = Returned ev w2 ∧
    MathTutor.ev_total_questions ev = total_questions (progress s) + 1 ∧
    holds (World.memory_service w2) sid s2 ∧
    is_paused s2 = true ∧
    current_state s2 = Some (payload_of model_dump w sid s) ∧
    Coordinator.resume_session sid w2 = Returned (resumed_reply s3) w3 ∧
    is_paused s3 = false ∧
    progress s3 = progress s2 ∧
    total_questions (progress s3) = total_questions (progress s) + 1 ∧
    holds (World.memory_service w3) sid s3.
Proof.
  intros ms Hwf Hr Hres.
  pose proof (resolve_wf _ _ _ Hwf Hres) as Hid.
  set (payload := payload_of model_dump w sid s).
  set (s1 := Memory.set_pause s true (Some payload)).
  set (ms1 := updated (cached ms sid) s1).
  set (w1 := with_service w ms1).
  assert (Coordinator.pause_session model_dump sid w = Returned paused_reply w1)
    as Hpause.
  { rewrite coordinator_pause_run by done. fold ms. by rewrite Hres. }
  assert (Memory.wf_service ms1) as Hwf1 by by apply updated_wf, cached_wf.
  assert (Memory.sessions ms1 !! sid = Some s1) as Hs1
    by (subst ms1; simpl; rewrite Hid; apply lookup_insert_eq).
  change (World.memory_service w1) with ms1 in *.
  assert (readable ms1 sid) as Hr1
    by (intros Hn; by rewrite Hs1 in Hn).
  assert (Memory.resolve ms1 sid = Some s1) as Hres1
    by (unfold Memory.resolve; by rewrite Hs1).
  pose proof (evaluate_answer_run w1 sid qd user_answer env s1 Hr1 Hres1) as Heval.
  cbv zeta in Heval.
  match type of Heval with _ = Returned ?ev0 (with_service _ (updated _ ?s0)) =>
    set (ev := ev0) in *; set (s2 := s0) in *
  end.
  set (ms2 := updated (cached ms1 sid) s2) in *.
  set (w2 := with_service w1 ms2) in *.
  assert (Memory.wf_service ms2) as Hwf2 by by apply updated_wf, cached_wf.
  assert (Memory.sessions ms2 !! sid = Some s2) as Hs2
    by (subst ms2; cbn [updated Memory.sessions];
        replace (session_id s2) with sid by (symmetry; exact Hid);
        apply lookup_insert_eq).
  assert (readable ms2 sid) as Hr2 by (intros Hn; by rewrite Hs2 in Hn).
  assert (Memory.resolve ms2 sid = Some s2) as Hres2
    by (unfold Memory.resolve; by rewrite Hs2).
  pose proof (coordinator_resume_run w2 sid Hwf2 Hr2) as Hresume.
  change (World.memory_service w2) with ms2 in Hresume.
  rewrite Hres2 in Hresume. cbn in Hresume.
  eexists w1, ev, w2, s2, _, _.
  split; [exact Hpause|]. split; [exact Heval|].
  split; [subst ev; simpl; by rewrite update_progress_total|].
  split; [by apply holds_updated|]. split; [done|]. split; [done|].
  split; [exact Hresume|]. split; [done|]. split; [done|].
  split; [simpl; by rewrite update_progress_total|].
  by apply holds_updated.
Qed.

Lemma answers_while_paused_are_kept_witness :
  ∃ w1 ev w2,
    Coordinator.pause_session (λ _, PNone) "s1" (world_of ana (Some (PInt 2)))
    = Returned paused_reply w1 ∧
    MathTutor.evaluate_answer "s1"
      {| MathTutor.q_question := "5 x 6?"; MathTutor.q_timestable := 5;
         MathTutor.q_multiplier := 6; MathTutor.q_expected_answer := 30;
         MathTutor.q_session_id := "s1" |}
      "30" (env_of "Great!") w1 = Returned ev w2 ∧
    MathTutor.ev_total_questions ev = 1.
Proof.
  destruct (answers_while_paused_are_kept (λ _, PNone)
              (world_of ana (Some (PInt 2))) "s1" ana
              {| MathTutor.q_question := "5 x 6?"; MathTutor.q_timestable := 5;
                 MathTutor.q_multiplier := 6; MathTutor.q_expected_answer := 30;
                 MathTutor.q_session_id := "s1" |}
              "30" (env_of "Great!")
              (wf_world_of ana _) (readable_world_of ana _ "s1")
              (resolve_world_of ana _))
    as (w1 & ev & w2 & _ & _ & _ & Hp & He & Ht & _).
  exists w1, ev, w2. split; [exact Hp|]. split; [exact He | exact Ht].
Defined.
